(** * SQL-Automation: the sequential SQL file runner of [sql_runner.py]

    A shallow embedding of [SQLQueryRunner] and of the Python and POSIX
    library functions it calls, followed by the properties of file
    discovery, statement splitting, per-file execution and batch
    orchestration.

    Conventions of the embedding.
    - A Python [str] is a [string]: a sequence of characters with code
      points below 256.  [str.isspace] and [str.lower] are written out
      on that range.
    - The operating system and the database client are external: they
      are a [World], a record of state-passing operations each of which
      may raise an exception.  Every call into the world is recorded,
      with its result, as an [event]; so is every log record.
    - A method body is a computation [M A]: from a world it gives an
      [outcome] (a returned value, a raised [Exception], or the
      [SystemExit] of [sys.exit]), the next world and the events it
      emitted, in order. *)

From Stdlib Require Import Bool Arith NArith ZArith List Lia.
From Stdlib Require Import Ascii String DecimalString.
From Stdlib Require Import Sorted Permutation.
Import ListNotations.

Open Scope string_scope.
Open Scope list_scope.

Set Implicit Arguments.

(* ================================================================== *)
(** * Python [str] methods *)
(* ================================================================== *)

Module PyStr.

(** [bool(s)] of a string: true when it is not empty. *)
Definition truthy (s : string) : bool :=
  match s with
  | EmptyString => false
  | String _ _ => true
  end.

(** [c.isspace()] for a code point below 256: TAB, LF, VT, FF, CR,
    the separators FS, GS, RS, US, the space, NEL and the no-break
    space. *)
Definition isspace (c : ascii) : bool :=
  let n := N_of_ascii c in
  (((9 <=? n) && (n <=? 13)) || ((28 <=? n) && (n <=? 32))
   || (n =? 133) || (n =? 160))%N.

(** [c.lower()] for a code point below 256: the letters A-Z and the
    accented capitals U+00C0-U+00DE (the sign U+00D7 apart) move up by
    32. *)
Definition lower_char (c : ascii) : ascii :=
  let n := N_of_ascii c in
  if (((65 <=? n) && (n <=? 90))
      || ((192 <=? n) && (n <=? 222) && negb (n =? 215)))%N
  then ascii_of_N (n + 32)
  else c.

(** [s.lower()] *)
Fixpoint lower (s : string) : string :=
  match s with
  | EmptyString => EmptyString
  | String c s' => String (lower_char c) (lower s')
  end.

(** [s.lstrip()] *)
Fixpoint lstrip (s : string) : string :=
  match s with
  | EmptyString => EmptyString
  | String c s' => if isspace c then lstrip s' else s
  end.

(** [s.rstrip()] *)
Fixpoint rstrip (s : string) : string :=
  match s with
  | EmptyString => EmptyString
  | String c s' =>
      match rstrip s' with
      | EmptyString => if isspace c then EmptyString else String c EmptyString
      | r => String c r
      end
  end.

(** [s.strip()] *)
Definition strip (s : string) : string := rstrip (lstrip s).

(** [s.split(sep)] for a separator [sep] of one character: one
    fragment more than there are separators, fragments possibly
    empty. *)
Fixpoint split (sep : ascii) (s : string) : list string :=
  match s with
  | EmptyString => [EmptyString]
  | String c s' =>
      if Ascii.eqb c sep then EmptyString :: split sep s'
      else match split sep s' with
           | frag :: rest => String c frag :: rest
           | [] => [String c EmptyString]
           end
  end.

(** [s.startswith(p)] *)
Fixpoint startswith (s p : string) : bool :=
  match p, s with
  | EmptyString, _ => true
  | String _ _, EmptyString => false
  | String a p', String c s' => Ascii.eqb c a && startswith s' p'
  end.

(** [s.endswith(suffix)]: [s] is the suffix, or what follows its first
    character ends with it. *)
Fixpoint endswith (s suffix : string) : bool :=
  String.eqb s suffix
  || match s with
     | EmptyString => false
     | String _ s' => endswith s' suffix
     end.

(** [sep.join(l)] *)
Definition join (sep : string) (l : list string) : string :=
  String.concat sep l.

(** [sorted(l)] on strings: the ascending rearrangement for the
    code-point order [String.leb].  The order is total and
    antisymmetric, so the result does not depend on the sorting
    algorithm; insertion is used here. *)
Fixpoint insert (x : string) (l : list string) : list string :=
  match l with
  | [] => [x]
  | y :: l' => if String.leb x y then x :: l else y :: insert x l'
  end.

Fixpoint sorted (l : list string) : list string :=
  match l with
  | [] => []
  | x :: l' => insert x (sorted l')
  end.

(** [str(n)] of a natural number. *)
Definition str_of_nat (n : nat) : string :=
  NilZero.string_of_uint (Nat.to_uint n).

End PyStr.

(* ================================================================== *)
(** * [os.path] on POSIX *)
(* ================================================================== *)

Module OsPath.

Definition sep : ascii := "/"%char.

(** [os.path.join(a, b)]: [b] alone when it is absolute, otherwise [a]
    and [b] with one separator between them unless [a] is empty or
    already ends with one. *)
Definition join (a b : string) : string :=
  if PyStr.startswith b "/" then b
  else if negb (PyStr.truthy a) || PyStr.endswith a "/" then (a ++ b)%string
  else (a ++ "/" ++ b)%string.

(** [os.path.basename(p)]: what follows the last separator. *)
Definition basename (p : string) : string :=
  last (PyStr.split sep p) EmptyString.

End OsPath.

(* ================================================================== *)
(** * The outside world: file system, database client, log *)
(* ================================================================== *)

(** A Python exception caught by [except Exception]; [str(e)] is its
    message. *)
Inductive pyexn : Type :=
| Exception (msg : string).

Definition str_of_exn (e : pyexn) : string :=
  match e with Exception msg => msg end.

(** What a call into the world gives back: a value, or an exception. *)
Inductive result (A : Type) : Type :=
| Ok (a : A)
| Err (e : pyexn).
Arguments Ok {A} a.
Arguments Err {A} e.

(** Severity of a log record. *)
Inductive level : Type := INFO | WARNING | ERROR.

(** A result row, as the text [f"{row}"] puts into the log. *)
Definition row : Type := string.

(** The connection parameters: a dict from field names to values. *)
Inductive param_value : Type :=
| PStr (s : string)
| PBool (b : bool).

Definition params : Type := list (string * param_value).

(** What the program does to the world, in order. *)
Inductive event : Type :=
| EvListdir (directory : string) (r : result (list string))
| EvRead (file_path : string) (r : result string)
| EvConnect (r : result unit)
| EvCursor (r : result unit)
| EvExecute (statement : string) (r : result unit)
| EvFetchall (r : result (list row))
| EvCommit (r : result unit)
| EvCursorClose (r : result unit)
| EvConnClose (r : result unit)
| EvLog (lvl : level) (msg : string).

(** The operating system and the database client.  [os_listdir] gives
    the entry names of a directory in an order of its choosing;
    [open_read] is [open(path, 'r')] followed by [read()]; the [db_]
    operations are [mysql.connector.connect], [conn.cursor],
    [cursor.execute], [cursor.fetchall] and [conn.commit].  The two
    release operations are the [__exit__] of the cursor and of the
    connection, run when their [with] block is left; like every other
    call they may raise. *)
Record World : Type := {
  W : Type;
  os_listdir : string -> W -> result (list string) * W;
  open_read : string -> W -> result string * W;
  db_connect : params -> W -> result unit * W;
  db_cursor : W -> result unit * W;
  db_execute : string -> W -> result unit * W;
  db_fetchall : W -> result (list row) * W;
  db_commit : W -> result unit * W;
  db_cursor_close : W -> result unit * W;
  db_conn_close : W -> result unit * W
}.

(** How a method body ends. *)
Inductive outcome (A : Type) : Type :=
| Ret (a : A)
| Raise (e : pyexn)
| SysExit (code : Z).
Arguments Ret {A} a.
Arguments Raise {A} e.
Arguments SysExit {A} code.

(** The status the interpreter exits with when the script's [main()]
    ends this way: 0 on return, the argument of [sys.exit], 1 on an
    exception nobody caught. *)
Definition exit_status {A : Type} (o : outcome A) : Z :=
  match o with
  | Ret _ => 0
  | Raise _ => 1
  | SysExit code => code
  end.

(* ================================================================== *)
(** * Computations *)
(* ================================================================== *)

Section Computations.

Variable Wd : World.

Definition M (A : Type) : Type := W Wd -> outcome A * W Wd * list event.

Definition ret {A : Type} (a : A) : M A := fun w => (Ret a, w, []).

Definition bind {A B : Type} (m : M A) (k : A -> M B) : M B :=
  fun w =>
    match m w with
    | (Ret a, w1, t1) => let '(r, w2, t2) := k a w1 in (r, w2, t1 ++ t2)
    | (Raise e, w1, t1) => (Raise e, w1, t1)
    | (SysExit c, w1, t1) => (SysExit c, w1, t1)
    end.

(** [raise e], and the bare [raise] of a handler that caught [e]. *)
Definition reraise {A : Type} (e : pyexn) : M A :=
  fun w => (Raise e, w, []).

(** [sys.exit(code)] *)
Definition sys_exit {A : Type} (code : Z) : M A :=
  fun w => (SysExit code, w, []).

(** A call into the world, recorded with its result. *)
Definition call {A : Type} (op : W Wd -> result A * W Wd)
           (ev : result A -> event) : M A :=
  fun w =>
    let (r, w1) := op w in
    (match r with Ok a => Ret a | Err e => Raise e end, w1, [ev r]).

(** [self.logger.<lvl>(msg)] *)
Definition log (lvl : level) (msg : string) : M unit :=
  fun w => (Ret tt, w, [EvLog lvl msg]).

(** [try: m except Exception as e: h e].  [SystemExit] is not an
    [Exception] and passes through. *)
Definition try_except {A : Type} (m : M A) (h : pyexn -> M A) : M A :=
  fun w =>
    match m w with
    | (Raise e, w1, t1) => let '(r, w2, t2) := h e w1 in (r, w2, t1 ++ t2)
    | other => other
    end.

(** [with enter as x: body]: when [enter] succeeds the body runs and
    the resource is released however the body ends.  The release does
    not suppress what the body raised; when the release itself raises,
    its exception takes the place of whatever the body returned or
    raised. *)
Definition with_ {A : Type} (enter : M unit)
           (release : W Wd -> result unit * W Wd)
           (released : result unit -> event) (body : M A) : M A :=
  fun w =>
    match enter w with
    | (Ret _, w1, t1) =>
        let '(r, w2, t2) := body w1 in
        let (rr, w3) := release w2 in
        (match rr with Ok _ => r | Err e => Raise e end,
         w3, t1 ++ t2 ++ [released rr])
    | (Raise e, w1, t1) => (Raise e, w1, t1)
    | (SysExit c, w1, t1) => (SysExit c, w1, t1)
    end.

(** [for x in l: body x] *)
Fixpoint for_each {A : Type} (l : list A) (body : A -> M unit) : M unit :=
  match l with
  | [] => ret tt
  | x :: l' => bind (body x) (fun _ => for_each l' body)
  end.

End Computations.

Arguments ret {Wd A} a.
Arguments bind {Wd A B} m k.
Arguments reraise {Wd A} e.
Arguments sys_exit {Wd A} code.
Arguments call {Wd A} op ev.
Arguments log {Wd} lvl msg.
Arguments try_except {Wd A} m h.
Arguments with_ {Wd A} enter release released body.
Arguments for_each {Wd A} l body.

Notation "x <- m ;; k" := (bind m (fun x => k))
  (at level 61, m at next level, right associativity).
Notation "m ;;; k" := (bind m (fun _ => k))
  (at level 61, right associativity).

(* ================================================================== *)
(** * [class SQLQueryRunner] *)
(* ================================================================== *)

(** The object: [__init__] stores the connection parameters. *)
Record SQLQueryRunner : Type := {
  connection_params : params
}.

Section Runner.

Variable Wd : World.
Variable self : SQLQueryRunner.

(** The loop of [get_sql_files] over the listing: the joined path of
    every entry whose name ends with [.sql] is appended. *)
Definition collect_sql_files (directory : string) (listing : list string)
  : list string :=
  fold_left
    (fun sql_files file =>
       if PyStr.endswith file ".sql"
       then sql_files ++ [OsPath.join directory file]
       else sql_files)
    listing [].

Definition get_sql_files (directory : string) : M Wd (list string) :=
  listing <- call (os_listdir Wd directory) (EvListdir directory) ;;
  ret (PyStr.sorted (collect_sql_files directory listing)).

Definition read_query_from_file (file_path : string) : M Wd string :=
  try_except
    (call (open_read Wd file_path) (EvRead file_path))
    (fun e =>
       log ERROR ("Error reading file " ++ file_path ++ ": "
                  ++ str_of_exn e)%string ;;;
       reraise e).

(** Lines 50-51: the statements of a query text. *)
Definition split_statements (query : string) : list string :=
  let statements := PyStr.split ";" query in
  map PyStr.strip
      (filter (fun stmt => PyStr.truthy (PyStr.strip stmt)) statements).

(** The test of line 58. *)
Definition is_select (statement : string) : bool :=
  PyStr.startswith (PyStr.strip (PyStr.lower statement)) "select".

(** Lines 54-61: the body of the loop over the statements. *)
Definition execute_statement (statement : string) : M Wd unit :=
  if PyStr.truthy statement then
    call (db_execute Wd statement) (EvExecute statement) ;;;
    if is_select statement then
      results <- call (db_fetchall Wd) EvFetchall ;;
      for_each results
               (fun row => log INFO ("Result: " ++ row)%string)
    else ret tt
  else ret tt.

Definition execute_query (query file_name : string) : M Wd bool :=
  try_except
    (with_ (call (db_connect Wd (connection_params self)) EvConnect)
           (db_conn_close Wd) EvConnClose
       (with_ (call (db_cursor Wd) EvCursor)
              (db_cursor_close Wd) EvCursorClose
          (log INFO ("Executing query from " ++ file_name)%string ;;;
           for_each (split_statements query) execute_statement ;;;
           call (db_commit Wd) EvCommit ;;;
           log INFO ("Successfully executed query from "
                     ++ file_name)%string ;;;
           ret true)))
    (fun e =>
       log ERROR ("Error executing query from " ++ file_name ++ ": "
                  ++ str_of_exn e)%string ;;;
       ret false).

(** Lines 81-91: the body of the loop over the files. *)
Definition process_file (sql_file : string) : M Wd unit :=
  try_except
    (query <- read_query_from_file sql_file ;;
     success <- execute_query query (OsPath.basename sql_file) ;;
     if negb success then
       log ERROR ("Stopping execution due to failure in "
                  ++ sql_file)%string ;;;
       sys_exit 1
     else ret tt)
    (fun e =>
       log ERROR ("Fatal error processing " ++ sql_file ++ ": "
                  ++ str_of_exn e)%string ;;;
       sys_exit 1).

Definition run_all_queries (directory : string) : M Wd unit :=
  sql_files <- get_sql_files directory ;;
  match sql_files with
  | [] =>
      log WARNING ("No SQL files found in " ++ directory)%string ;;;
      ret tt
  | _ :: _ =>
      log INFO ("Found " ++ PyStr.str_of_nat (List.length sql_files)
                ++ " SQL files to execute")%string ;;;
      for_each sql_files process_file
  end.

End Runner.

(* ================================================================== *)
(** * Reading a trace *)
(* ================================================================== *)

(** The paths the program tried to read. *)
Definition reads (t : list event) : list string :=
  flat_map (fun ev => match ev with EvRead p _ => [p] | _ => [] end) t.

(** The statements handed to [cursor.execute], with what came back. *)
Definition executes (t : list event) : list (string * result unit) :=
  flat_map (fun ev => match ev with EvExecute s r => [(s, r)] | _ => [] end) t.

(** The statements [cursor.execute] ran without error. *)
Definition executed_ok (t : list event) : list string :=
  flat_map (fun ev =>
              match ev with EvExecute s (Ok _) => [s] | _ => [] end) t.

(** The calls of [conn.commit], with what came back. *)
Definition commits (t : list event) : list (result unit) :=
  flat_map (fun ev => match ev with EvCommit r => [r] | _ => [] end) t.

(** The attempts to open a connection. *)
Definition connects (t : list event) : list (result unit) :=
  flat_map (fun ev => match ev with EvConnect r => [r] | _ => [] end) t.

(** The calls of [cursor.fetchall]. *)
Definition fetches (t : list event) : list (result (list row)) :=
  flat_map (fun ev => match ev with EvFetchall r => [r] | _ => [] end) t.

(** The releases of the cursor and of the connection, with what came
    back. *)
Definition releases (t : list event) : list (result unit) :=
  flat_map (fun ev =>
              match ev with
              | EvCursorClose r | EvConnClose r => [r]
              | _ => []
              end) t.

(** The log records. *)
Definition logged (t : list event) : list (level * string) :=
  flat_map (fun ev => match ev with EvLog l m => [(l, m)] | _ => [] end) t.

(** One log record per row. *)
Definition row_logs (rows : list row) : list event :=
  map (fun r => EvLog INFO ("Result: " ++ r)%string) rows.

(* ================================================================== *)
(** * The vocabulary of the specification *)
(* ================================================================== *)

(** The lexicographic order on strings, by code point. *)
Definition lex_le (a b : string) : Prop := String.leb a b = true.

(** An entry name with the extension [.sql]. *)
Definition has_sql_suffix (name : string) : bool := PyStr.endswith name ".sql".

(** What [os.path.join] puts in front of a relative name. *)
Definition dir_prefix (directory : string) : string :=
  if negb (PyStr.truthy directory) || PyStr.endswith directory "/"
  then directory
  else (directory ++ "/")%string.

(** A name [os.path.join] treats as relative.  Every entry name of a
    directory is one: a file name holds no separator. *)
Definition relative (name : string) : bool := negb (PyStr.startswith name "/").

(** Discovery as the specification words it: the matching entry names
    in lexicographic order, each turned into a path. *)
Definition discover_by_name (directory : string) (listing : list string)
  : list string :=
  map (OsPath.join directory) (PyStr.sorted (filter has_sql_suffix listing)).

(** The statement splitter as the specification words it: split on the
    semicolon, trim every fragment, drop the fragments that are empty
    after trimming. *)
Definition split_trim_discard (text : string) : list string :=
  filter PyStr.truthy (map PyStr.strip (PyStr.split ";" text)).

(** Every character of [s] satisfies [p]. *)
Fixpoint all_chars (p : ascii -> bool) (s : string) : bool :=
  match s with
  | EmptyString => true
  | String c s' => p c && all_chars p s'
  end.

(** The character [c] occurs in [s]. *)
Fixpoint occurs (c : ascii) (s : string) : bool :=
  match s with
  | EmptyString => false
  | String x s' => Ascii.eqb x c || occurs c s'
  end.

(** First and last character of a string. *)
Definition first_char (s : string) : option ascii :=
  match s with
  | EmptyString => None
  | String c _ => Some c
  end.

Fixpoint last_char (s : string) : option ascii :=
  match s with
  | EmptyString => None
  | String c EmptyString => Some c
  | String _ s' => last_char s'
  end.

(** A string with no whitespace at either end. *)
Definition trimmed (s : string) : Prop :=
  (forall c, first_char s = Some c -> PyStr.isspace c = false) /\
  (forall c, last_char s = Some c -> PyStr.isspace c = false).

(** A text of whitespace and semicolons only. *)
Definition blank_text (text : string) : bool :=
  all_chars (fun c => PyStr.isspace c || Ascii.eqb c ";") text.

(** What the loop over the statements of one file may emit, and how it
    stopped: at the end ([None]) or on the exception of a call
    ([Some e]).  A statement is executed; when it is a [select] its rows
    are fetched at once and logged one by one; only then comes the next
    statement. *)
Inductive statements_trace
  : list string -> list event -> option pyexn -> Prop :=
| st_done :
    statements_trace [] [] None
| st_plain statement rest t stop :
    is_select statement = false ->
    statements_trace rest t stop ->
    statements_trace (statement :: rest)
                     (EvExecute statement (Ok tt) :: t) stop
| st_select statement rows rest t stop :
    is_select statement = true ->
    statements_trace rest t stop ->
    statements_trace (statement :: rest)
                     (EvExecute statement (Ok tt)
                        :: EvFetchall (Ok rows) :: row_logs rows ++ t) stop
| st_execute_error statement e rest :
    statements_trace (statement :: rest)
                     [EvExecute statement (Err e)] (Some e)
| st_fetch_error statement e rest :
    is_select statement = true ->
    statements_trace (statement :: rest)
                     [EvExecute statement (Ok tt); EvFetchall (Err e)]
                     (Some e).

(** The record [execute_query] writes when it catches [e]. *)
Definition error_record (file_name : string) (e : pyexn) : event :=
  EvLog ERROR ("Error executing query from " ++ file_name ++ ": "
               ++ str_of_exn e)%string.

(** The exception in flight once a release has run: the one the
    release raised, or else the one that was in flight before. *)
Definition after_release (o : option pyexn) (r : result unit)
  : option pyexn :=
  match r with
  | Err e => Some e
  | Ok _ => o
  end.

(** What [execute_query] returns, and the record it closes the log
    with, given the exception that reaches its handler, if any. *)
Definition returned (o : option pyexn) : bool :=
  match o with
  | None => true
  | Some _ => false
  end.

Definition closing_record (file_name : string) (o : option pyexn)
  : list event :=
  match o with
  | None => []
  | Some e => [error_record file_name e]
  end.

(** What happens while the cursor is open, and the exception that
    leaves the block, if any: the statements stop on an error; or they
    all run and the commit raises; or the commit goes through and
    success is logged. *)
Inductive cursor_block (file_name : string) (statements : list string)
  : list event -> option pyexn -> Prop :=
| cb_statement_error body e :
    statements_trace statements body (Some e) ->
    cursor_block file_name statements
                 (EvLog INFO ("Executing query from " ++ file_name)%string
                    :: body)
                 (Some e)
| cb_commit_error body e :
    statements_trace statements body None ->
    cursor_block file_name statements
                 (EvLog INFO ("Executing query from " ++ file_name)%string
                    :: body ++ [EvCommit (Err e)])
                 (Some e)
| cb_success body :
    statements_trace statements body None ->
    cursor_block file_name statements
                 (EvLog INFO ("Executing query from " ++ file_name)%string
                    :: body
                    ++ [EvCommit (Ok tt);
                        EvLog INFO ("Successfully executed query from "
                                    ++ file_name)%string])
                 None.

(** The ways the execution of one file can go, with the value returned
    and the events emitted: the connection is refused; or the cursor is
    refused and the connection released; or the cursor block runs and
    cursor and connection are released, in that order.  Whatever
    exception is in flight after the releases is logged, and [false]
    returned; [true] is returned when there is none. *)
Inductive query_run (file_name : string) (statements : list string)
  : bool -> list event -> Prop :=
| qr_connect_error e :
    query_run file_name statements false
              [EvConnect (Err e); error_record file_name e]
| qr_cursor_error e rc :
    query_run file_name statements false
              ([EvConnect (Ok tt); EvCursor (Err e); EvConnClose rc]
                 ++ closing_record file_name (after_release (Some e) rc))
| qr_cursor_block inner o rk rc final :
    cursor_block file_name statements inner o ->
    final = after_release (after_release o rk) rc ->
    query_run file_name statements (returned final)
              ([EvConnect (Ok tt); EvCursor (Ok tt)]
                 ++ inner
                 ++ [EvCursorClose rk; EvConnClose rc]
                 ++ closing_record file_name final).

(** The event is a call to the database client that raised [e]. *)
Definition raises (e : pyexn) (ev : event) : Prop :=
  match ev with
  | EvConnect (Err e')
  | EvCursor (Err e')
  | EvExecute _ (Err e')
  | EvFetchall (Err e')
  | EvCommit (Err e')
  | EvCursorClose (Err e')
  | EvConnClose (Err e') => e' = e
  | _ => False
  end.

(** A call to the database client raised [e] in the trace [t]. *)
Definition raised (e : pyexn) (t : list event) : Prop :=
  Exists (raises e) t.

(** The exceptions the calls to the database client raised, in the
    order they were raised, and the last of them. *)
Definition exceptions (t : list event) : list pyexn :=
  flat_map (fun ev =>
              match ev with
              | EvConnect (Err e)
              | EvCursor (Err e)
              | EvExecute _ (Err e)
              | EvFetchall (Err e)
              | EvCommit (Err e)
              | EvCursorClose (Err e)
              | EvConnClose (Err e) => [e]
              | _ => []
              end) t.

Definition last_raised (t : list event) : option pyexn :=
  last (map Some (exceptions t)) None.

(** A cursor was opened; a commit went through. *)
Definition cursor_opened (t : list event) : bool :=
  existsb (fun ev => match ev with EvCursor (Ok _) => true | _ => false end) t.

Definition committed (t : list event) : bool :=
  existsb (fun ev => match ev with EvCommit (Ok _) => true | _ => false end) t.

(** No release of the trace raised. *)
Definition released_cleanly (t : list event) : Prop :=
  Forall (fun r => r = Ok tt) (releases t).

(** The log records for the rows of the fetches of a trace. *)
Definition fetched_row_records (t : list event) : list (level * string) :=
  flat_map (fun fetched =>
              match fetched with
              | Ok rows => map (fun r => (INFO, ("Result: " ++ r)%string)) rows
              | Err _ => []
              end)
           (fetches t).

(** Neither [cursor.execute] nor [cursor.fetchall] is called, and no
    row is logged, in the trace [t]. *)
Definition no_statement_events (t : list event) : Prop :=
  executes t = [] /\ fetches t = []
  /\ forall r, ~ In (EvLog INFO ("Result: " ++ r)%string) t.

Section Failures.

Variable Wd : World.
Variable self : SQLQueryRunner.

(** From the world [w], the file fails to load: reading it raises. *)
Definition load_fails (sql_file : string) (w w' : W Wd) (t : list event)
  : Prop :=
  exists e, read_query_from_file Wd sql_file w = (Raise e, w', t).

(** From the world [w], the file loads and its execution reports
    failure. *)
Definition execution_fails (sql_file : string) (w w' : W Wd)
           (t : list event) : Prop :=
  exists query w1 t1 t2,
    read_query_from_file Wd sql_file w = (Ret query, w1, t1)
    /\ execute_query Wd self query (OsPath.basename sql_file) w1
       = (Ret false, w', t2)
    /\ t = t1 ++ t2.

End Failures.

(* ================================================================== *)
(** * A small world to run the program in *)
(* ================================================================== *)

Module Demo.

Definition nl : string := String "010"%char EmptyString.

(** The entries of the directory [q], in the order the system lists
    them; [sub] is a directory that holds [deep.sql]. *)
Definition listing : list string :=
  ["2.sql"; "notes.txt"; "sub"; "1.sql"; "old.SQL"; "3.sql"].

(** The files of [q]; [broken/1.sql] cannot be read. *)
Definition contents (file_path : string) : result string :=
  if String.eqb file_path "q/1.sql" then
    Ok ("INSERT INTO t VALUES (1);  " ++ nl ++ " SELECT * FROM t; ")%string
  else if String.eqb file_path "q/2.sql" then
    Ok "UPDATE t SET x = 2; BAD; DELETE FROM t"
  else if String.eqb file_path "q/3.sql" then
    Ok "Select x From t"
  else if String.eqb file_path "broken/2.sql" then
    Ok "SELECT 1"
  else Err (Exception "Permission denied").

(** The state of this world is the list of statements the server has
    run.  The server rejects the statement [BAD]; [up] tells whether a
    connection can be opened and [durable] whether a commit goes
    through. *)
Definition world (up durable : bool) : World := {|
  W := list string;
  os_listdir := fun directory w =>
    (if String.eqb directory "q" then Ok listing
     else if String.eqb directory "q/sub" then Ok ["deep.sql"]
     else if String.eqb directory "broken" then Ok ["2.sql"; "1.sql"]
     else if String.eqb directory "empty" then Ok ["readme.txt"; "x.SQL"]
     else Err (Exception "No such file or directory"), w);
  open_read := fun file_path w => (contents file_path, w);
  db_connect := fun _ w =>
    (if up then Ok tt else Err (Exception "Can't connect to MySQL server"),
     w);
  db_cursor := fun w => (Ok tt, w);
  db_execute := fun statement w =>
    if String.eqb statement "BAD"
    then (Err (Exception "You have an error in your SQL syntax"), w)
    else (Ok tt, w ++ [statement]);
  db_fetchall := fun w => (Ok ["(1,)"; "(2,)"], w);
  db_commit := fun w =>
    (if durable then Ok tt else Err (Exception "Lost connection"), w);
  db_cursor_close := fun w => (Ok tt, w);
  db_conn_close := fun w => (Ok tt, w)
|}.

Definition runner : SQLQueryRunner := {|
  connection_params :=
    [("host", PStr "localhost"); ("user", PStr "root");
     ("password", PStr "1234567890"); ("database", PStr "temp");
     ("raise_on_warnings", PBool true)]
|}.

End Demo.

(* ================================================================== *)
(** * The entry point *)
(* ================================================================== *)

Module Posix.

(** [p[:p.rfind('/') + 1]]: the path up to its last separator, that
    separator included. *)
Fixpoint path_head (p : string) : string :=
  match p with
  | EmptyString => EmptyString
  | String c p' =>
      if occurs "/" p then String c (path_head p') else EmptyString
  end.

(** [s.rstrip('/')] *)
Fixpoint rstrip_sep (s : string) : string :=
  match s with
  | EmptyString => EmptyString
  | String c s' =>
      match rstrip_sep s' with
      | EmptyString =>
          if Ascii.eqb c "/" then EmptyString else String c EmptyString
      | r => String c r
      end
  end.

(** [os.path.dirname(p)]: the head of the path, without its trailing
    separators unless it is made of separators only. *)
Definition dirname (p : string) : string :=
  let head := path_head p in
  if PyStr.truthy head
     && negb (all_chars (fun c => Ascii.eqb c "/") head)
  then rstrip_sep head
  else head.

End Posix.

(** What [main] needs of the system beyond the [World] of the runner:
    [os.makedirs(d, exist_ok=True)] and the [logging.basicConfig] call
    of [setup_logging], which opens the log file. *)
Record Host : Type := {
  host_world : World;
  os_makedirs : string -> W host_world -> result unit * W host_world;
  logging_basicConfig : W host_world -> result unit * W host_world
}.

(** What [main] does to the system: its own two calls, and the events of
    the runner. *)
Inductive main_event : Type :=
| MevMakedirs (directory : string) (r : result unit)
| MevBasicConfig (r : result unit)
| MevRunner (ev : event).

(** The events of the runner in a trace of [main]. *)
Definition runner_events (t : list main_event) : list event :=
  flat_map (fun mev => match mev with MevRunner ev => [ev] | _ => [] end) t.

(** Lines 95-101. *)
Definition main_connection_params : params :=
  [("host", PStr "localhost"); ("user", PStr "root");
   ("password", PStr "1234567890"); ("database", PStr "temp");
   ("raise_on_warnings", PBool true)].

(** Lines 104-105, [script_path] being [os.path.abspath(__file__)]. *)
Definition sql_directory_of (script_path : string) : string :=
  let current_dir := Posix.dirname script_path in
  OsPath.join current_dir "sql_files".

Section EntryPoint.

Variable H : Host.

Definition setup_logging (w : W (host_world H))
  : result unit * W (host_world H) * list main_event :=
  let (r, w1) := logging_basicConfig H w in (r, w1, [MevBasicConfig r]).

(** [SQLQueryRunner(connection_params)]: [__init__] stores the
    parameters and sets up logging. *)
Definition SQLQueryRunner_init (connection_params : params)
           (w : W (host_world H))
  : result SQLQueryRunner * W (host_world H) * list main_event :=
  let self := {| connection_params := connection_params |} in
  let '(r, w1, t) := setup_logging w in
  (match r with Ok _ => Ok self | Err e => Err e end, w1, t).

Definition main (script_path : string) (w : W (host_world H))
  : outcome unit * W (host_world H) * list main_event :=
  let connection_params := main_connection_params in
  let sql_directory := sql_directory_of script_path in
  match os_makedirs H sql_directory w with
  | (Err e, w1) => (Raise e, w1, [MevMakedirs sql_directory (Err e)])
  | (Ok u, w1) =>
      match SQLQueryRunner_init connection_params w1 with
      | (Err e, w2, t2) =>
          (Raise e, w2, MevMakedirs sql_directory (Ok u) :: t2)
      | (Ok runner, w2, t2) =>
          let '(r, w3, t3) :=
            run_all_queries (host_world H) runner sql_directory w2 in
          (r, w3,
           MevMakedirs sql_directory (Ok u) :: t2 ++ map MevRunner t3)
      end
  end.

End EntryPoint.

(** Nothing failed in a trace of [main]: no call of [main] or
    [os.listdir] raised and no record of level ERROR was written. *)
Definition clean_event (mev : main_event) : bool :=
  match mev with
  | MevMakedirs _ (Err _) => false
  | MevBasicConfig (Err _) => false
  | MevRunner (EvListdir _ (Err _)) => false
  | MevRunner (EvLog ERROR _) => false
  | _ => true
  end.

Definition clean_runner_event (ev : event) : bool :=
  clean_event (MevRunner ev).

(* ================================================================== *)
(** * Runs of a file and of a batch *)
(* ================================================================== *)

(** The messages of the records of level ERROR. *)
Definition errors (t : list event) : list string :=
  flat_map (fun ev => match ev with EvLog ERROR m => [m] | _ => [] end) t.

(** The paths whose read raised. *)
Definition failed_reads (t : list event) : list string :=
  flat_map (fun ev => match ev with EvRead p (Err _) => [p] | _ => [] end) t.

(** The three ways processing one file can go, with how it ends and
    the events emitted. *)
Inductive file_run (sql_file : string) : outcome unit -> list event -> Prop :=
| fr_load_error e :
    file_run sql_file (SysExit 1)
             [EvRead sql_file (Err e);
              EvLog ERROR ("Error reading file " ++ sql_file ++ ": "
                           ++ str_of_exn e)%string;
              EvLog ERROR ("Fatal error processing " ++ sql_file ++ ": "
                           ++ str_of_exn e)%string]
| fr_execution_error query t :
    query_run (OsPath.basename sql_file) (split_statements query) false t ->
    file_run sql_file (SysExit 1)
             (EvRead sql_file (Ok query)
                :: t ++ [EvLog ERROR ("Stopping execution due to failure in "
                                      ++ sql_file)%string])
| fr_success query t :
    query_run (OsPath.basename sql_file) (split_statements query) true t ->
    file_run sql_file (Ret tt) (EvRead sql_file (Ok query) :: t).

(** The loop over the files: it goes on after a file that succeeded and
    ends with the first one that did not. *)
Inductive batch_run : list string -> outcome unit -> list event -> Prop :=
| br_done :
    batch_run [] (Ret tt) []
| br_next sql_file rest t r t' :
    file_run sql_file (Ret tt) t ->
    batch_run rest r t' ->
    batch_run (sql_file :: rest) r (t ++ t')
| br_abort sql_file rest t :
    file_run sql_file (SysExit 1) t ->
    batch_run (sql_file :: rest) (SysExit 1) t.

(** The state of the session with the database server. *)
Inductive session : Type := Idle | Connected | CursorOpen.

(** The discipline of the session: one connection at a time, a cursor
    only on an open connection, statements, fetches and commits only on
    an open cursor, the cursor released before the connection, and the
    file system touched only while no connection is open.  A release
    ends the use of the cursor or of the connection whether or not it
    raised.  [None] when the event breaks the discipline. *)
Definition session_step (s : session) (ev : event) : option session :=
  match ev, s with
  | EvLog _ _, _ => Some s
  | EvListdir _ _, Idle => Some Idle
  | EvRead _ _, Idle => Some Idle
  | EvConnect (Ok _), Idle => Some Connected
  | EvConnect (Err _), Idle => Some Idle
  | EvCursor (Ok _), Connected => Some CursorOpen
  | EvCursor (Err _), Connected => Some Connected
  | EvExecute _ _, CursorOpen => Some CursorOpen
  | EvFetchall _, CursorOpen => Some CursorOpen
  | EvCommit _, CursorOpen => Some CursorOpen
  | EvCursorClose _, CursorOpen => Some Connected
  | EvConnClose _, Connected => Some Idle
  | _, _ => None
  end.

Fixpoint session_after (s : session) (t : list event) : option session :=
  match t with
  | [] => Some s
  | ev :: t' =>
      match session_step s ev with
      | Some s' => session_after s' t'
      | None => None
      end
  end.

(** A statement as the splitter gives them: not empty, without
    semicolon, without whitespace at either end. *)
Definition no_space (o : option ascii) : bool :=
  match o with
  | Some c => negb (PyStr.isspace c)
  | None => true
  end.

Definition clean_statement (s : string) : bool :=
  PyStr.truthy s && negb (occurs ";" s)
  && no_space (first_char s) && no_space (last_char s).

(** A host for the first run: its world is whether the directory of the
    SQL files exists; it is empty once created. *)
Module DemoHost.

Definition world : World := {|
  W := bool;
  os_listdir := fun directory exists_ =>
    (if exists_ then Ok [] else Err (Exception "No such file or directory"),
     exists_);
  open_read := fun _ exists_ => (Err (Exception "No such file"), exists_);
  db_connect := fun _ exists_ => (Ok tt, exists_);
  db_cursor := fun exists_ => (Ok tt, exists_);
  db_execute := fun _ exists_ => (Ok tt, exists_);
  db_fetchall := fun exists_ => (Ok [], exists_);
  db_commit := fun exists_ => (Ok tt, exists_);
  db_cursor_close := fun exists_ => (Ok tt, exists_);
  db_conn_close := fun exists_ => (Ok tt, exists_)
|}.

(** [writable] tells whether the directory can be created. *)
Definition host (writable : bool) : Host := {|
  host_world := world;
  os_makedirs := fun _ exists_ =>
    if writable then (Ok tt, true)
    else (Err (Exception "Permission denied"), exists_);
  logging_basicConfig := fun exists_ => (Ok tt, exists_)
|}.

End DemoHost.

(** A world in which every file of the directory [ok] runs through. *)
Module DemoOk.

Definition contents (file_path : string) : result string :=
  if String.eqb file_path "ok/a.sql" then
    Ok "CREATE TABLE t (x INT); INSERT INTO t VALUES (1);"
  else if String.eqb file_path "ok/b.sql" then
    Ok "select x from t"
  else Err (Exception "No such file or directory").

Definition world : World := {|
  W := list string;
  os_listdir := fun directory w =>
    (if String.eqb directory "ok" then Ok ["b.sql"; "notes.txt"; "a.sql"]
     else Err (Exception "No such file or directory"), w);
  open_read := fun file_path w => (contents file_path, w);
  db_connect := fun _ w => (Ok tt, w);
  db_cursor := fun w => (Ok tt, w);
  db_execute := fun statement w => (Ok tt, w ++ [statement]);
  db_fetchall := fun w => (Ok ["(1,)"], w);
  db_commit := fun w => (Ok tt, w);
  db_cursor_close := fun w => (Ok tt, w);
  db_conn_close := fun w => (Ok tt, w)
|}.

(** The same world, the entries of [ok] listed in the given order. *)
Definition world_listed (listing : list string) : World := {|
  W := list string;
  os_listdir := fun directory w =>
    (if String.eqb directory "ok" then Ok listing
     else Err (Exception "No such file or directory"), w);
  open_read := fun file_path w => (contents file_path, w);
  db_connect := fun _ w => (Ok tt, w);
  db_cursor := fun w => (Ok tt, w);
  db_execute := fun statement w => (Ok tt, w ++ [statement]);
  db_fetchall := fun w => (Ok ["(1,)"], w);
  db_commit := fun w => (Ok tt, w);
  db_cursor_close := fun w => (Ok tt, w);
  db_conn_close := fun w => (Ok tt, w)
|}.

(** A client whose releases may fail: [cursor_closes] and
    [connection_closes] tell whether the cursor and the connection can
    be released without error.  [execute] rejects the statement [BAD]. *)
Definition world_releasing (cursor_closes connection_closes : bool)
  : World := {|
  W := list string;
  os_listdir := fun directory w =>
    (if String.eqb directory "ok" then Ok ["b.sql"; "notes.txt"; "a.sql"]
     else Err (Exception "No such file or directory"), w);
  open_read := fun file_path w => (contents file_path, w);
  db_connect := fun _ w => (Ok tt, w);
  db_cursor := fun w => (Ok tt, w);
  db_execute := fun statement w =>
    if String.eqb statement "BAD"
    then (Err (Exception "You have an error in your SQL syntax"), w)
    else (Ok tt, w ++ [statement]);
  db_fetchall := fun w => (Ok ["(1,)"], w);
  db_commit := fun w => (Ok tt, w);
  db_cursor_close := fun w =>
    (if cursor_closes then Ok tt else Err (Exception "Unread result found"),
     w);
  db_conn_close := fun w =>
    (if connection_closes then Ok tt
     else Err (Exception "MySQL Connection not available"), w)
|}.

End DemoOk.

(* ================================================================== *)
(** * The library functions on examples *)
(* ================================================================== *)

Example split_keeps_empty_fragments :
  PyStr.split ";" "a;b;;c;" = ["a"; "b"; ""; "c"; ""]
  /\ PyStr.split ";" "" = [""].
Proof. split; reflexivity. Qed.

Example strip_both_ends :
  PyStr.strip ("  a b " ++ Demo.nl) = "a b" /\ PyStr.strip "   " = "".
Proof. split; reflexivity. Qed.

Example lower_letters : PyStr.lower "Select * FROM T1" = "select * from t1".
Proof. reflexivity. Qed.

Example endswith_is_case_sensitive :
  PyStr.endswith "a.sql" ".sql" = true
  /\ PyStr.endswith "a.SQL" ".sql" = false
  /\ PyStr.endswith "sql" ".sql" = false.
Proof. repeat split; reflexivity. Qed.

Example sorted_by_code_point :
  PyStr.sorted ["b.sql"; "a.sql"; "B.sql"; "10.sql"; "2.sql"]
  = ["10.sql"; "2.sql"; "B.sql"; "a.sql"; "b.sql"].
Proof. reflexivity. Qed.

Example join_paths :
  OsPath.join "dir" "x.sql" = "dir/x.sql"
  /\ OsPath.join "dir/" "x.sql" = "dir/x.sql"
  /\ OsPath.join "" "x.sql" = "x.sql"
  /\ OsPath.join "dir" "/x.sql" = "/x.sql".
Proof. repeat split; reflexivity. Qed.

Example basename_of_path :
  OsPath.basename "dir/sub/x.sql" = "x.sql"
  /\ OsPath.basename "x.sql" = "x.sql"
  /\ OsPath.basename "dir/" = "".
Proof. repeat split; reflexivity. Qed.

Example is_select_examples :
  is_select "SELECT * FROM t" = true
  /\ is_select "Select x From t" = true
  /\ is_select "INSERT INTO t SELECT 1" = false
  /\ is_select "(SELECT 1)" = false.
Proof. repeat split; reflexivity. Qed.

(* ================================================================== *)
(** * Strings: order, prefixes and suffixes *)
(* ================================================================== *)

Section StringFacts.

Lemma append_nil_r (s : string) : (s ++ "")%string = s.
Proof. induction s as [|c s IH]; simpl; congruence. Qed.

Lemma append_assoc (a b c : string) :
  ((a ++ b) ++ c)%string = (a ++ (b ++ c))%string.
Proof. induction a as [|x a IH]; simpl; congruence. Qed.

Lemma ascii_compare_refl (c : ascii) : Ascii.compare c c = Eq.
Proof. unfold Ascii.compare. apply N.compare_refl. Qed.

Lemma N_of_ascii_inj (x y : ascii) : N_of_ascii x = N_of_ascii y -> x = y.
Proof.
  intros H. rewrite <- (ascii_N_embedding x), <- (ascii_N_embedding y).
  now rewrite H.
Qed.

(** The order on strings is the lexicographic one on code points. *)
Lemma leb_nil_l (s : string) : String.leb "" s = true.
Proof. destruct s; reflexivity. Qed.

Lemma leb_cons (x y : ascii) (a b : string) :
  String.leb (String x a) (String y b) = true <->
  (N_of_ascii x < N_of_ascii y)%N \/ (x = y /\ String.leb a b = true).
Proof.
  unfold String.leb; simpl. unfold Ascii.compare.
  destruct (N.compare_spec (N_of_ascii x) (N_of_ascii y)) as [E|L|G].
  - apply N_of_ascii_inj in E. subst y. split.
    + intros H. right. split; [reflexivity|exact H].
    + intros [H|[_ H]]; [lia|exact H].
  - split; [intros _; now left|reflexivity].
  - split; [discriminate|].
    intros [H|[H _]]; [lia|subst; lia].
Qed.

Lemma leb_refl (s : string) : String.leb s s = true.
Proof.
  induction s as [|c s IH]; [reflexivity|].
  apply leb_cons. right. split; [reflexivity|exact IH].
Qed.

Lemma leb_trans (a b c : string) :
  String.leb a b = true -> String.leb b c = true -> String.leb a c = true.
Proof.
  revert b c. induction a as [|x a IH]; intros b c Hab Hbc.
  - apply leb_nil_l.
  - destruct b as [|y b]; [discriminate|].
    destruct c as [|z c]; [discriminate|].
    apply leb_cons in Hab. apply leb_cons in Hbc. apply leb_cons.
    destruct Hab as [Hxy|[-> Hab]]; destruct Hbc as [Hyz|[<- Hbc]].
    + left. lia.
    + now left.
    + now left.
    + right. split; [reflexivity|]. now apply IH with b.
Qed.

(** A common prefix does not change how two strings compare. *)
Lemma compare_prefix (p a b : string) :
  String.compare (p ++ a) (p ++ b) = String.compare a b.
Proof.
  induction p as [|c p IH]; simpl; [reflexivity|].
  now rewrite ascii_compare_refl.
Qed.

Lemma leb_prefix (p a b : string) :
  String.leb (p ++ a) (p ++ b) = String.leb a b.
Proof. unfold String.leb. now rewrite compare_prefix. Qed.

(** [endswith] is the suffix relation, character for character. *)
Lemma endswith_spec (s suffix : string) :
  PyStr.endswith s suffix = true <->
  exists stem, s = (stem ++ suffix)%string.
Proof.
  induction s as [|c s IH].
  - cbn [PyStr.endswith]. rewrite orb_false_r, String.eqb_eq. split.
    + intros <-. now exists "".
    + intros [[|x stem] H]; simpl in H; [congruence|discriminate].
  - cbn [PyStr.endswith]. rewrite orb_true_iff, String.eqb_eq, IH. split.
    + intros [<-|[stem ->]]; [now exists ""|now exists (String c stem)].
    + intros [[|x stem] H]; simpl in H.
      * now left.
      * injection H as -> ->. right. now exists stem.
Qed.

Lemma startswith_spec (s p : string) :
  PyStr.startswith s p = true <-> exists rest, s = (p ++ rest)%string.
Proof.
  revert s. induction p as [|a p IH]; intros s.
  - destruct s; simpl; split; eauto.
  - destruct s as [|c s]; simpl.
    + split; [discriminate|intros [rest H]; discriminate].
    + rewrite andb_true_iff, Ascii.eqb_eq, IH. split.
      * intros [-> [rest ->]]. now exists rest.
      * intros [rest H]. injection H as -> ->. split; eauto.
Qed.

End StringFacts.

(* ================================================================== *)
(** * Sorting *)
(* ================================================================== *)

Section Sorting.

Lemma insert_perm (x : string) (l : list string) :
  Permutation (x :: l) (PyStr.insert x l).
Proof.
  induction l as [|y l IH]; simpl; [reflexivity|].
  destruct (String.leb x y); [reflexivity|].
  rewrite perm_swap. now constructor.
Qed.

Lemma sorted_perm (l : list string) : Permutation l (PyStr.sorted l).
Proof.
  induction l as [|x l IH]; simpl; [constructor|].
  rewrite <- insert_perm. now constructor.
Qed.

Lemma insert_sorted (x : string) (l : list string) :
  StronglySorted lex_le l -> StronglySorted lex_le (PyStr.insert x l).
Proof.
  induction 1 as [|y l Hs IH Hy]; simpl.
  - constructor; constructor.
  - destruct (String.leb x y) eqn:E.
    + constructor; [now constructor|].
      constructor; [exact E|].
      eapply Forall_impl; [|exact Hy].
      intros z Hz. now apply leb_trans with y.
    + constructor; [exact IH|].
      apply Permutation_Forall with (x :: l); [apply insert_perm|].
      constructor; [|exact Hy].
      destruct (String.leb_total x y) as [H|H]; [congruence|exact H].
Qed.

Lemma sorted_sorted (l : list string) : StronglySorted lex_le (PyStr.sorted l).
Proof.
  induction l as [|x l IH]; simpl; [constructor|now apply insert_sorted].
Qed.

(** A list has one ascending rearrangement only: whatever algorithm
    [sorted] runs, this is its result. *)
Lemma sorted_unique (l1 l2 : list string) :
  StronglySorted lex_le l1 -> StronglySorted lex_le l2 ->
  Permutation l1 l2 -> l1 = l2.
Proof.
  intros H1. revert l2.
  induction H1 as [|x l1 Hs IH Hx]; intros l2 H2 HP.
  - apply Permutation_nil in HP. now subst.
  - destruct H2 as [|y l2 Hs2 Hy].
    + apply Permutation_sym, Permutation_nil in HP. discriminate.
    + assert (x = y) as ->.
      { assert (Hxy : lex_le y x).
        { assert (Hin : In x (y :: l2))
            by (eapply Permutation_in; [exact HP|now left]).
          destruct Hin as [->|Hin]; [apply leb_refl|].
          rewrite Forall_forall in Hy. now apply Hy. }
        assert (Hyx : lex_le x y).
        { assert (Hin : In y (x :: l1))
            by (eapply Permutation_in;
                [apply Permutation_sym; exact HP|now left]).
          destruct Hin as [->|Hin]; [apply leb_refl|].
          rewrite Forall_forall in Hx. now apply Hx. }
        now apply String.leb_antisym. }
      f_equal. apply IH; [exact Hs2|].
      now apply Permutation_cons_inv with y.
Qed.

Lemma sorted_characterised (l l' : list string) :
  Permutation l l' -> StronglySorted lex_le l' -> PyStr.sorted l = l'.
Proof.
  intros HP Hs. apply sorted_unique; [apply sorted_sorted|exact Hs|].
  rewrite <- HP. apply Permutation_sym, sorted_perm.
Qed.

(** Sorting commutes with a map that keeps the order. *)
Section Monotone.

Variable f : string -> string.
Variable P : string -> Prop.
Hypothesis f_order :
  forall a b, P a -> P b -> String.leb (f a) (f b) = String.leb a b.

Lemma insert_map (x : string) (l : list string) :
  P x -> Forall P l ->
  PyStr.insert (f x) (map f l) = map f (PyStr.insert x l).
Proof.
  intros Hx Hl. induction Hl as [|y l Hy Hl IH]; simpl; [reflexivity|].
  rewrite (f_order Hx Hy). destruct (String.leb x y); simpl; congruence.
Qed.

Lemma sorted_map (l : list string) :
  Forall P l -> PyStr.sorted (map f l) = map f (PyStr.sorted l).
Proof.
  induction 1 as [|x l Hx Hl IH]; simpl; [reflexivity|].
  rewrite IH. apply insert_map; [exact Hx|].
  apply Permutation_Forall with l; [apply sorted_perm|exact Hl].
Qed.

End Monotone.

End Sorting.

(* ================================================================== *)
(** * File discovery *)
(* ================================================================== *)

Section Discovery.

Lemma collect_sql_files_acc (directory : string) (listing acc : list string) :
  fold_left
    (fun sql_files file =>
       if PyStr.endswith file ".sql"
       then sql_files ++ [OsPath.join directory file]
       else sql_files)
    listing acc
  = acc ++ map (OsPath.join directory) (filter has_sql_suffix listing).
Proof.
  revert acc. induction listing as [|file listing IH]; intros acc; simpl.
  - now rewrite app_nil_r.
  - rewrite IH. unfold has_sql_suffix.
    destruct (PyStr.endswith file ".sql"); simpl; [|reflexivity].
    now rewrite <- app_assoc.
Qed.

Lemma collect_sql_files_eq (directory : string) (listing : list string) :
  collect_sql_files directory listing
  = map (OsPath.join directory) (filter has_sql_suffix listing).
Proof. unfold collect_sql_files. now rewrite collect_sql_files_acc. Qed.

Lemma join_relative (directory name : string) :
  relative name = true ->
  OsPath.join directory name = (dir_prefix directory ++ name)%string.
Proof.
  unfold relative, OsPath.join, dir_prefix. intros H.
  apply negb_true_iff in H. rewrite H.
  destruct (negb (PyStr.truthy directory) || PyStr.endswith directory "/");
    [reflexivity|].
  now rewrite append_assoc.
Qed.

Lemma join_order (directory a b : string) :
  relative a = true -> relative b = true ->
  String.leb (OsPath.join directory a) (OsPath.join directory b)
  = String.leb a b.
Proof.
  intros Ha Hb. rewrite !join_relative by assumption. apply leb_prefix.
Qed.

Lemma get_sql_files_run (Wd : World) (directory : string) (w w' : W Wd)
      (listing : list string) :
  os_listdir Wd directory w = (Ok listing, w') ->
  get_sql_files Wd directory w
  = (Ret (PyStr.sorted (map (OsPath.join directory)
                            (filter has_sql_suffix listing))),
     w', [EvListdir directory (Ok listing)]).
Proof.
  intros H. unfold get_sql_files, bind, call, ret. rewrite H.
  now rewrite collect_sql_files_eq.
Qed.

Lemma get_sql_files_raise (Wd : World) (directory : string) (w w' : W Wd)
      (e : pyexn) :
  os_listdir Wd directory w = (Err e, w') ->
  get_sql_files Wd directory w
  = (Raise e, w', [EvListdir directory (Err e)]).
Proof. intros H. unfold get_sql_files, bind, call, ret. now rewrite H. Qed.

End Discovery.

Section Suffixes.

Lemma length_append (a b : string) :
  String.length (a ++ b) = String.length a + String.length b.
Proof. induction a as [|c a IH]; simpl; congruence. Qed.

Lemma append_same_length_suffix (a b s t : string) :
  String.length s = String.length t ->
  (a ++ s)%string = (b ++ t)%string -> s = t.
Proof.
  revert b. induction a as [|x a IH]; intros b Hl H.
  - destruct b as [|y b]; [exact H|].
    simpl in H. subst s. simpl in Hl. rewrite length_append in Hl. lia.
  - destruct b as [|y b].
    + simpl in H. subst t. simpl in Hl. rewrite length_append in Hl. lia.
    + simpl in H. injection H as _ H. now apply IH with b.
Qed.

(** The suffix test is case-sensitive and exact: a name made of a stem
    and an extension passes the test for that extension and for no
    other extension of the same length. *)
Lemma endswith_extension (stem ext ext' : string) :
  String.length ext = String.length ext' ->
  PyStr.endswith (stem ++ ext) ext' = String.eqb ext ext'.
Proof.
  intros Hl. destruct (String.eqb_spec ext ext') as [->|Hne].
  - apply endswith_spec. now exists stem.
  - apply not_true_is_false. intros H.
    apply endswith_spec in H. destruct H as [stem' H].
    apply Hne. now apply append_same_length_suffix with stem stem'.
Qed.

Lemma perm_filter (f : string -> bool) (l l' : list string) :
  Permutation l l' -> Permutation (filter f l) (filter f l').
Proof.
  induction 1 as [|x l l' HP IH|x y l|l l' l'' HP1 IH1 HP2 IH2]; simpl.
  - constructor.
  - destruct (f x); [now apply perm_skip|exact IH].
  - destruct (f x), (f y); try reflexivity. apply perm_swap.
  - now transitivity (filter f l').
Qed.

End Suffixes.

(** C2.  File discovery lists the directory itself, once, and nothing
    below it; it returns the paths of exactly those entries whose name
    ends with [.sql], the test being case-sensitive, in ascending
    lexicographic order.  Entries [a.sql], [c.sql], [b.sql] come out as
    [a.sql], [b.sql], [c.sql]; of three entries with the extensions
    [.sql], [.SQL] and [.txt] only the first is selected. *)
Theorem get_sql_files_discovers_sql_entries_in_order
        (Wd : World) (directory : string) (w w' : W Wd)
        (listing : list string) :
  os_listdir Wd directory w = (Ok listing, w') ->
  exists sql_files,
    get_sql_files Wd directory w
    = (Ret sql_files, w', [EvListdir directory (Ok listing)])
    /\ Permutation sql_files
                   (map (OsPath.join directory)
                        (filter has_sql_suffix listing))
    /\ (forall path,
           In path sql_files <->
           exists name stem,
             In name listing /\ name = (stem ++ ".sql")%string
             /\ path = OsPath.join directory name)
    /\ StronglySorted lex_le sql_files
    /\ (Permutation (filter has_sql_suffix listing)
                    ["a.sql"; "c.sql"; "b.sql"] ->
        sql_files = map (OsPath.join directory) ["a.sql"; "b.sql"; "c.sql"])
    /\ (forall s1 s2 s3,
           Permutation listing
                       [(s1 ++ ".sql")%string; (s2 ++ ".SQL")%string;
                        (s3 ++ ".txt")%string] ->
           sql_files = [OsPath.join directory (s1 ++ ".sql")]).
Proof.
  intros Hls.
  exists (PyStr.sorted (map (OsPath.join directory)
                            (filter has_sql_suffix listing))).
  split; [now apply get_sql_files_run|].
  split; [apply Permutation_sym, sorted_perm|].
  split.
  { intros path. split.
    - intros Hin.
      eapply Permutation_in in Hin; [|apply Permutation_sym, sorted_perm].
      apply in_map_iff in Hin. destruct Hin as (name & <- & Hin).
      apply filter_In in Hin. destruct Hin as [Hin Hsuf].
      apply endswith_spec in Hsuf. destruct Hsuf as [stem ->].
      now exists (stem ++ ".sql")%string, stem.
    - intros (name & stem & Hin & -> & ->).
      eapply Permutation_in; [apply sorted_perm|].
      apply in_map, filter_In. split; [exact Hin|].
      apply endswith_spec. now exists stem. }
  split; [apply sorted_sorted|].
  split.
  { intros HP. apply sorted_characterised.
    - apply Permutation_map. rewrite HP.
      apply perm_skip, perm_swap.
    - assert (Hord : forall a b, relative a = true -> relative b = true ->
                       String.leb a b = true ->
                       lex_le (OsPath.join directory a)
                              (OsPath.join directory b)).
      { intros a b Ha Hb Hab. unfold lex_le. now rewrite join_order. }
      repeat constructor; now apply Hord. }
  intros s1 s2 s3 HP.
  assert (Hf : Permutation (filter has_sql_suffix listing)
                           [(s1 ++ ".sql")%string]).
  { assert (E : filter has_sql_suffix
                  [(s1 ++ ".sql")%string; (s2 ++ ".SQL")%string;
                   (s3 ++ ".txt")%string] = [(s1 ++ ".sql")%string]).
    { cbn [filter]. unfold has_sql_suffix.
      now rewrite !endswith_extension by reflexivity. }
    rewrite <- E. now apply perm_filter. }
  apply Permutation_sym in Hf. apply Permutation_length_1_inv in Hf.
  now rewrite Hf.
Qed.

(** In the directory [q] the three scripts are found, in order; the
    notes, the upper-case [old.SQL] and the script below [sub] are
    not. *)
Lemma get_sql_files_discovers_sql_entries_in_order_witness :
  os_listdir (Demo.world true true) "q" [] = (Ok Demo.listing, [])
  /\ fst (fst (get_sql_files (Demo.world true true) "q" []))
     = Ret ["q/1.sql"; "q/2.sql"; "q/3.sql"].
Proof.
  split; [reflexivity|].
  destruct (@get_sql_files_discovers_sql_entries_in_order
              (Demo.world true true) "q" [] [] Demo.listing eq_refl)
    as (sql_files & Hrun & _).
  rewrite Hrun. vm_compute in Hrun. now injection Hrun as <-.
Defined.

(** C10.  [get_sql_files] sorts the joined paths, not the entry names.
    Every entry name of a directory is relative, so every joined path
    is the same prefix followed by the name, two paths compare as their
    names do, and the result is the one obtained by sorting the names
    first and joining afterwards. *)
Theorem get_sql_files_path_order_is_name_order
        (Wd : World) (directory : string) (w w' : W Wd)
        (listing : list string) :
  os_listdir Wd directory w = (Ok listing, w') ->
  Forall (fun name => relative name = true) listing ->
  fst (fst (get_sql_files Wd directory w))
  = Ret (PyStr.sorted (map (OsPath.join directory)
                           (filter has_sql_suffix listing)))
  /\ (forall name,
         In name listing ->
         OsPath.join directory name = (dir_prefix directory ++ name)%string)
  /\ (forall a b,
         In a listing -> In b listing ->
         String.leb (OsPath.join directory a) (OsPath.join directory b)
         = String.leb a b)
  /\ fst (fst (get_sql_files Wd directory w))
     = Ret (discover_by_name directory listing).
Proof.
  intros Hls Hrel. rewrite (get_sql_files_run _ _ _ Hls). cbn [fst].
  pose proof (proj1 (Forall_forall _ _) Hrel) as Hall.
  split; [reflexivity|].
  split; [intros name Hin; now apply join_relative, Hall|].
  split; [intros a b Ha Hb; apply join_order; now apply Hall|].
  unfold discover_by_name. f_equal.
  apply sorted_map with (P := fun name => relative name = true).
  - intros a b Ha Hb. now apply join_order.
  - apply Forall_forall. intros name Hin.
    apply filter_In in Hin. now apply Hall.
Qed.

Lemma get_sql_files_path_order_is_name_order_witness :
  os_listdir (Demo.world true true) "q" [] = (Ok Demo.listing, [])
  /\ Forall (fun name => relative name = true) Demo.listing
  /\ fst (fst (get_sql_files (Demo.world true true) "q" []))
     = Ret (discover_by_name "q" Demo.listing).
Proof.
  assert (Hrel : Forall (fun name => relative name = true) Demo.listing)
    by (repeat constructor).
  split; [reflexivity|]. split; [exact Hrel|].
  exact (proj2 (proj2 (proj2
    (@get_sql_files_path_order_is_name_order
       (Demo.world true true) "q" [] [] Demo.listing eq_refl Hrel)))).
Defined.

(** The premise on the names is used: were a name to begin with the
    separator, [os.path.join] would drop the directory and the two
    orders could differ.  No directory has such an entry. *)
Remark path_order_needs_relative_names :
  PyStr.sorted (map (OsPath.join "!") ["a.sql"; "/b.sql"])
  <> map (OsPath.join "!") (PyStr.sorted ["a.sql"; "/b.sql"]).
Proof. vm_compute. discriminate. Qed.

(* ================================================================== *)
(** * Statement splitting *)
(* ================================================================== *)

Section Splitting.

Lemma split_not_nil (sep : ascii) (s : string) : PyStr.split sep s <> [].
Proof.
  destruct s as [|c s]; simpl; [discriminate|].
  destruct (Ascii.eqb c sep); [discriminate|].
  destruct (PyStr.split sep s); discriminate.
Qed.

(** Putting the separator back between the fragments restores the
    text: the text is cut at separators only, and at every one. *)
Lemma join_split (sep : ascii) (s : string) :
  PyStr.join (String sep "") (PyStr.split sep s) = s.
Proof.
  unfold PyStr.join. induction s as [|c s IH]; [reflexivity|].
  cbn [PyStr.split]. pose proof (split_not_nil sep s) as Hne.
  destruct (Ascii.eqb_spec c sep) as [->|Hc];
    destruct (PyStr.split sep s) as [|frag rest]; try congruence.
  - change (String.concat (String sep "") ("" :: frag :: rest))
      with (String sep (String.concat (String sep "") (frag :: rest))).
    now rewrite IH.
  - destruct rest as [|frag' rest].
    + simpl in *. now rewrite IH.
    + change (String.concat (String sep "") (String c frag :: frag' :: rest))
        with (String c (String.concat (String sep "") (frag :: frag' :: rest))).
      now rewrite IH.
Qed.

Lemma split_fragments_free (sep : ascii) (s : string) :
  Forall (fun frag => occurs sep frag = false) (PyStr.split sep s).
Proof.
  induction s as [|c s IH]; cbn [PyStr.split].
  - now constructor.
  - destruct (Ascii.eqb c sep) eqn:E; [now constructor|].
    destruct (PyStr.split sep s) as [|frag rest]; [repeat constructor|].
    + simpl. now rewrite E.
    + inversion IH as [|? ? Hf Hr]; subst.
      constructor; [|exact Hr]. simpl. now rewrite E.
Qed.

Lemma map_filter_swap {A B : Type} (f : A -> B) (p : B -> bool)
      (l : list A) :
  map f (filter (fun x => p (f x)) l) = filter p (map f l).
Proof.
  induction l as [|x l IH]; simpl; [reflexivity|].
  destruct (p (f x)); simpl; congruence.
Qed.

(** [lstrip] removes a run of whitespace from the front and stops at
    the first other character. *)
Lemma lstrip_spec (s : string) :
  exists l, s = (l ++ PyStr.lstrip s)%string
            /\ all_chars PyStr.isspace l = true
            /\ (forall c, first_char (PyStr.lstrip s) = Some c ->
                          PyStr.isspace c = false).
Proof.
  induction s as [|x s (l & Hs & Hl & Hf)].
  - exists "". repeat split. discriminate.
  - simpl. destruct (PyStr.isspace x) eqn:E.
    + exists (String x l). simpl. rewrite E, Hl. repeat split; [|exact Hf].
      now rewrite <- Hs.
    + exists "". repeat split. simpl. now intros c [= <-].
Qed.

(** [rstrip] removes a run of whitespace from the back and stops at
    the last other character; the front is left as it was. *)
Lemma rstrip_spec (s : string) :
  exists r, s = (PyStr.rstrip s ++ r)%string
            /\ all_chars PyStr.isspace r = true
            /\ (forall c, last_char (PyStr.rstrip s) = Some c ->
                          PyStr.isspace c = false)
            /\ (forall c, first_char (PyStr.rstrip s) = Some c ->
                          first_char s = Some c).
Proof.
  induction s as [|x s (r & Hs & Hr & Hl & Hf)].
  - exists "". repeat split; discriminate.
  - cbn [PyStr.rstrip]. destruct (PyStr.rstrip s) as [|y t] eqn:Et.
    + destruct (PyStr.isspace x) eqn:E.
      * exists (String x r). simpl in *. rewrite E, Hr.
        repeat split; try discriminate. now rewrite <- Hs.
      * exists r. simpl in *.
        split; [now rewrite <- Hs|]. split; [exact Hr|].
        split; intros c [= <-]; [exact E|reflexivity].
    + exists r.
      split; [simpl in *; now rewrite <- Hs|]. split; [exact Hr|].
      split; [|intros c Hc; exact Hc].
      intros c Hc. apply Hl. exact Hc.
Qed.

Lemma strip_spec (s : string) :
  exists l r, s = (l ++ PyStr.strip s ++ r)%string
              /\ all_chars PyStr.isspace l = true
              /\ all_chars PyStr.isspace r = true
              /\ trimmed (PyStr.strip s).
Proof.
  destruct (lstrip_spec s) as (l & Hs & Hl & Hf).
  destruct (rstrip_spec (PyStr.lstrip s)) as (r & Hs' & Hr & Hlast & Hfirst).
  exists l, r. unfold PyStr.strip, trimmed.
  repeat split; try assumption.
  - now rewrite <- Hs'.
  - intros c Hc. apply Hf. now apply Hfirst.
Qed.

(** No statement is empty. *)
(** The comprehension of the source is split, trim, discard. *)
Lemma split_statements_as_specified (query : string) :
  split_statements query = split_trim_discard query.
Proof. apply map_filter_swap. Qed.

Lemma split_statements_nonempty (query : string) :
  Forall (fun statement => statement <> ""%string) (split_statements query).
Proof.
  unfold split_statements. rewrite map_filter_swap.
  apply Forall_forall. intros statement Hin.
  apply filter_In in Hin. destruct Hin as [_ Ht]. now destruct statement.
Qed.

End Splitting.

(** C3.  The statement splitter cuts the text at every semicolon and
    only there, trims the whitespace off both ends of every fragment,
    discards the fragments that are empty after trimming, and keeps the
    others in the order of the text.  The text
    ["INSERT INTO t VALUES (1);  \n SELECT * FROM t; "] gives the two
    statements ["INSERT INTO t VALUES (1)"] and ["SELECT * FROM t"] and
    no third one. *)
Theorem split_statements_splits_trims_discards (query : string) :
  PyStr.join ";" (PyStr.split ";" query) = query
  /\ Forall (fun frag => occurs ";" frag = false) (PyStr.split ";" query)
  /\ (forall frag,
         exists l r, frag = (l ++ PyStr.strip frag ++ r)%string
                     /\ all_chars PyStr.isspace l = true
                     /\ all_chars PyStr.isspace r = true
                     /\ trimmed (PyStr.strip frag))
  /\ split_statements query = split_trim_discard query
  /\ Forall (fun statement => statement <> ""%string) (split_statements query)
  /\ split_statements
       ("INSERT INTO t VALUES (1);  " ++ String "010" " SELECT * FROM t; ")
     = ["INSERT INTO t VALUES (1)"; "SELECT * FROM t"].
Proof.
  split; [apply join_split|].
  split; [apply split_fragments_free|].
  split; [apply strip_spec|].
  split; [apply map_filter_swap|].
  split; [apply split_statements_nonempty|reflexivity].
Qed.

(* ================================================================== *)
(** * Running the statements of one file *)
(* ================================================================== *)

(** Brings the two sides of an equation between runs to the same
    bracketing of their traces. *)
Ltac trace_eq :=
  cbn -[String.append];
  rewrite <- ?app_assoc;
  cbn -[String.append];
  rewrite ?app_nil_r;
  try reflexivity.

Section Execution.

Variable Wd : World.
Variable self : SQLQueryRunner.

Lemma for_each_row_logs (rows : list row) (w : W Wd) :
  for_each rows (fun row => log INFO ("Result: " ++ row)%string) w
  = (Ret tt, w, row_logs rows).
Proof.
  induction rows as [|r rows IH]; [reflexivity|].
  cbn [for_each]. unfold bind at 1. unfold log at 1. now rewrite IH.
Qed.

(** The loop over the statements follows [statements_trace], and ends
    normally exactly when no call raised. *)
Lemma statements_loop (statements : list string) (w : W Wd) :
  Forall (fun statement => statement <> ""%string) statements ->
  exists w' t stop,
    for_each statements (execute_statement Wd) w
    = (match stop with None => Ret tt | Some e => Raise e end, w', t)
    /\ statements_trace statements t stop.
Proof.
  intros Hne. revert w.
  induction Hne as [|statement rest Hs Hrest IH]; intros w.
  - exists w, [], None. split; [reflexivity|constructor].
  - cbn [for_each]. unfold bind at 1. unfold execute_statement at 1.
    destruct statement as [|c statement']; [congruence|].
    cbn [PyStr.truthy]. set (statement := String c statement') in *.
    unfold bind at 1, call at 1.
    destruct (db_execute Wd statement w) as [[[]|e] w1].
    + destruct (is_select statement) eqn:Sel.
      * unfold bind at 1, call at 1.
        destruct (db_fetchall Wd w1) as [[rows|e] w2].
        -- rewrite for_each_row_logs.
           destruct (IH w2) as (w' & t & stop & Hrun & Htr).
           rewrite Hrun.
           exists w', (EvExecute statement (Ok tt)
                         :: EvFetchall (Ok rows) :: row_logs rows ++ t),
             stop.
           split; [now rewrite <- app_assoc|now constructor].
        -- exists w2, [EvExecute statement (Ok tt); EvFetchall (Err e)],
             (Some e).
           split; [reflexivity|now constructor].
      * unfold ret at 1.
        destruct (IH w1) as (w' & t & stop & Hrun & Htr).
        rewrite Hrun.
        exists w', (EvExecute statement (Ok tt) :: t), stop.
        split; [reflexivity|now constructor].
    + exists w1, [EvExecute statement (Err e)], (Some e).
      split; [reflexivity|constructor].
Qed.

(** Every execution of a file is one of the runs of [query_run]. *)
Lemma execute_query_run (query file_name : string) (w : W Wd) :
  exists b w' t,
    execute_query Wd self query file_name w = (Ret b, w', t)
    /\ query_run file_name (split_statements query) b t.
Proof.
  unfold execute_query, try_except, with_.
  unfold call at 1.
  destruct (db_connect Wd (connection_params self) w) as [[[]|e] w1].
  2:{ exists false, w1, [EvConnect (Err e); error_record file_name e].
      split; [reflexivity|constructor]. }
  unfold call at 1.
  destruct (db_cursor Wd w1) as [[[]|e] w2].
  2:{ destruct (db_conn_close Wd w2) as [rc w3] eqn:Hclose.
      exists false, w3,
        ([EvConnect (Ok tt); EvCursor (Err e); EvConnClose rc]
           ++ closing_record file_name (after_release (Some e) rc)).
      split; [|constructor].
      destruct rc as [[]|e']; reflexivity. }
  unfold bind at 1. unfold log at 1. unfold bind at 1.
  destruct (statements_loop w2 (split_statements_nonempty query))
    as (w3 & body & stop & Hrun & Htr).
  rewrite Hrun. destruct stop as [e|].
  - destruct (db_cursor_close Wd w3) as [rk w4] eqn:Hk.
    destruct (db_conn_close Wd w4) as [rc w5] eqn:Hc.
    exists (returned (after_release (after_release (Some e) rk) rc)), w5.
    eexists. split; [|eapply qr_cursor_block;
                      [apply cb_statement_error; exact Htr|reflexivity]].
    destruct rk as [[]|ek], rc as [[]|ec];
      unfold bind, log, ret, error_record; trace_eq.
  - unfold bind at 1, call at 1.
    destruct (db_commit Wd w3) as [[[]|e] w4].
    + unfold bind at 1. unfold log at 1. unfold ret at 1.
      destruct (db_cursor_close Wd w4) as [rk w5] eqn:Hk.
      destruct (db_conn_close Wd w5) as [rc w6] eqn:Hc.
      exists (returned (after_release (after_release None rk) rc)), w6.
      eexists. split; [|eapply qr_cursor_block;
                        [apply cb_success; exact Htr|reflexivity]].
      destruct rk as [[]|ek], rc as [[]|ec];
        unfold bind, log, ret, error_record; trace_eq.
    + destruct (db_cursor_close Wd w4) as [rk w5] eqn:Hk.
      destruct (db_conn_close Wd w5) as [rc w6] eqn:Hc.
      exists (returned (after_release (after_release (Some e) rk) rc)), w6.
      eexists. split; [|eapply qr_cursor_block;
                        [apply cb_commit_error; exact Htr|reflexivity]].
      destruct rk as [[]|ek], rc as [[]|ec];
        unfold bind, log, ret, error_record; trace_eq.
Qed.

End Execution.

(* ================================================================== *)
(** * Reading the trace of one file *)
(* ================================================================== *)

Ltac unfold_readers :=
  unfold reads, executes, executed_ok, commits, connects, fetches, logged,
    releases, exceptions in *;
  cbn [flat_map app] in *;
  rewrite ?flat_map_app in *;
  cbn [flat_map app] in *.

Section StatementTraces.

Lemma row_logs_quiet (rows : list row) :
  executes (row_logs rows) = [] /\ executed_ok (row_logs rows) = []
  /\ commits (row_logs rows) = [] /\ fetches (row_logs rows) = []
  /\ connects (row_logs rows) = [] /\ reads (row_logs rows) = [].
Proof.
  induction rows as [|r rows (H1 & H2 & H3 & H4 & H5 & H6)];
    [now repeat split|].
  repeat split; assumption.
Qed.

Lemma row_logs_logged (rows : list row) :
  logged (row_logs rows)
  = map (fun r => (INFO, ("Result: " ++ r)%string)) rows.
Proof.
  induction rows as [|r rows IH]; [reflexivity|].
  unfold logged in *. simpl in *. now rewrite IH.
Qed.

Lemma not_in_row_logs (ev : event) (rows : list row) :
  (forall lvl msg, ev <> EvLog lvl msg) -> ~ In ev (row_logs rows).
Proof.
  intros Hev Hin. apply in_map_iff in Hin.
  destruct Hin as (r & <- & _). now apply (Hev INFO ("Result: " ++ r)%string).
Qed.

Variable statements : list string.
Variable body : list event.
Variable stop : option pyexn.

(** The loop neither connects nor commits nor reads a file. *)
Lemma statements_trace_quiet :
  statements_trace statements body stop ->
  commits body = [] /\ connects body = [] /\ reads body = [].
Proof.
  intros Hbody.
  induction Hbody as [|s rest t st Hsel Ht IH|s rows rest t st Hsel Ht IH| |].
  - now repeat split.
  - exact IH.
  - destruct IH as (H1 & H2 & H3).
    destruct (row_logs_quiet rows) as (_ & _ & R3 & _ & R5 & R6).
    unfold_readers. now rewrite H1, H2, H3, R3, R5, R6.
  - now repeat split.
  - now repeat split.
Qed.

(** The statements that ran without error are a prefix of the
    statements of the file: all of them when the loop reached its
    end. *)
Lemma statements_trace_executed :
  statements_trace statements body stop ->
  exists k,
    executed_ok body = firstn k statements
    /\ (stop = None -> executed_ok body = statements).
Proof.
  intros Hbody. induction Hbody
    as [|s rest t st Hsel Ht (k & IH1 & IH2)
        |s rows rest t st Hsel Ht (k & IH1 & IH2)
        |s e rest|s e rest Hsel].
  - exists 0. now split.
  - exists (S k). unfold_readers. split.
    + now rewrite IH1.
    + intros Hst. now rewrite IH2.
  - exists (S k). destruct (row_logs_quiet rows) as (_ & R2 & _).
    unfold_readers. rewrite R2. split.
    + now rewrite IH1.
    + intros Hst. now rewrite IH2.
  - exists 0. split; [reflexivity|discriminate].
  - exists 1. split; [reflexivity|discriminate].
Qed.

(** When [cursor.execute] raised on a statement, it is a statement of
    the file, those before it ran without error, and it is the last
    one handed to the server; the loop stopped on that exception. *)
Lemma statements_trace_failure (statement : string) (e : pyexn) :
  statements_trace statements body stop ->
  In (EvExecute statement (Err e)) body ->
  exists k,
    nth_error statements k = Some statement
    /\ executes body
       = map (fun s => (s, Ok tt)) (firstn k statements)
             ++ [(statement, Err e)]
    /\ stop = Some e.
Proof.
  intros Hbody.
  induction Hbody as [|s rest t st Hsel Ht IH|s rows rest t st Hsel Ht IH
                      |s e' rest|s e' rest Hsel]; intros Hin.
  - destruct Hin.
  - destruct Hin as [Hin|Hin]; [discriminate|].
    destruct (IH Hin) as (k & Hk & Hex & Hst).
    exists (S k). unfold_readers.
    repeat split; [exact Hk| |exact Hst]. now rewrite Hex.
  - destruct Hin as [Hin|[Hin|Hin]]; try discriminate.
    apply in_app_or in Hin. destruct Hin as [Hin|Hin].
    + exfalso. revert Hin. apply not_in_row_logs. discriminate.
    + destruct (IH Hin) as (k & Hk & Hex & Hst).
      destruct (row_logs_quiet rows) as (R1 & _).
      exists (S k). unfold_readers.
      repeat split; [exact Hk| |exact Hst]. now rewrite R1, Hex.
  - destruct Hin as [Hin|[]]. injection Hin as -> ->.
    exists 0. now repeat split.
  - destruct Hin as [Hin|[Hin|[]]]; discriminate.
Qed.

End StatementTraces.

Section QueryRuns.

(** Every fetch follows a [select] that ran without error, one fetch
    for one such statement, and the rows logged are the rows
    fetched. *)
Lemma statements_trace_fetches (statements : list string)
      (body : list event) (stop : option pyexn) :
  statements_trace statements body stop ->
  List.length (fetches body)
  = List.length (filter is_select (executed_ok body))
  /\ logged body = fetched_row_records body.
Proof.
  unfold fetched_row_records. intros Hbody.
  induction Hbody as [|s rest t st Hsel Ht [IH1 IH2]
                      |s rows rest t st Hsel Ht [IH1 IH2]
                      |s e' rest|s e' rest Hsel].
  - now split.
  - unfold_readers. cbn [filter]. rewrite Hsel. now split.
  - destruct (row_logs_quiet rows) as (_ & R2 & _ & R4 & _).
    pose proof (row_logs_logged rows) as RL.
    unfold_readers. rewrite R2, R4, RL. cbn [filter app flat_map].
    rewrite Hsel. cbn [List.length]. split; [now rewrite IH1|].
    now rewrite IH2.
  - now split.
  - unfold_readers. cbn [filter]. rewrite Hsel. now split.
Qed.

Lemma row_logs_silent (rows : list row) :
  releases (row_logs rows) = [] /\ exceptions (row_logs rows) = [].
Proof.
  induction rows as [|r rows [H1 H2]]; [now split|]. split; assumption.
Qed.

(** The loop releases nothing, and the only exception raised in it is
    the one it stopped on. *)
Lemma statements_trace_exceptions (statements : list string)
      (body : list event) (stop : option pyexn) :
  statements_trace statements body stop ->
  releases body = []
  /\ exceptions body = match stop with Some e => [e] | None => [] end.
Proof.
  intros Hbody.
  induction Hbody as [|s rest t st Hsel Ht [IH1 IH2]
                      |s rows rest t st Hsel Ht [IH1 IH2]
                      |s e' rest|s e' rest Hsel].
  - now split.
  - split; assumption.
  - destruct (row_logs_silent rows) as [R1 R2].
    unfold_readers. rewrite R1, R2. now split.
  - now split.
  - now split.
Qed.

(** An exception was raised in a trace when it is one of its
    exceptions. *)
Lemma raised_exceptions (e : pyexn) (t : list event) :
  raised e t <-> In e (exceptions t).
Proof.
  unfold raised, exceptions. induction t as [|ev t IH].
  - split; [intros H; inversion H|intros []].
  - rewrite Exists_cons. cbn [flat_map]. rewrite in_app_iff, IH.
    destruct ev as [d r|f r|r|r|s r|r|r|r|r|l m];
      try destruct r as [x|e']; simpl; intuition (subst; auto).
Qed.

Lemma last_raised_raised (e : pyexn) (t : list event) :
  last_raised t = Some e -> raised e t.
Proof.
  intros H. apply raised_exceptions. revert H. unfold last_raised.
  generalize (exceptions t). intros l.
  induction l as [|x l IH]; [discriminate|].
  destruct l as [|y l].
  - intros [= ->]. now left.
  - intros H. right. apply IH. exact H.
Qed.

Lemma raised_last_raised (e : pyexn) (t : list event) :
  raised e t -> exists e', last_raised t = Some e'.
Proof.
  intros H. apply raised_exceptions in H. unfold last_raised.
  destruct (exceptions t) as [|x l]; [destruct H|]. clear H.
  revert x. induction l as [|y l IH]; intros x; [now exists x|].
  exact (IH y).
Qed.

Lemma closing_record_quiet (file_name : string) (o : option pyexn) :
  executes (closing_record file_name o) = []
  /\ executed_ok (closing_record file_name o) = []
  /\ commits (closing_record file_name o) = []
  /\ connects (closing_record file_name o) = []
  /\ reads (closing_record file_name o) = []
  /\ fetches (closing_record file_name o) = []
  /\ releases (closing_record file_name o) = []
  /\ exceptions (closing_record file_name o) = [].
Proof. destruct o; now repeat split. Qed.

Variable file_name : string.
Variable statements : list string.

(** While the cursor is open nothing is connected, read or released,
    and the only exception raised is the one that leaves the block. *)
Lemma cursor_block_quiet (inner : list event) (o : option pyexn) :
  cursor_block file_name statements inner o ->
  connects inner = [] /\ reads inner = [] /\ releases inner = []
  /\ exceptions inner = match o with Some e => [e] | None => [] end.
Proof.
  intros Hcb.
  destruct Hcb as [body e Hb|body e Hb|body Hb];
    destruct (statements_trace_quiet Hb) as (_ & Hn & Hr);
    destruct (statements_trace_exceptions Hb) as (Hrel & Hex);
    unfold_readers; rewrite Hn, Hr, Hrel, Hex; now repeat split.
Qed.

(** The block is left without an exception exactly when every
    statement ran without error and the commit went through; there is
    one commit at most. *)
Lemma cursor_block_done (inner : list event) (o : option pyexn) :
  cursor_block file_name statements inner o ->
  (o = None <-> executed_ok inner = statements /\ commits inner = [Ok tt])
  /\ (commits inner = [] \/ (exists e, commits inner = [Err e])
      \/ (commits inner = [Ok tt] /\ o = None)).
Proof.
  intros Hcb.
  destruct Hcb as [body e Hb|body e Hb|body Hb];
    destruct (statements_trace_quiet Hb) as (Hc & _);
    destruct (statements_trace_executed Hb) as (k & _ & Hall);
    unfold_readers; rewrite Hc; cbn [app].
  - split; [|now left]. split; [discriminate|]. intros [_ H]. discriminate.
  - split; [|right; left; now exists e].
    split; [discriminate|]. intros [_ H]. discriminate.
  - split; [|right; right; now split].
    split; [intros _|reflexivity].
    rewrite app_nil_r. split; [now apply Hall|reflexivity].
Qed.

(** Once the cursor block has run and both releases are done, the
    last exception raised is the one of the last release that raised,
    or else the one that left the block. *)
Lemma block_last_raised (inner : list event) (o : option pyexn)
      (rk rc : result unit) (closing : option pyexn) :
  cursor_block file_name statements inner o ->
  last_raised ([EvConnect (Ok tt); EvCursor (Ok tt)]
                 ++ inner
                 ++ [EvCursorClose rk; EvConnClose rc]
                 ++ closing_record file_name closing)
  = after_release (after_release o rk) rc.
Proof.
  intros Hcb. destruct (cursor_block_quiet Hcb) as (_ & _ & _ & Hex).
  unfold last_raised, exceptions in *. rewrite !flat_map_app, Hex.
  destruct o, rk as [[]|ek], rc as [[]|ec], closing; reflexivity.
Qed.

(** What the run returns and logs last is decided by the last
    exception raised: [true] and nothing when there is none, [false]
    and the record of that exception otherwise. *)
Lemma query_run_closing (b : bool) (t : list event) :
  query_run file_name statements b t ->
  b = returned (last_raised t)
  /\ exists t0, t = t0 ++ closing_record file_name (last_raised t).
Proof.
  intros Hrun.
  destruct Hrun as [e|e rc|inner o rk rc final Hcb Hfinal].
  - split; [reflexivity|]. now exists [EvConnect (Err e)].
  - destruct rc as [[]|e']; (split; [reflexivity|]).
    + now exists [EvConnect (Ok tt); EvCursor (Err e); EvConnClose (Ok tt)].
    + now exists [EvConnect (Ok tt); EvCursor (Err e); EvConnClose (Err e')].
  - rewrite (block_last_raised rk rc final Hcb), <- Hfinal.
    split; [reflexivity|].
    exists ([EvConnect (Ok tt); EvCursor (Ok tt)]
              ++ inner ++ [EvCursorClose rk; EvConnClose rc]).
    now rewrite <- !app_assoc.
Qed.

(** The value returned is [true] exactly when every statement ran
    without error, the commit went through and both releases raised
    nothing. *)
Lemma query_run_true_iff (b : bool) (t : list event) :
  query_run file_name statements b t ->
  (b = true <->
   executed_ok t = statements /\ commits t = [Ok tt]
   /\ releases t = [Ok tt; Ok tt]).
Proof.
  intros Hrun.
  destruct Hrun as [e|e rc|inner o rk rc final Hcb Hfinal].
  - split; [discriminate|]. intros (_ & H & _). discriminate.
  - split; [discriminate|]. intros (_ & H & _).
    destruct rc as [[]|e']; discriminate.
  - destruct (cursor_block_quiet Hcb) as (_ & _ & Hrel & _).
    destruct (cursor_block_done Hcb) as [Hdone _].
    destruct (closing_record_quiet file_name final)
      as (_ & C1 & C2 & _ & _ & _ & C3 & _).
    unfold_readers. rewrite C1, C2, C3, Hrel, !app_nil_r. cbn [app].
    subst final.
    destruct o as [e|], rk as [[]|ek], rc as [[]|ec];
      cbn [after_release returned];
      split; intros H;
      try discriminate H;
      try reflexivity;
      try (destruct H as (_ & _ & H); discriminate H);
      try (destruct H as (H1 & H2 & _);
           assert (Some e = None) by (apply Hdone; now split);
           discriminate);
      split; [|split; [|reflexivity]]; now apply Hdone.
Qed.

(** A run that returns [false] caught an exception that a call
    raised, and a run in which a call raised returns [false]. *)
Lemma query_run_false_iff (b : bool) (t : list event) :
  query_run file_name statements b t ->
  (b = false <-> exists e, raised e t).
Proof.
  intros Hrun. destruct (query_run_closing Hrun) as [Hb _]. split.
  - intros ->. destruct (last_raised t) as [e|] eqn:E; [|discriminate].
    exists e. now apply last_raised_raised.
  - intros [e He]. destruct (raised_last_raised He) as [e' E].
    now rewrite Hb, E.
Qed.

(** When the releases raise nothing, at most one exception was raised
    in the run. *)
Lemma query_run_released_cleanly (b : bool) (t : list event) (e : pyexn) :
  query_run file_name statements b t ->
  released_cleanly t -> raised e t -> last_raised t = Some e.
Proof.
  intros Hrun Hclean Hr. apply raised_exceptions in Hr.
  unfold released_cleanly in Hclean.
  destruct Hrun as [e'|e' rc|inner o rk rc final Hcb Hfinal].
  - destruct Hr as [->|[]]. reflexivity.
  - destruct rc as [[]|ec].
    + destruct Hr as [->|[]]. reflexivity.
    + inversion Hclean as [|? ? H]. discriminate.
  - destruct (cursor_block_quiet Hcb) as (_ & _ & Hrel & Hex).
    destruct (closing_record_quiet file_name final)
      as (_ & _ & _ & _ & _ & _ & C3 & C4).
    unfold last_raised. unfold_readers.
    rewrite Hrel, C3 in Hclean. rewrite Hex, C4 in Hr. rewrite Hex, C4.
    cbn [app] in *.
    inversion Hclean as [|? ? Hk Hclean']. inversion Hclean' as [|? ? Hc _].
    subst. cbn [app] in *. rewrite app_nil_r in *.
    destruct o as [e'|]; [|destruct Hr].
    destruct Hr as [->|[]]. reflexivity.
Qed.

(** The block is the record that announces the execution, the loop
    over the statements, and then nothing, a commit that raised, or a
    commit and the record of success. *)
Lemma cursor_block_loop (inner : list event) (o : option pyexn) :
  cursor_block file_name statements inner o ->
  exists body stop tail,
    statements_trace statements body stop
    /\ inner = EvLog INFO ("Executing query from " ++ file_name)%string
                 :: body ++ tail
    /\ ((tail = [] /\ stop = o /\ o <> None)
        \/ (exists e, tail = [EvCommit (Err e)] /\ stop = None /\ o = Some e)
        \/ (tail = [EvCommit (Ok tt);
                    EvLog INFO ("Successfully executed query from "
                                ++ file_name)%string]
            /\ stop = None /\ o = None)).
Proof.
  intros Hcb. destruct Hcb as [body e Hb|body e Hb|body Hb].
  - exists body, (Some e), []. rewrite app_nil_r.
    split; [exact Hb|]. split; [reflexivity|]. left. now repeat split.
  - exists body, None, [EvCommit (Err e)].
    split; [exact Hb|]. split; [reflexivity|]. right. left. now exists e.
  - eexists body, None, _.
    split; [exact Hb|]. split; [reflexivity|]. right. right. now repeat split.
Qed.

(** One commit at most is issued. *)
Lemma query_run_commits (b : bool) (t : list event) :
  query_run file_name statements b t ->
  commits t = [] \/ (exists e, commits t = [Err e]) \/ commits t = [Ok tt].
Proof.
  intros Hrun.
  destruct Hrun as [e'|e' rc|inner o rk rc final Hcb Hfinal].
  - now left.
  - left. now destruct rc as [[]|ec].
  - destruct (cursor_block_done Hcb) as [_ Hcom].
    destruct (closing_record_quiet file_name final) as (_ & _ & C2 & _).
    unfold_readers. rewrite C2. cbn [app]. rewrite app_nil_r.
    destruct Hcom as [Hcom|[Hcom|[Hcom _]]]; tauto.
Qed.

(** When the releases raise nothing and a call raised, the commit did
    not go through. *)
Lemma released_cleanly_commit (b : bool) (t : list event) (e : pyexn) :
  query_run file_name statements b t ->
  released_cleanly t -> last_raised t = Some e -> commits t <> [Ok tt].
Proof.
  intros Hrun Hclean Hlast Hc.
  destruct (query_run_closing Hrun) as [Hb _]. rewrite Hlast in Hb.
  assert (Htrue : b = true); [|rewrite Htrue in Hb; discriminate].
  unfold released_cleanly in Hclean.
  destruct Hrun as [e'|e' rc|inner o rk rc final Hcb Hfinal].
  - discriminate Hc.
  - destruct rc as [[]|ec]; discriminate Hc.
  - destruct (cursor_block_quiet Hcb) as (_ & _ & Hrel & _).
    destruct (cursor_block_done Hcb) as [_ Hcom].
    destruct (closing_record_quiet file_name final)
      as (_ & _ & C2 & _ & _ & _ & C3 & _).
    unfold_readers. rewrite Hrel, C3 in Hclean. rewrite C2 in Hc.
    cbn [app] in *. rewrite app_nil_r in Hc.
    inversion Hclean as [|? ? Hk Hclean']. inversion Hclean' as [|? ? Hcl _].
    subst.
    destruct Hcom as [Hcom|[[e1 Hcom]|[_ ->]]];
      [rewrite Hcom in Hc; discriminate
      |rewrite Hcom in Hc; discriminate|reflexivity].
Qed.

(** When [cursor.execute] raised, the loop stopped there: nothing was
    committed and [false] is returned. *)
Lemma query_run_failed_execute (b : bool) (t : list event)
      (statement : string) (e : pyexn) :
  query_run file_name statements b t ->
  In (EvExecute statement (Err e)) t ->
  exists k,
    nth_error statements k = Some statement
    /\ executes t
       = map (fun s => (s, Ok tt)) (firstn k statements)
             ++ [(statement, Err e)]
    /\ commits t = []
    /\ b = false.
Proof.
  intros Hrun Hin.
  destruct Hrun as [e'|e' rc|inner o rk rc final Hcb Hfinal].
  - exfalso. simpl in Hin. intuition discriminate.
  - exfalso. destruct rc as [[]|ec]; simpl in Hin; intuition discriminate.
  - destruct (closing_record_quiet file_name final)
      as (C1 & _ & C2 & _).
    assert (Hbody : exists body stop,
               statements_trace statements body stop
               /\ In (EvExecute statement (Err e)) body
               /\ executes inner = executes body
               /\ (stop <> None -> commits inner = [] /\ o = stop)).
    { apply in_app_or in Hin. destruct Hin as [Hin|Hin];
        [simpl in Hin; intuition discriminate|].
      apply in_app_or in Hin. destruct Hin as [Hin|Hin].
      2:{ exfalso. apply in_app_or in Hin. destruct Hin as [Hin|Hin];
            [simpl in Hin; intuition discriminate|].
          destruct final; simpl in Hin; intuition discriminate. }
      destruct Hcb as [body e' Hb|body e' Hb|body Hb];
        exists body; eexists; (split; [exact Hb|]);
        destruct (statements_trace_quiet Hb) as (Hc & _).
      - destruct Hin as [Hin|Hin]; [discriminate|].
        split; [exact Hin|]. split; [reflexivity|].
        intros _. unfold_readers. now rewrite Hc.
      - destruct Hin as [Hin|Hin]; [discriminate|].
        apply in_app_or in Hin.
        destruct Hin as [Hin|Hin]; [|simpl in Hin; intuition discriminate].
        split; [exact Hin|]. split; [|now intros []].
        unfold_readers. now rewrite app_nil_r.
      - destruct Hin as [Hin|Hin]; [discriminate|].
        apply in_app_or in Hin.
        destruct Hin as [Hin|Hin]; [|simpl in Hin; intuition discriminate].
        split; [exact Hin|]. split; [|now intros []].
        unfold_readers. now rewrite app_nil_r. }
    destruct Hbody as (body & stop & Hb & Hinb & Hex & Hstop).
    destruct (statements_trace_failure _ _ Hb Hinb) as (k & Hk & Hexb & Hst).
    destruct Hstop as [Hc Ho]; [now rewrite Hst|].
    exists k. split; [exact Hk|].
    unfold_readers. rewrite C1, C2, Hex, Hexb, Hc.
    split; [now rewrite app_nil_r|]. split; [reflexivity|].
    subst final o stop. now destruct rk as [[]|ek], rc as [[]|ec].
Qed.

End QueryRuns.

(* ================================================================== *)
(** * The query loader *)
(* ================================================================== *)

(** C6.  When reading the file raises, [read_query_from_file] writes
    one error record that holds the path and the message of the
    exception and raises that same exception to its caller; otherwise
    it returns the whole text that was read. *)
Theorem read_query_from_file_returns_text_or_logs_and_reraises
        (Wd : World) (file_path : string) (w : W Wd) :
  (forall text w',
      open_read Wd file_path w = (Ok text, w') ->
      read_query_from_file Wd file_path w
      = (Ret text, w', [EvRead file_path (Ok text)]))
  /\ (forall e w',
         open_read Wd file_path w = (Err e, w') ->
         read_query_from_file Wd file_path w
         = (Raise e, w',
            [EvRead file_path (Err e);
             EvLog ERROR ("Error reading file " ++ file_path ++ ": "
                          ++ str_of_exn e)%string])).
Proof.
  split; intros x w' H;
    unfold read_query_from_file, try_except, call, bind, log, reraise;
    now rewrite H.
Qed.

Lemma read_query_from_file_returns_text_or_logs_and_reraises_witness :
  (open_read (Demo.world true true) "q/3.sql" [] = (Ok "Select x From t", [])
   /\ read_query_from_file (Demo.world true true) "q/3.sql" []
      = (Ret "Select x From t", [],
         [EvRead "q/3.sql" (Ok "Select x From t")]))
  /\ (open_read (Demo.world true true) "broken/1.sql" []
      = (Err (Exception "Permission denied"), [])
      /\ read_query_from_file (Demo.world true true) "broken/1.sql" []
         = (Raise (Exception "Permission denied"), [],
            [EvRead "broken/1.sql" (Err (Exception "Permission denied"));
             EvLog ERROR
                   "Error reading file broken/1.sql: Permission denied"])).
Proof.
  split; (split; [reflexivity|]).
  - exact (proj1 (@read_query_from_file_returns_text_or_logs_and_reraises
                    (Demo.world true true) "q/3.sql" [])
                 "Select x From t" [] eq_refl).
  - exact (proj2 (@read_query_from_file_returns_text_or_logs_and_reraises
                    (Demo.world true true) "broken/1.sql" [])
                 (Exception "Permission denied") [] eq_refl).
Defined.

(* ================================================================== *)
(** * The query executor *)
(* ================================================================== *)

(** C4, as the specification states it, does not hold.  The cursor
    and the connection are released inside the [try] block, after the
    body of the [with] blocks has run, and a release may raise.  Here
    the one statement of [a.sql] is executed without error and the
    commit succeeds, success is logged and the body returns [True];
    then releasing the cursor raises, the connection is released, the
    handler logs that exception and [False] is returned. *)
Lemma execute_query_false_after_commit_when_release_raises :
  execute_query (DemoOk.world_releasing false true) Demo.runner
                "UPDATE t SET x = 1" "a.sql" []
  = (Ret false, ["UPDATE t SET x = 1"],
     [EvConnect (Ok tt); EvCursor (Ok tt);
      EvLog INFO "Executing query from a.sql";
      EvExecute "UPDATE t SET x = 1" (Ok tt);
      EvCommit (Ok tt);
      EvLog INFO "Successfully executed query from a.sql";
      EvCursorClose (Err (Exception "Unread result found"));
      EvConnClose (Ok tt);
      EvLog ERROR "Error executing query from a.sql: Unread result found"])
  /\ split_trim_discard "UPDATE t SET x = 1" = ["UPDATE t SET x = 1"]
  /\ ~ (forall (Wd : World) (self : SQLQueryRunner)
               (query file_name : string) (w w' : W Wd) (b : bool)
               (t : list event),
           execute_query Wd self query file_name w = (Ret b, w', t) ->
           (b = true <->
            executed_ok t = split_trim_discard query
            /\ commits t = [Ok tt])).
Proof.
  split; [reflexivity|]. split; [reflexivity|].
  intros H.
  specialize (H (DemoOk.world_releasing false true) Demo.runner
                "UPDATE t SET x = 1" "a.sql" [] _ _ _ eq_refl).
  destruct H as [_ H]. discriminate H. now split.
Qed.

(** C4, amended.  [execute_query] never lets an exception out: it
    returns a boolean.  The boolean is [true] exactly when every
    statement of the file, as split, trimmed and kept when not empty,
    was executed without error, the commit succeeded and releasing the
    cursor and the connection raised nothing.  It is [false] exactly
    when some call to the database client raised: while connecting (the
    handler is the same), opening the cursor, executing a statement,
    fetching, committing or releasing; then the last thing done is to
    log, with the file name, the last exception raised.  When the
    releases raise nothing, the exception logged is the one the call
    raised, and [true] is returned exactly when every statement was
    executed without error and the commit succeeded. *)
Theorem execute_query_true_iff_executed_committed_and_released
        (Wd : World) (self : SQLQueryRunner) (query file_name : string)
        (w : W Wd) :
  exists b w' t,
    execute_query Wd self query file_name w = (Ret b, w', t)
    /\ (b = true <->
        executed_ok t = split_trim_discard query
        /\ commits t = [Ok tt]
        /\ releases t = [Ok tt; Ok tt])
    /\ (b = false <-> exists e, raised e t)
    /\ (b = false ->
        exists e t0,
          last_raised t = Some e
          /\ t = t0 ++ [error_record file_name e])
    /\ (released_cleanly t ->
        (b = true <->
         executed_ok t = split_trim_discard query /\ commits t = [Ok tt])
        /\ forall e,
            raised e t ->
            exists t0, t = t0 ++ [error_record file_name e])
    /\ (forall e w1,
           db_connect Wd (connection_params self) w = (Err e, w1) ->
           b = false /\ w' = w1
           /\ t = [EvConnect (Err e); error_record file_name e]).
Proof.
  destruct (@execute_query_run Wd self query file_name w)
    as (b & w' & t & Hrun & Hshape).
  exists b, w', t. split; [exact Hrun|].
  rewrite <- split_statements_as_specified.
  pose proof (query_run_true_iff Hshape) as Htrue.
  pose proof (query_run_false_iff Hshape) as Hfalse.
  destruct (query_run_closing Hshape) as [Hb [t0 Ht0]].
  split; [exact Htrue|].
  split; [exact Hfalse|].
  split.
  { intros ->. destruct (last_raised t) as [e|]; [|discriminate].
    now exists e, t0. }
  split.
  { intros Hclean. split.
    - split.
      + intros H. apply Htrue in H. tauto.
      + intros [H1 H2].
        destruct b; [reflexivity|]. exfalso.
        destruct (proj1 Hfalse eq_refl) as [e He].
        pose proof (query_run_released_cleanly Hshape Hclean He) as Hlast.
        apply (released_cleanly_commit Hshape Hclean Hlast H2).
    - intros e He.
      rewrite (query_run_released_cleanly Hshape Hclean He) in Ht0.
      now exists t0. }
  intros e w1 Hc. revert Hrun.
  unfold execute_query, try_except, with_, call at 1. rewrite Hc.
  unfold bind, log, ret. cbn -[String.append].
  intros [= <- <- <-]. now repeat split.
Qed.

(** On a server that rejects [BAD] and releases without error, the
    file of three statements returns [false] and ends on the record of
    that rejection; the file of two statements that the server accepts
    returns [true]. *)
Lemma execute_query_true_iff_executed_committed_and_released_witness :
  (raised (Exception "You have an error in your SQL syntax")
          (snd (execute_query (DemoOk.world_releasing true true) Demo.runner
                              "UPDATE t SET x = 2; BAD; DELETE FROM t"
                              "2.sql" []))
   /\ released_cleanly
        (snd (execute_query (DemoOk.world_releasing true true) Demo.runner
                            "UPDATE t SET x = 2; BAD; DELETE FROM t"
                            "2.sql" []))
   /\ exists t0,
       snd (execute_query (DemoOk.world_releasing true true) Demo.runner
                          "UPDATE t SET x = 2; BAD; DELETE FROM t"
                          "2.sql" [])
       = t0 ++ [EvLog ERROR
                  ("Error executing query from 2.sql: "
                   ++ "You have an error in your SQL syntax")])
  /\ (executed_ok
        (snd (execute_query (DemoOk.world_releasing true true) Demo.runner
                            "CREATE TABLE t (x INT); INSERT INTO t VALUES (1);"
                            "a.sql" []))
      = split_trim_discard "CREATE TABLE t (x INT); INSERT INTO t VALUES (1);"
      /\ fst (fst (execute_query
                     (DemoOk.world_releasing true true) Demo.runner
                     "CREATE TABLE t (x INT); INSERT INTO t VALUES (1);"
                     "a.sql" []))
         = Ret true).
Proof.
  split.
  - assert (Hr : raised (Exception "You have an error in your SQL syntax")
                   (snd (execute_query
                           (DemoOk.world_releasing true true) Demo.runner
                           "UPDATE t SET x = 2; BAD; DELETE FROM t"
                           "2.sql" []))).
    { apply Exists_exists.
      exists (EvExecute "BAD"
                (Err (Exception "You have an error in your SQL syntax"))).
      split; [vm_compute; tauto|reflexivity]. }
    assert (Hc : released_cleanly
                   (snd (execute_query
                           (DemoOk.world_releasing true true) Demo.runner
                           "UPDATE t SET x = 2; BAD; DELETE FROM t"
                           "2.sql" []))).
    { vm_compute. now repeat constructor. }
    split; [exact Hr|]. split; [exact Hc|].
    destruct (@execute_query_true_iff_executed_committed_and_released
                (DemoOk.world_releasing true true) Demo.runner
                "UPDATE t SET x = 2; BAD; DELETE FROM t" "2.sql" [])
      as (b & w' & t & Hrun & _ & _ & _ & Hclean & _).
    rewrite Hrun in Hr, Hc |- *. cbn [snd] in *.
    destruct (Hclean Hc) as [_ Hlog].
    exact (Hlog _ Hr).
  - split; [reflexivity|].
    destruct (@execute_query_true_iff_executed_committed_and_released
                (DemoOk.world_releasing true true) Demo.runner
                "CREATE TABLE t (x INT); INSERT INTO t VALUES (1);"
                "a.sql" [])
      as (b & w' & t & Hrun & Htrue & _).
    rewrite Hrun. cbn [fst]. f_equal. apply Htrue.
    assert (E : t = snd (execute_query
                           (DemoOk.world_releasing true true) Demo.runner
                           "CREATE TABLE t (x INT); INSERT INTO t VALUES (1);"
                           "a.sql" []))
      by now rewrite Hrun.
    rewrite E. now repeat split.
Defined.

Section ExecutorFacts.

Lemma statements_trace_nil (body : list event) (stop : option pyexn) :
  statements_trace [] body stop -> body = [] /\ stop = None.
Proof. intros H. inversion H. now split. Qed.

Lemma strip_blank (s : string) :
  all_chars PyStr.isspace s = true -> PyStr.strip s = ""%string.
Proof.
  intros H. unfold PyStr.strip.
  assert (E : PyStr.lstrip s = ""%string); [|now rewrite E].
  induction s as [|c s IH]; [reflexivity|].
  simpl in *. apply andb_true_iff in H. destruct H as [Hc Hs].
  rewrite Hc. now apply IH.
Qed.

Lemma split_blank (text : string) :
  blank_text text = true ->
  Forall (fun frag => all_chars PyStr.isspace frag = true)
         (PyStr.split ";" text).
Proof.
  unfold blank_text. induction text as [|c text IH]; intros H.
  - now repeat constructor.
  - cbn [all_chars] in H. apply andb_true_iff in H. destruct H as [Hc Ht].
    specialize (IH Ht). cbn [PyStr.split].
    destruct (Ascii.eqb c ";") eqn:E.
    + now constructor.
    + rewrite orb_false_r in Hc.
      destruct (PyStr.split ";" text) as [|frag rest].
      * repeat constructor. simpl. now rewrite Hc.
      * inversion IH as [|? ? Hf Hr]; subst.
        constructor; [|exact Hr]. simpl. now rewrite Hc, Hf.
Qed.

(** A text of whitespace and semicolons holds no statement. *)
Lemma split_statements_blank (text : string) :
  blank_text text = true -> split_statements text = [].
Proof.
  intros H. apply split_blank in H. unfold split_statements.
  induction H as [|frag rest Hf Hr IH]; [reflexivity|].
  cbn [filter]. rewrite (strip_blank _ Hf). exact IH.
Qed.

End ExecutorFacts.

(** C9.  When [cursor.execute] raises on a statement, that statement is
    one of the file, at some position k; the calls of [cursor.execute]
    made for the file are the k statements before it, all without
    error, and then that one: no later statement is executed.
    [conn.commit] is not called, and [execute_query] returns [false]. *)
Theorem statement_error_ends_file_without_commit
        (Wd : World) (self : SQLQueryRunner) (query file_name : string)
        (w w' : W Wd) (r : outcome bool) (t : list event)
        (statement : string) (e : pyexn) :
  execute_query Wd self query file_name w = (r, w', t) ->
  In (EvExecute statement (Err e)) t ->
  exists k,
    nth_error (split_statements query) k = Some statement
    /\ executes t
       = map (fun s => (s, Ok tt)) (firstn k (split_statements query))
             ++ [(statement, Err e)]
    /\ commits t = []
    /\ r = Ret false.
Proof.
  intros Hrun Hin.
  destruct (@execute_query_run Wd self query file_name w)
    as (b & w1 & t1 & Hrun1 & Hshape).
  rewrite Hrun in Hrun1. injection Hrun1 as -> -> ->.
  destruct (@query_run_failed_execute _ _ _ _ _ _ Hshape Hin)
    as (k & Hk & Hex & Hc & ->).
  exists k. now repeat split.
Qed.

(** The second statement of [2.sql] is rejected: the third is not
    executed and nothing is committed. *)
Lemma statement_error_ends_file_without_commit_witness :
  let run := execute_query (Demo.world true true) Demo.runner
                           "UPDATE t SET x = 2; BAD; DELETE FROM t"
                           "2.sql" [] in
  In (EvExecute "BAD" (Err (Exception "You have an error in your SQL syntax")))
     (snd run)
  /\ exists k,
      nth_error (split_statements "UPDATE t SET x = 2; BAD; DELETE FROM t") k
      = Some "BAD"
      /\ executes (snd run)
         = map (fun s => (s, Ok tt))
               (firstn k (split_statements
                            "UPDATE t SET x = 2; BAD; DELETE FROM t"))
               ++ [("BAD",
                    Err (Exception "You have an error in your SQL syntax"))]
      /\ commits (snd run) = []
      /\ fst (fst run) = Ret false.
Proof.
  intros run.
  assert (Hin : In (EvExecute "BAD"
                      (Err (Exception "You have an error in your SQL syntax")))
                   (snd run)).
  { vm_compute. do 4 right. left. reflexivity. }
  split; [exact Hin|].
  apply (@statement_error_ends_file_without_commit
           (Demo.world true true) Demo.runner
           "UPDATE t SET x = 2; BAD; DELETE FROM t" "2.sql" []
           (snd (fst run)) (fst (fst run)) (snd run) "BAD"
           (Exception "You have an error in your SQL syntax")).
  - unfold run. now destruct (execute_query _ _ _ _ _) as [[o w1] t1].
  - exact Hin.
Defined.

(** C8.  A text of whitespace and semicolons only splits into zero
    statements.  Executing it hands no statement to the server,
    whatever the client does, and once the cursor is open the commit is
    still issued.  When the calls to the client go through (connecting,
    opening the cursor, committing and the two releases), the run is
    the opening, the commit, the record of success and the releases,
    and [execute_query] returns [true]. *)
Theorem blank_file_runs_nothing_and_commits_once_connected
        (Wd : World) (self : SQLQueryRunner) (query file_name : string)
        (w : W Wd) :
  blank_text query = true ->
  split_statements query = []
  /\ split_trim_discard query = []
  /\ exists b w' t,
      execute_query Wd self query file_name w = (Ret b, w', t)
      /\ executes t = []
      /\ (In (EvCursor (Ok tt)) t -> exists r, commits t = [r])
      /\ (b = true -> commits t = [Ok tt])
      /\ (forall w1 w2 w3 w4 w5,
             db_connect Wd (connection_params self) w = (Ok tt, w1) ->
             db_cursor Wd w1 = (Ok tt, w2) ->
             db_commit Wd w2 = (Ok tt, w3) ->
             db_cursor_close Wd w3 = (Ok tt, w4) ->
             db_conn_close Wd w4 = (Ok tt, w5) ->
             b = true
             /\ w' = w5
             /\ t = [EvConnect (Ok tt); EvCursor (Ok tt);
                     EvLog INFO ("Executing query from " ++ file_name)%string;
                     EvCommit (Ok tt);
                     EvLog INFO ("Successfully executed query from "
                                 ++ file_name)%string;
                     EvCursorClose (Ok tt); EvConnClose (Ok tt)]).
Proof.
  intros Hblank. pose proof (split_statements_blank _ Hblank) as Hnil.
  split; [exact Hnil|].
  split; [now rewrite <- split_statements_as_specified|].
  destruct (@execute_query_run Wd self query file_name w)
    as (b & w' & t & Hrun & Hshape).
  exists b, w', t. split; [exact Hrun|].
  split; [|split; [|split]].
  - rewrite Hnil in Hshape.
    destruct Hshape as [e|e rc|inner o rk rc final Hcb Hfinal].
    + reflexivity.
    + now destruct rc as [[]|ec].
    + destruct (closing_record_quiet file_name final) as (C1 & _).
      unfold_readers. rewrite C1.
      destruct Hcb as [body e Hb|body e Hb|body Hb];
        destruct (statements_trace_nil Hb) as [-> Hst];
        try discriminate; reflexivity.
  - intros Hin. rewrite Hnil in Hshape.
    destruct Hshape as [e|e rc|inner o rk rc final Hcb Hfinal].
    + destruct Hin as [Hin|[Hin|[]]]; discriminate.
    + exfalso. destruct rc as [[]|ec]; simpl in Hin; intuition discriminate.
    + destruct (closing_record_quiet file_name final) as (_ & _ & C2 & _).
      unfold_readers. rewrite C2.
      destruct Hcb as [body e Hb|body e Hb|body Hb];
        destruct (statements_trace_nil Hb) as [-> Hst];
        try discriminate.
      * now exists (Err e).
      * now exists (Ok tt).
  - intros Hb. now apply (query_run_true_iff Hshape).
  - intros w1 w2 w3 w4 w5 Hc Hcur Hcom Hk Hcl. revert Hrun.
    unfold execute_query, try_except, with_, call at 1. rewrite Hc.
    unfold call at 1. rewrite Hcur. rewrite Hnil.
    unfold bind, log, ret, call. cbn -[String.append]. rewrite Hcom.
    cbn -[String.append]. rewrite Hk, Hcl.
    cbn -[String.append]. intros [= <- <- <-]. now repeat split.
Qed.

Lemma blank_file_runs_nothing_and_commits_once_connected_witness :
  blank_text ";  ; ;" = true
  /\ split_statements ";  ; ;" = []
  /\ execute_query (Demo.world true true) Demo.runner ";  ; ;" "blank.sql" []
     = (Ret true, [],
        [EvConnect (Ok tt); EvCursor (Ok tt);
         EvLog INFO "Executing query from blank.sql";
         EvCommit (Ok tt);
         EvLog INFO "Successfully executed query from blank.sql";
         EvCursorClose (Ok tt); EvConnClose (Ok tt)]).
Proof.
  split; [reflexivity|].
  destruct (@blank_file_runs_nothing_and_commits_once_connected
              (Demo.world true true) Demo.runner ";  ; ;" "blank.sql" []
              eq_refl)
    as (Hnil & _ & b & w' & t & Hrun & _ & _ & _ & Hok).
  split; [exact Hnil|].
  destruct (Hok [] [] [] [] [] eq_refl eq_refl eq_refl eq_refl eq_refl)
    as (-> & -> & ->).
  exact Hrun.
Defined.

Section SelectRows.

Lemma statements_trace_no_select (statements : list string)
      (body : list event) (stop : option pyexn) :
  statements_trace statements body stop ->
  Forall (fun s => is_select s = false) statements ->
  fetches body = [].
Proof.
  intros Hbody.
  induction Hbody as [|s rest t st Hsel Ht IH|s rows rest t st Hsel Ht IH
                      |s e' rest|s e' rest Hsel]; intros Hall.
  - reflexivity.
  - inversion Hall; subst. unfold_readers. now apply IH.
  - inversion Hall; subst. congruence.
  - reflexivity.
  - inversion Hall; subst. congruence.
Qed.

(** What the theorem on the rows asks of the loop, once the trace
    around it is known to hold no statement event. *)
Lemma in_loop (statements : list string) (body closing : list event)
      (stop : option pyexn) (msg : string) :
  let t := [EvConnect (Ok tt); EvCursor (Ok tt); EvLog INFO msg]
             ++ body ++ closing in
  statements_trace statements body stop ->
  executed_ok closing = [] ->
  fetches closing = [] ->
  (In (EvCursor (Ok tt)) t -> statements_trace statements body stop)
  /\ (~ In (EvCursor (Ok tt)) t -> body = [])
  /\ List.length (fetches t)
     = List.length (filter is_select (executed_ok t))
  /\ logged body = fetched_row_records t
  /\ (Forall (fun s => is_select s = false) statements -> fetches t = []).
Proof.
  intros t Hb Hc1 Hc2. subst t.
  split; [intros _; exact Hb|].
  split; [intros H; exfalso; apply H; right; now left|].
  destruct (statements_trace_fetches Hb) as [Hn Hl].
  unfold fetched_row_records in *.
  unfold_readers. rewrite Hc1, Hc2, !app_nil_r.
  split; [exact Hn|]. split; [exact Hl|].
  intros Hall. pose proof (statements_trace_no_select Hb Hall) as Hf.
  unfold_readers. exact Hf.
Qed.

End SelectRows.

(** Settles [no_statement_events] for an explicit list of events. *)
Ltac quiet_events :=
  repeat split;
  intros r Hin; simpl in Hin;
  repeat (destruct Hin as [Hin|Hin]; [discriminate|]);
  exact Hin.

(** C7.  The trace of executing a file is an opening, the loop over the
    statements and a closing, with no execute, fetch or row record
    outside the loop.  Inside, [statements_trace] holds: after a
    statement that begins with [select] (lowercased, trimmed) has been
    executed, all its rows are fetched with one [fetchall], then every
    row is logged in a record of its own, and only then is the next
    statement executed; after any other statement the next statement
    follows at once.  So there is one fetch per executed [select], the
    rows logged are the rows fetched, and a file without [select]
    fetches nothing. *)
Theorem select_rows_fetched_and_logged_before_next_statement
        (Wd : World) (self : SQLQueryRunner) (query file_name : string)
        (w : W Wd) :
  exists b w' t before body after stop,
    execute_query Wd self query file_name w = (Ret b, w', t)
    /\ t = before ++ body ++ after
    /\ no_statement_events before
    /\ no_statement_events after
    /\ (In (EvCursor (Ok tt)) t ->
        statements_trace (split_statements query) body stop)
    /\ (~ In (EvCursor (Ok tt)) t -> body = [])
    /\ List.length (fetches t)
       = List.length (filter is_select (executed_ok t))
    /\ logged body = fetched_row_records t
    /\ (Forall (fun s => is_select s = false) (split_statements query) ->
        fetches t = []).
Proof.
  destruct (@execute_query_run Wd self query file_name w)
    as (b & w' & t & Hrun & Hshape).
  exists b, w', t.
  destruct Hshape as [e|e rc|inner o rk rc final Hcb Hfinal].
  - exists [EvConnect (Err e); error_record file_name e], [], [], None.
    split; [exact Hrun|]. split; [reflexivity|].
    split; [quiet_events|]. split; [quiet_events|].
    split; [intros [H|[H|[]]]; discriminate|]. now repeat split.
  - destruct rc as [[]|ec]; cbn [after_release closing_record app] in *.
    + exists [EvConnect (Ok tt); EvCursor (Err e); EvConnClose (Ok tt);
              error_record file_name e], [], [], None.
      split; [exact Hrun|]. split; [reflexivity|].
      split; [quiet_events|]. split; [quiet_events|].
      split; [intros [H|[H|[H|[H|[]]]]]; discriminate|]. now repeat split.
    + exists [EvConnect (Ok tt); EvCursor (Err e); EvConnClose (Err ec);
              error_record file_name ec], [], [], None.
      split; [exact Hrun|]. split; [reflexivity|].
      split; [quiet_events|]. split; [quiet_events|].
      split; [intros [H|[H|[H|[H|[]]]]]; discriminate|]. now repeat split.
  - destruct (cursor_block_loop Hcb)
      as (body & stop & tail & Hb & -> & Htail).
    exists [EvConnect (Ok tt); EvCursor (Ok tt);
            EvLog INFO ("Executing query from " ++ file_name)%string],
      body,
      (tail ++ [EvCursorClose rk; EvConnClose rc]
            ++ closing_record file_name final),
      stop.
    assert (Ht : [EvConnect (Ok tt); EvCursor (Ok tt)]
                   ++ (EvLog INFO ("Executing query from " ++ file_name)%string
                         :: body ++ tail)
                   ++ [EvCursorClose rk; EvConnClose rc]
                   ++ closing_record file_name final
                 = [EvConnect (Ok tt); EvCursor (Ok tt);
                    EvLog INFO ("Executing query from " ++ file_name)%string]
                     ++ body
                     ++ tail ++ [EvCursorClose rk; EvConnClose rc]
                     ++ closing_record file_name final)
      by (cbn [app]; now rewrite <- app_assoc).
    rewrite Ht in *.
    split; [exact Hrun|]. split; [reflexivity|].
    split; [quiet_events|].
    assert (Hafter :
              no_statement_events
                (tail ++ [EvCursorClose rk; EvConnClose rc]
                      ++ closing_record file_name final)
              /\ executed_ok (tail ++ [EvCursorClose rk; EvConnClose rc]
                                  ++ closing_record file_name final) = []
              /\ fetches (tail ++ [EvCursorClose rk; EvConnClose rc]
                               ++ closing_record file_name final) = []).
    { clear Hfinal Ht Hrun.
      destruct Htail as [(-> & _)|[(e & -> & _)|(-> & _)]];
        destruct final; (split; [quiet_events|now split]). }
    destruct Hafter as (Ha & Ha1 & Ha2).
    split; [exact Ha|]. now apply in_loop.
Qed.

Lemma select_rows_fetched_and_logged_before_next_statement_witness :
  let text := ("INSERT INTO t VALUES (1);  " ++ Demo.nl
               ++ " SELECT * FROM t; ")%string in
  let run := execute_query (Demo.world true true) Demo.runner text
                           "1.sql" [] in
  In (EvCursor (Ok tt)) (snd run)
  /\ exists before body after stop,
      snd run = before ++ body ++ after
      /\ statements_trace (split_statements text) body stop
      /\ logged body = [(INFO, "Result: (1,)"); (INFO, "Result: (2,)")].
Proof.
  intros text run.
  assert (Hin : In (EvCursor (Ok tt)) (snd run))
    by (vm_compute; right; left; reflexivity).
  split; [exact Hin|].
  destruct (@select_rows_fetched_and_logged_before_next_statement
              (Demo.world true true) Demo.runner text "1.sql" [])
    as (b & w' & t & before & body & after & stop
        & Hrun & Ht & _ & _ & Hloop & _ & _ & Hlog & _).
  fold run in Hrun.
  assert (E : snd run = t) by now rewrite Hrun.
  exists before, body, after, stop.
  split; [now rewrite E|].
  split; [apply Hloop; now rewrite <- E|].
  rewrite Hlog, <- E. reflexivity.
Defined.

(* ================================================================== *)
(** * The batch orchestrator *)
(* ================================================================== *)

Section Batch.

Variable Wd : World.
Variable self : SQLQueryRunner.

Lemma for_each_app {A : Type} (body : A -> M Wd unit) (l1 l2 : list A)
      (w w1 : W Wd) (t1 : list event) :
  for_each l1 body w = (Ret tt, w1, t1) ->
  for_each (l1 ++ l2) body w
  = (let '(r, w2, t2) := for_each l2 body w1 in (r, w2, t1 ++ t2)).
Proof.
  revert w t1. induction l1 as [|x l1 IH]; intros w t1 H.
  - injection H as <- <-. cbn [app]. now destruct (for_each l2 body w) as [[r w2] t2].
  - cbn [app for_each] in *. unfold bind in *.
    destruct (body x w) as [[[[]|e|c] wx] tx]; try discriminate.
    destruct (for_each l1 body wx) as [[r' w'] t'] eqn:E.
    injection H as -> -> <-.
    rewrite (IH _ _ E).
    destruct (for_each l2 body w1) as [[r w2] t2].
    now rewrite app_assoc.
Qed.

Lemma nth_error_firstn_skipn {A : Type} (l : list A) (i : nat) (a : A) :
  nth_error l i = Some a ->
  l = firstn i l ++ a :: skipn (S i) l
  /\ firstn (S i) l = firstn i l ++ [a].
Proof.
  revert l. induction i as [|i IH]; intros [|x l] H; try discriminate.
  - injection H as ->. now split.
  - destruct (IH l H) as [H1 H2]. cbn [firstn skipn app] in *.
    split; [now rewrite <- H1|now rewrite H2].
Qed.

(** Reading a file leaves one read in the trace and no connection. *)
Lemma read_query_from_file_trace (file_path : string) (w w' : W Wd)
      (r : outcome string) (t : list event) :
  read_query_from_file Wd file_path w = (r, w', t) ->
  reads t = [file_path] /\ connects t = []
  /\ (forall c, r <> SysExit c).
Proof.
  unfold read_query_from_file, try_except, call, bind, log, reraise.
  destruct (open_read Wd file_path w) as [[text|e] w1];
    intros [= <- <- <-]; now repeat split.
Qed.

(** Executing a file reads nothing and tries one connection. *)
Lemma execute_query_trace (query file_name : string) (w w' : W Wd)
      (r : outcome bool) (t : list event) :
  execute_query Wd self query file_name w = (r, w', t) ->
  reads t = [] /\ List.length (connects t) = 1.
Proof.
  intros Hrun.
  destruct (@execute_query_run Wd self query file_name w)
    as (b & w1 & t1 & Hrun1 & Hshape).
  rewrite Hrun in Hrun1. injection Hrun1 as -> -> ->.
  destruct Hshape as [e|e rc|inner o rk rc final Hcb Hfinal].
  - now split.
  - destruct rc as [[]|ec]; now split.
  - destruct (cursor_block_quiet Hcb) as (Hc & Hr & _).
    destruct (closing_record_quiet file_name final)
      as (_ & _ & _ & C4 & C5 & _).
    unfold_readers. rewrite Hc, Hr, C4, C5. now split.
Qed.

(** What processing one file can do: return, or log and exit with
    status 1. *)
Lemma process_file_load_fails (sql_file : string) (w w' : W Wd)
      (t : list event) :
  load_fails Wd sql_file w w' t ->
  exists e,
    process_file Wd self sql_file w
    = (SysExit 1, w',
       t ++ [EvLog ERROR ("Fatal error processing " ++ sql_file ++ ": "
                          ++ str_of_exn e)%string]).
Proof.
  intros [e H]. exists e.
  unfold process_file, try_except. unfold bind at 1. rewrite H.
  unfold bind, log, sys_exit. now rewrite app_nil_r.
Qed.

Lemma process_file_execution_fails (sql_file : string) (w w' : W Wd)
      (t : list event) :
  execution_fails Wd self sql_file w w' t ->
  process_file Wd self sql_file w
  = (SysExit 1, w',
     t ++ [EvLog ERROR ("Stopping execution due to failure in "
                        ++ sql_file)%string]).
Proof.
  intros (query & w1 & t1 & t2 & Hread & Hexec & ->).
  unfold process_file, try_except. unfold bind at 1. rewrite Hread.
  unfold bind at 1. rewrite Hexec. cbn [negb].
  unfold bind, log, sys_exit. now rewrite app_nil_r, app_assoc.
Qed.

Lemma process_file_trace (sql_file : string) (w w' : W Wd)
      (r : outcome unit) (t : list event) :
  process_file Wd self sql_file w = (r, w', t) ->
  reads t = [sql_file] /\ List.length (connects t) <= 1.
Proof.
  unfold process_file, try_except. unfold bind at 1.
  destruct (read_query_from_file Wd sql_file w) as [[rq wq] tq] eqn:Hread.
  destruct (read_query_from_file_trace _ _ Hread) as (Hr & Hc & Hx).
  destruct rq as [query|e|c]; [| |now destruct (Hx c)].
  - unfold bind at 1.
    destruct (execute_query Wd self query (OsPath.basename sql_file) wq)
      as [[rx wx] tx] eqn:Hexec.
    destruct (execute_query_trace _ _ _ Hexec) as (Hr' & Hc').
    destruct (@execute_query_run Wd self query (OsPath.basename sql_file) wq)
      as (b & w1 & t1 & Hrun1 & _).
    rewrite Hexec in Hrun1. injection Hrun1 as -> -> ->.
    destruct b; cbn [negb]; unfold bind, log, sys_exit, ret;
      intros [= <- <- <-]; unfold_readers;
      rewrite Hr, Hr', Hc; split; try reflexivity;
      cbn [app]; rewrite ?app_nil_r, Hc'; lia.
  - unfold bind, log, sys_exit. intros [= <- <- <-].
    unfold_readers. rewrite Hr, Hc. split; [reflexivity|]. simpl. lia.
Qed.

(** A loop over the files that reaches its end has read every file
    once, in order, and connected once per file at most. *)
Lemma for_each_process_file_trace (sql_files : list string) (w w' : W Wd)
      (t : list event) :
  for_each sql_files (process_file Wd self) w = (Ret tt, w', t) ->
  reads t = sql_files
  /\ List.length (connects t) <= List.length sql_files.
Proof.
  revert w t. induction sql_files as [|f l IH]; intros w t H.
  - injection H as <- <-. split; [reflexivity|]. simpl. lia.
  - cbn [for_each] in H. unfold bind in H.
    destruct (process_file Wd self f w) as [[rf wf] tf] eqn:Hf.
    destruct (process_file_trace _ _ Hf) as [Hr Hc].
    destruct rf as [[]|e|c]; try discriminate.
    destruct (for_each l (process_file Wd self) wf) as [[rl wl] tl] eqn:Hl.
    injection H as -> -> <-.
    destruct (IH _ _ Hl) as [Hr' Hc'].
    unfold_readers. rewrite Hr, Hr'. split; [reflexivity|].
    rewrite length_app. simpl. lia.
Qed.

End Batch.

(** C5.  When the directory holds no entry whose name ends with [.sql],
    the batch lists the directory, logs one warning and returns: no
    file is read, no connection is opened, and the process exits with
    status 0. *)
Theorem run_all_queries_without_sql_files_warns_and_returns
        (Wd : World) (self : SQLQueryRunner) (directory : string)
        (listing : list string) (w w' : W Wd) :
  os_listdir Wd directory w = (Ok listing, w') ->
  (forall name, In name listing -> has_sql_suffix name = false) ->
  exists t,
    run_all_queries Wd self directory w = (Ret tt, w', t)
    /\ t = [EvListdir directory (Ok listing);
            EvLog WARNING ("No SQL files found in " ++ directory)%string]
    /\ connects t = []
    /\ reads t = []
    /\ exit_status (fst (fst (run_all_queries Wd self directory w))) = 0%Z.
Proof.
  intros Hls Hnone.
  assert (Hf : filter has_sql_suffix listing = []).
  { clear Hls. induction listing as [|name l IH]; [reflexivity|].
    cbn [filter]. rewrite (Hnone name (or_introl eq_refl)).
    apply IH. intros n Hn. apply Hnone. now right. }
  assert (Hrun : run_all_queries Wd self directory w
                 = (Ret tt, w',
                    [EvListdir directory (Ok listing);
                     EvLog WARNING ("No SQL files found in "
                                    ++ directory)%string])).
  { unfold run_all_queries. unfold bind at 1.
    rewrite (get_sql_files_run _ _ _ Hls), Hf. reflexivity. }
  eexists. split; [exact Hrun|]. split; [reflexivity|].
  rewrite Hrun. now repeat split.
Qed.

Lemma run_all_queries_without_sql_files_warns_and_returns_witness :
  os_listdir (Demo.world true true) "empty" []
  = (Ok ["readme.txt"; "x.SQL"], [])
  /\ (forall name, In name ["readme.txt"; "x.SQL"] ->
                   has_sql_suffix name = false)
  /\ run_all_queries (Demo.world true true) Demo.runner "empty" []
     = (Ret tt, [],
        [EvListdir "empty" (Ok ["readme.txt"; "x.SQL"]);
         EvLog WARNING "No SQL files found in empty"]).
Proof.
  assert (Hnone : forall name, In name ["readme.txt"; "x.SQL"] ->
                               has_sql_suffix name = false).
  { intros name [<-|[<-|[]]]; reflexivity. }
  split; [reflexivity|]. split; [exact Hnone|].
  destruct (@run_all_queries_without_sql_files_warns_and_returns
              (Demo.world true true) Demo.runner "empty"
              ["readme.txt"; "x.SQL"] [] [] eq_refl Hnone)
    as (t & Hrun & -> & _).
  exact Hrun.
Defined.

(** C1.  Let the batch have processed the files before the i-th of the
    sorted list.  If the i-th then fails to load, or loads and its
    execution reports failure, the batch logs one error and the process
    terminates with exit status 1: nothing else follows in the trace.
    The files read in the whole run are the first i of the list and the
    i-th, and no more connections were tried than that: no file after
    the i-th is read or executed.  (Positions count from 0 here.) *)
Theorem run_all_queries_stops_at_first_failing_file
        (Wd : World) (self : SQLQueryRunner) (directory : string)
        (listing : list string) (w0 w1 w2 w3 : W Wd)
        (i : nat) (sql_file : string) (t_before t_file : list event) :
  let sql_files :=
    PyStr.sorted (map (OsPath.join directory)
                      (filter has_sql_suffix listing)) in
  os_listdir Wd directory w0 = (Ok listing, w1) ->
  nth_error sql_files i = Some sql_file ->
  for_each (firstn i sql_files) (process_file Wd self) w1
  = (Ret tt, w2, t_before) ->
  load_fails Wd sql_file w2 w3 t_file
  \/ execution_fails Wd self sql_file w2 w3 t_file ->
  exists t msg,
    run_all_queries Wd self directory w0 = (SysExit 1, w3, t)
    /\ t = [EvListdir directory (Ok listing);
            EvLog INFO ("Found " ++ PyStr.str_of_nat (List.length sql_files)
                        ++ " SQL files to execute")%string]
             ++ t_before ++ t_file ++ [EvLog ERROR msg]
    /\ reads t = firstn (S i) sql_files
    /\ List.length (connects t) <= S i
    /\ exit_status (fst (fst (run_all_queries Wd self directory w0))) = 1%Z.
Proof.
  intros sql_files Hls Hnth Hbefore Hfail.
  destruct (nth_error_firstn_skipn _ _ Hnth) as [Hsplit Hfirst].
  assert (Hfile : exists msg,
             process_file Wd self sql_file w2
             = (SysExit 1, w3, t_file ++ [EvLog ERROR msg])).
  { destruct Hfail as [Hl|Hx].
    - destruct (process_file_load_fails self Hl) as [e He]. eauto.
    - rewrite (process_file_execution_fails Hx). eauto. }
  destruct Hfile as [msg Hfile].
  assert (Hloop : for_each sql_files (process_file Wd self) w1
                  = (SysExit 1, w3,
                     t_before ++ t_file ++ [EvLog ERROR msg])).
  { rewrite Hsplit at 1. rewrite for_each_app with (1 := Hbefore).
    cbn [for_each]. unfold bind. now rewrite Hfile. }
  assert (Hrun : run_all_queries Wd self directory w0
                 = (SysExit 1, w3,
                    [EvListdir directory (Ok listing);
                     EvLog INFO ("Found "
                                 ++ PyStr.str_of_nat (List.length sql_files)
                                 ++ " SQL files to execute")%string]
                      ++ t_before ++ t_file ++ [EvLog ERROR msg])).
  { unfold run_all_queries. unfold bind at 1.
    rewrite (get_sql_files_run _ _ _ Hls). fold sql_files.
    destruct sql_files as [|f l] eqn:E; [now destruct i|].
    unfold bind at 1. unfold log at 1. now rewrite Hloop. }
  exists ([EvListdir directory (Ok listing);
           EvLog INFO ("Found " ++ PyStr.str_of_nat (List.length sql_files)
                       ++ " SQL files to execute")%string]
            ++ t_before ++ t_file ++ [EvLog ERROR msg]), msg.
  split; [exact Hrun|]. split; [reflexivity|].
  rewrite Hrun. cbn [fst exit_status].
  destruct (@for_each_process_file_trace Wd self _ _ _ _ Hbefore) as [Hr Hc].
  assert (Ht : reads t_file = [sql_file]
               /\ List.length (connects t_file) <= 1).
  { destruct (@process_file_trace Wd self _ _ _ _ _ Hfile) as [Hr' Hc'].
    unfold_readers. cbn [app] in *. rewrite !app_nil_r in *. now split. }
  destruct Ht as [Hr' Hc'].
  assert (Hlen : List.length (firstn i sql_files) <= i)
    by apply firstn_le_length.
  unfold_readers. rewrite Hr, Hr', Hfirst, app_nil_r.
  split; [reflexivity|]. split; [|reflexivity].
  rewrite app_nil_r, length_app. lia.
Qed.

(** The batch over [q]: [2.sql], the second of the three files, fails
    execution; [3.sql] is never read and the status is 1. *)
Lemma run_all_queries_stops_at_first_failing_file_witness :
  let run := run_all_queries (Demo.world true true) Demo.runner "q" [] in
  PyStr.sorted (map (OsPath.join "q") (filter has_sql_suffix Demo.listing))
  = ["q/1.sql"; "q/2.sql"; "q/3.sql"]
  /\ (exists w2 w3 t_before t_file,
         for_each ["q/1.sql"] (process_file (Demo.world true true) Demo.runner)
                  []
         = (Ret tt, w2, t_before)
         /\ execution_fails (Demo.world true true) Demo.runner
                            "q/2.sql" w2 w3 t_file)
  /\ fst (fst run) = SysExit 1
  /\ reads (snd run) = ["q/1.sql"; "q/2.sql"]
  /\ List.length (connects (snd run)) <= 2
  /\ exit_status (fst (fst run)) = 1%Z.
Proof.
  intros run.
  pose (before := for_each ["q/1.sql"]
                    (process_file (Demo.world true true) Demo.runner) []).
  pose (w2 := snd (fst before)).
  pose (loaded := read_query_from_file (Demo.world true true) "q/2.sql" w2).
  pose (executed := execute_query (Demo.world true true) Demo.runner
                      "UPDATE t SET x = 2; BAD; DELETE FROM t" "2.sql"
                      (snd (fst loaded))).
  assert (Hbefore : before = (Ret tt, w2, snd before)) by reflexivity.
  assert (Hfails : execution_fails (Demo.world true true) Demo.runner
                     "q/2.sql" w2 (snd (fst executed))
                     (snd loaded ++ snd executed)).
  { exists "UPDATE t SET x = 2; BAD; DELETE FROM t",
      (snd (fst loaded)), (snd loaded), (snd executed).
    repeat split; reflexivity. }
  split; [reflexivity|].
  split; [exists w2, (snd (fst executed)), (snd before),
            (snd loaded ++ snd executed); now split|].
  destruct (@run_all_queries_stops_at_first_failing_file
              (Demo.world true true) Demo.runner "q" Demo.listing
              [] [] w2 (snd (fst executed)) 1 "q/2.sql"
              (snd before) (snd loaded ++ snd executed)
              eq_refl eq_refl Hbefore (or_intror Hfails))
    as (t & msg & Hrun & _ & Hreads & Hconn & Hexit).
  fold run in Hrun, Hexit.
  assert (E : snd run = t) by now rewrite Hrun.
  rewrite E. split; [now rewrite Hrun|].
  split; [exact Hreads|]. split; [exact Hconn|exact Hexit].
Defined.

(* ================================================================== *)
(** * Runs of a file and of a batch: what every trace satisfies *)
(* ================================================================== *)

Ltac unfold_all_readers :=
  unfold errors, failed_reads, released_cleanly in *;
  unfold_readers.

Section RunFacts.

Lemma session_after_app (s : session) (a b : list event) :
  session_after s (a ++ b)
  = match session_after s a with
    | Some s' => session_after s' b
    | None => None
    end.
Proof.
  revert s. induction a as [|ev a IH]; intros s; [reflexivity|].
  cbn [app session_after]. destruct (session_step s ev); [apply IH|reflexivity].
Qed.

Lemma row_logs_harmless (rows : list row) (s : session) :
  errors (row_logs rows) = []
  /\ session_after s (row_logs rows) = Some s
  /\ forallb clean_runner_event (row_logs rows) = true.
Proof.
  induction rows as [|r rows (H1 & H2 & H3)]; [now repeat split|].
  repeat split; [exact H1| |exact H3].
  cbn [row_logs map session_after session_step]. exact H2.
Qed.

(** Inside the loop over the statements the cursor stays open and
    nothing is logged as an error. *)
Lemma statements_trace_session (statements : list string)
      (body : list event) (stop : option pyexn) :
  statements_trace statements body stop ->
  errors body = []
  /\ session_after CursorOpen body = Some CursorOpen
  /\ forallb clean_runner_event body = true.
Proof.
  intros Hbody.
  induction Hbody as [|s rest t st Hsel Ht (H1 & H2 & H3)
                      |s rows rest t st Hsel Ht (H1 & H2 & H3)| |];
    try (now repeat split).
  destruct (row_logs_harmless rows CursorOpen) as (R1 & R2 & R3).
  repeat split.
  - unfold errors in *. cbn [flat_map app]. now rewrite flat_map_app, R1, H1.
  - cbn [session_after session_step]. now rewrite session_after_app, R2.
  - cbn [forallb clean_runner_event clean_event andb]. now rewrite forallb_app, R3, H3.
Qed.

Lemma closing_record_status (file_name : string) (o : option pyexn)
      (s : session) :
  List.length (errors (closing_record file_name o))
  = (if returned o then 0 else 1)
  /\ session_after s (closing_record file_name o) = Some s
  /\ forallb clean_runner_event (closing_record file_name o) = returned o.
Proof. destruct o; now repeat split. Qed.

(** While the cursor is open it stays open and nothing is logged as
    an error. *)
Lemma cursor_block_session (file_name : string) (statements : list string)
      (inner : list event) (o : option pyexn) :
  cursor_block file_name statements inner o ->
  errors inner = []
  /\ session_after CursorOpen inner = Some CursorOpen
  /\ forallb clean_runner_event inner = true.
Proof.
  intros Hcb.
  destruct Hcb as [body e Hb|body e Hb|body Hb];
    destruct (statements_trace_session Hb) as (He & Hs & Hf).
  - now repeat split.
  - repeat split.
    + unfold errors in *. cbn [flat_map app]. now rewrite flat_map_app, He.
    + cbn [session_after session_step]. now rewrite session_after_app, Hs.
    + cbn [forallb clean_runner_event clean_event andb].
      now rewrite forallb_app, Hf.
  - repeat split.
    + unfold errors in *. cbn [flat_map app]. now rewrite flat_map_app, He.
    + cbn [session_after session_step]. now rewrite session_after_app, Hs.
    + cbn [forallb clean_runner_event clean_event andb].
      now rewrite forallb_app, Hf.
Qed.

Lemma failed_reads_nil (t : list event) : reads t = [] -> failed_reads t = [].
Proof.
  unfold reads, failed_reads. induction t as [|ev t IH]; [reflexivity|].
  cbn [flat_map]. intros H. apply app_eq_nil in H. destruct H as [H1 H2].
  rewrite (IH H2), app_nil_r.
  destruct ev as [d r|f r|r|r|s r|r|r|r|r|l m]; try reflexivity.
  discriminate H1.
Qed.

(** One file executed: one connection tried, released at the end; the
    log is free of errors exactly when [true] is returned.  One commit
    at most was issued; it went through when [true] is returned, and
    when [false] is returned it went through only if a release then
    raised. *)
Lemma query_run_status (file_name : string) (statements : list string)
      (b : bool) (t : list event) :
  query_run file_name statements b t ->
  reads t = []
  /\ session_after Idle t = Some Idle
  /\ forallb clean_runner_event t = b
  /\ (exists r, connects t = [r])
  /\ (b = true -> commits t = [Ok tt] /\ connects t = [Ok tt]
                  /\ errors t = [])
  /\ (b = false -> (commits t = [] \/ (exists e, commits t = [Err e])
                    \/ (commits t = [Ok tt] /\ ~ released_cleanly t))
                   /\ List.length (errors t) = 1
                   /\ exists t0 msg, t = t0 ++ [EvLog ERROR msg]).
Proof.
  intros Hrun.
  assert (Hcommit : b = false ->
                    commits t = [] \/ (exists e, commits t = [Err e])
                    \/ (commits t = [Ok tt] /\ ~ released_cleanly t)).
  { intros ->.
    destruct (query_run_commits Hrun) as [H|[H|H]]; [tauto|tauto|].
    right. right. split; [exact H|]. intros Hclean.
    destruct (query_run_closing Hrun) as [Hb _].
    destruct (last_raised t) as [e|] eqn:E; [|discriminate].
    exact (released_cleanly_commit Hrun Hclean E H). }
  assert (Hlast : b = false -> exists t0 msg, t = t0 ++ [EvLog ERROR msg]).
  { intros ->. destruct (query_run_closing Hrun) as [Hb [t0 Ht0]].
    destruct (last_raised t) as [e|]; [|discriminate].
    exists t0. eexists. exact Ht0. }
  assert (Htrue : b = true -> commits t = [Ok tt]).
  { intros Hb. now apply (query_run_true_iff Hrun). }
  destruct Hrun as [e|e rc|inner o rk rc final Hcb Hfinal].
  - split; [reflexivity|]. split; [reflexivity|]. split; [reflexivity|].
    split; [now exists (Err e)|]. split; [discriminate|]. intros Hb.
    split; [now apply Hcommit|]. split; [reflexivity|]. now apply Hlast.
  - split; [now destruct rc as [[]|ec]|].
    split; [now destruct rc as [[]|ec]|].
    split; [now destruct rc as [[]|ec]|].
    split; [exists (Ok tt); now destruct rc as [[]|ec]|].
    split; [discriminate|]. intros Hb.
    split; [now apply Hcommit|].
    split; [now destruct rc as [[]|ec]|]. now apply Hlast.
  - destruct (cursor_block_quiet Hcb) as (Hn & Hr & _).
    destruct (cursor_block_session Hcb) as (He & Hs & Hf).
    destruct (closing_record_quiet file_name final)
      as (_ & _ & _ & C4 & C5 & _).
    destruct (closing_record_status file_name final Idle) as (S1 & S2 & S3).
    assert (Herr : List.length
                     (errors ([EvConnect (Ok tt); EvCursor (Ok tt)]
                                ++ inner
                                ++ [EvCursorClose rk; EvConnClose rc]
                                ++ closing_record file_name final))
                   = if returned final then 0 else 1).
    { unfold errors in *. rewrite !flat_map_app, He.
      cbn [flat_map app]. exact S1. }
    split; [unfold_all_readers; now rewrite Hr, C5|].
    split.
    { cbn [app session_after session_step].
      rewrite session_after_app, Hs. cbn [session_after session_step].
      exact S2. }
    split.
    { cbn [app forallb clean_runner_event clean_event andb].
      rewrite forallb_app, Hf.
      cbn [forallb clean_runner_event clean_event andb]. exact S3. }
    split; [exists (Ok tt); unfold_all_readers; now rewrite Hn, C4|].
    split.
    + intros Hb. split; [now apply Htrue|].
      split; [unfold_all_readers; now rewrite Hn, C4|].
      rewrite Hb in Herr. now apply length_zero_iff_nil.
    + intros Hb. split; [now apply Hcommit|].
      split; [now rewrite Hb in Herr|]. now apply Hlast.
Qed.

End RunFacts.

Section FileAndBatchRuns.

(** The releases of two traces in a row raise nothing when those of
    each do. *)
Lemma released_cleanly_app (a b : list event) :
  released_cleanly (a ++ b) <-> released_cleanly a /\ released_cleanly b.
Proof.
  unfold released_cleanly, releases. rewrite flat_map_app. apply Forall_app.
Qed.

(** One file processed: it is read once.  Either it succeeded, with
    one connection, one commit and no error logged; or the batch is to
    exit with status 1 and two errors were logged, the last thing done:
    then the file could not be read and no connection was tried, or it
    was read, one connection was tried, and its commit was not issued,
    raised, or went through before a release raised. *)
Lemma file_run_status (sql_file : string) (r : outcome unit)
      (t : list event) :
  file_run sql_file r t ->
  reads t = [sql_file]
  /\ session_after Idle t = Some Idle
  /\ List.length (connects t) <= 1
  /\ ((r = Ret tt /\ commits t = [Ok tt] /\ connects t = [Ok tt]
       /\ errors t = [] /\ forallb clean_runner_event t = true
       /\ failed_reads t = [])
      \/ (r = SysExit 1
          /\ ((failed_reads t = [sql_file] /\ connects t = []
               /\ commits t = [])
              \/ (failed_reads t = []
                  /\ (exists c, connects t = [c])
                  /\ (commits t = [] \/ (exists e, commits t = [Err e])
                      \/ (commits t = [Ok tt] /\ ~ released_cleanly t))))
          /\ List.length (errors t) = 2
          /\ forallb clean_runner_event t = false
          /\ exists t0 msg, t = t0 ++ [EvLog ERROR msg])).
Proof.
  intros Hrun. destruct Hrun as [e|query tq Hq|query tq Hq].
  - split; [reflexivity|]. split; [reflexivity|].
    split; [simpl; lia|]. right.
    split; [reflexivity|]. split; [left; now repeat split|].
    split; [reflexivity|]. split; [reflexivity|].
    now exists [EvRead sql_file (Err e);
                EvLog ERROR ("Error reading file " ++ sql_file ++ ": "
                             ++ str_of_exn e)%string],
      ("Fatal error processing " ++ sql_file ++ ": " ++ str_of_exn e)%string.
  - destruct (query_run_status Hq) as (Hr & Hs & Hf & [c Hc] & _ & Hfalse).
    destruct (Hfalse eq_refl) as (Hcom & He & _).
    pose proof (failed_reads_nil _ Hr) as Hfr.
    split; [unfold_all_readers; now rewrite Hr|].
    split; [cbn [session_after session_step];
            now rewrite session_after_app, Hs|].
    split; [unfold_all_readers; rewrite Hc; simpl; lia|]. right.
    split; [reflexivity|].
    split.
    { right.
      split; [unfold failed_reads in *; cbn [flat_map app];
              now rewrite flat_map_app, Hfr|].
      split; [exists c; unfold_readers; now rewrite Hc|].
      assert (Hsame : commits (EvRead sql_file (Ok query)
                                 :: tq ++ [EvLog ERROR
                                   ("Stopping execution due to failure in "
                                    ++ sql_file)%string])
                      = commits tq)
        by (unfold_readers; now rewrite app_nil_r).
      rewrite Hsame.
      destruct Hcom as [H|[H|[H Hnot]]]; [tauto|tauto|].
      right. right. split; [exact H|]. intros Hclean. apply Hnot.
      change (EvRead sql_file (Ok query)
                :: tq ++ [EvLog ERROR ("Stopping execution due to failure in "
                                       ++ sql_file)%string])
        with ([EvRead sql_file (Ok query)]
                ++ tq ++ [EvLog ERROR ("Stopping execution due to failure in "
                                       ++ sql_file)%string]) in Hclean.
      apply released_cleanly_app in Hclean. destruct Hclean as [_ Hclean].
      apply released_cleanly_app in Hclean. tauto. }
    split.
    { unfold errors in *. cbn [flat_map app].
      rewrite flat_map_app, length_app, He. reflexivity. }
    split.
    { cbn [forallb clean_runner_event clean_event andb].
      rewrite forallb_app, Hf. reflexivity. }
    now exists (EvRead sql_file (Ok query) :: tq),
      ("Stopping execution due to failure in " ++ sql_file)%string.
  - destruct (query_run_status Hq) as (Hr & Hs & Hf & _ & Htrue & _).
    destruct (Htrue eq_refl) as (Hc & Hn & He).
    pose proof (failed_reads_nil _ Hr) as Hfr.
    split; [unfold_all_readers; now rewrite Hr|].
    split; [cbn [session_after session_step]; exact Hs|].
    split; [unfold_all_readers; rewrite Hn; simpl; lia|]. left.
    split; [reflexivity|].
    split; [unfold_all_readers; exact Hc|].
    split; [unfold_all_readers; exact Hn|].
    split; [unfold_all_readers; exact He|].
    split; [cbn [forallb clean_runner_event clean_event andb]; exact Hf|].
    unfold failed_reads in *. cbn [flat_map app]. exact Hfr.
Qed.

(** The loop over the files.  When it reaches its end every file was
    read, in order, each with one connection and one commit, and no
    error was logged.  When it stops, the files read are a prefix of the
    list that is not empty; each of them but the last was run on a
    connection of its own and committed; the last one failed as
    [file_run_status] tells; and two errors were logged, the last thing
    done. *)
Lemma batch_run_status (sql_files : list string) (r : outcome unit)
      (t : list event) :
  batch_run sql_files r t ->
  session_after Idle t = Some Idle
  /\ ((r = Ret tt /\ reads t = sql_files
       /\ commits t = repeat (Ok tt) (List.length sql_files)
       /\ connects t = repeat (Ok tt) (List.length sql_files)
       /\ errors t = [] /\ forallb clean_runner_event t = true)
      \/ (r = SysExit 1
          /\ (exists k,
                 reads t = firstn (S k) sql_files
                 /\ S k <= List.length sql_files
                 /\ ((exists sql_file,
                         nth_error sql_files k = Some sql_file
                         /\ failed_reads t = [sql_file]
                         /\ connects t = repeat (Ok tt) k
                         /\ commits t = repeat (Ok tt) k)
                     \/ (failed_reads t = []
                         /\ (exists c, connects t = repeat (Ok tt) k ++ [c])
                         /\ (commits t = repeat (Ok tt) k
                             \/ (exists e,
                                    commits t = repeat (Ok tt) k ++ [Err e])
                             \/ (commits t = repeat (Ok tt) k ++ [Ok tt]
                                 /\ ~ released_cleanly t)))))
          /\ List.length (errors t) = 2
          /\ forallb clean_runner_event t = false
          /\ exists t0 msg, t = t0 ++ [EvLog ERROR msg])).
Proof.
  intros Hrun.
  induction Hrun as [|f rest t r t' Hf Hrest (Hs' & IH)|f rest t Hf].
  - split; [reflexivity|]. left. now repeat split.
  - destruct (file_run_status Hf)
      as (Hr & Hs & Hn & [(_ & Hc & Hcn & He & Hcl & Hfr)|(Hx & _)]);
      [|discriminate].
    split; [now rewrite session_after_app, Hs|].
    destruct IH as [(-> & Hr' & Hc' & Hcn' & He' & Hcl')
                   |(-> & (k & Hr' & Hk & Hlast) & He' & Hcl'
                     & (t0 & msg & ->))].
    + left. split; [reflexivity|].
      unfold_all_readers. rewrite Hr, Hr', Hc, Hc', Hcn, Hcn', He, He'.
      repeat split. now rewrite forallb_app, Hcl, Hcl'.
    + right. split; [reflexivity|]. split.
      { exists (S k). split; [|split; [simpl; lia|]].
        - unfold_all_readers. now rewrite Hr, Hr'.
        - assert (Hfr' : failed_reads (t ++ t0 ++ [EvLog ERROR msg])
                         = failed_reads (t0 ++ [EvLog ERROR msg]))
            by (unfold failed_reads in *; now rewrite flat_map_app, Hfr).
          assert (Hcn'' : connects (t ++ t0 ++ [EvLog ERROR msg])
                          = Ok tt :: connects (t0 ++ [EvLog ERROR msg]))
            by (unfold connects in *; now rewrite flat_map_app, Hcn).
          assert (Hc'' : commits (t ++ t0 ++ [EvLog ERROR msg])
                         = Ok tt :: commits (t0 ++ [EvLog ERROR msg]))
            by (unfold commits in *; now rewrite flat_map_app, Hc).
          rewrite Hfr', Hcn'', Hc''. cbn [nth_error repeat app].
          destruct Hlast as [(sql_file & Hnth & -> & -> & ->)
                            |(-> & (c & ->) & Hcom)].
          * left. exists sql_file. now repeat split.
          * right. split; [reflexivity|]. split; [now exists c|].
            destruct Hcom as [->|[(e & ->)|(-> & Hnot)]].
            -- now left.
            -- right. left. now exists e.
            -- right. right. split; [reflexivity|].
               intros Hclean. apply Hnot.
               apply released_cleanly_app in Hclean. tauto. }
      split.
      { unfold errors in *. now rewrite flat_map_app, length_app, He. }
      split; [now rewrite forallb_app, Hcl, Hcl'|].
      exists (t ++ t0), msg. now rewrite app_assoc.
  - destruct (file_run_status Hf)
      as (Hr & Hs & Hn & [(Hx & _)|(_ & Hlast & He & Hcl & Hend)]);
      [discriminate|].
    split; [exact Hs|]. right. split; [reflexivity|]. split.
    { exists 0. split; [exact Hr|]. split; [simpl; lia|].
      cbn [nth_error repeat app].
      destruct Hlast as [(-> & -> & ->)|(-> & Hcn & Hcom)].
      - left. exists f. now repeat split.
      - right. split; [reflexivity|]. split; [exact Hcn|]. exact Hcom. }
    now repeat split.
Qed.

End FileAndBatchRuns.

Section BatchShape.

Variable Wd : World.
Variable self : SQLQueryRunner.

Lemma process_file_run (sql_file : string) (w w' : W Wd)
      (r : outcome unit) (t : list event) :
  process_file Wd self sql_file w = (r, w', t) -> file_run sql_file r t.
Proof.
  unfold process_file, try_except. unfold bind at 1.
  unfold read_query_from_file, try_except, call.
  destruct (open_read Wd sql_file w) as [[query|e] w1].
  - destruct (@execute_query_run Wd self query (OsPath.basename sql_file) w1)
      as (b & w2 & tq & Hq & Hshape).
    unfold bind at 1. rewrite Hq.
    destruct b; cbn [negb]; unfold bind, log, sys_exit, ret;
      intros [= <- <- <-].
    + trace_eq. now apply fr_success.
    + trace_eq. now apply fr_execution_error.
  - unfold bind, log, reraise, sys_exit. intros [= <- <- <-].
    apply fr_load_error.
Qed.

Lemma for_each_batch_run (sql_files : list string) (w w' : W Wd)
      (r : outcome unit) (t : list event) :
  for_each sql_files (process_file Wd self) w = (r, w', t) ->
  batch_run sql_files r t.
Proof.
  revert w t. induction sql_files as [|f rest IH]; intros w t.
  - intros [= <- <- <-]. constructor.
  - cbn [for_each]. unfold bind.
    destruct (process_file Wd self f w) as [[rf wf] tf] eqn:Hf.
    apply process_file_run in Hf.
    destruct (file_run_status Hf) as (_ & _ & _ & [(-> & _)|(-> & _)]).
    + destruct (for_each rest (process_file Wd self) wf)
        as [[rr wr] tr] eqn:Hr.
      intros [= <- <- <-]. apply br_next; [exact Hf|]. now apply IH with wf.
    + intros [= <- <- <-]. now apply br_abort.
Qed.

(** How a batch goes: the listing raises and that is all; or there is
    nothing to run; or the files are run one after the other. *)
Lemma run_all_queries_run (directory : string) (w : W Wd) :
  exists r w' t,
    run_all_queries Wd self directory w = (r, w', t)
    /\ ((exists e w1,
            os_listdir Wd directory w = (Err e, w1)
            /\ r = Raise e /\ w' = w1
            /\ t = [EvListdir directory (Err e)])
        \/ (exists listing w1,
               os_listdir Wd directory w = (Ok listing, w1)
               /\ filter has_sql_suffix listing = []
               /\ r = Ret tt /\ w' = w1
               /\ t = [EvListdir directory (Ok listing);
                       EvLog WARNING ("No SQL files found in "
                                      ++ directory)%string])
        \/ (exists listing w1 sql_files loop,
               os_listdir Wd directory w = (Ok listing, w1)
               /\ sql_files
                  = PyStr.sorted (map (OsPath.join directory)
                                      (filter has_sql_suffix listing))
               /\ sql_files <> []
               /\ batch_run sql_files r loop
               /\ t = [EvListdir directory (Ok listing);
                       EvLog INFO ("Found "
                                   ++ PyStr.str_of_nat
                                        (List.length sql_files)
                                   ++ " SQL files to execute")%string]
                        ++ loop)).
Proof.
  unfold run_all_queries. unfold bind at 1.
  destruct (os_listdir Wd directory w) as [[listing|e] w1] eqn:Hls.
  - rewrite (get_sql_files_run _ _ _ Hls).
    destruct (PyStr.sorted (map (OsPath.join directory)
                                (filter has_sql_suffix listing)))
      as [|f rest] eqn:Hfiles.
    + do 3 eexists. split; [reflexivity|]. right. left.
      exists listing, w1. repeat split.
      destruct (filter has_sql_suffix listing) as [|x l] eqn:E;
        [reflexivity|].
      exfalso. assert (Hin : In (OsPath.join directory x) []).
      { rewrite <- Hfiles. eapply Permutation_in; [apply sorted_perm|].
        now left. }
      destruct Hin.
    + unfold bind at 1. unfold log at 1.
      destruct (for_each (f :: rest) (process_file Wd self) w1)
        as [[r w'] loop] eqn:Hloop.
      exists r, w'. eexists. split; [reflexivity|]. do 2 right.
      exists listing, w1, (f :: rest), loop.
      split; [reflexivity|]. split; [now rewrite Hfiles|].
      split; [discriminate|]. split; [|reflexivity].
      now apply for_each_batch_run with w1 w'.
  - rewrite (get_sql_files_raise _ _ _ Hls).
    do 3 eexists. split; [reflexivity|]. left. now exists e, w1.
Qed.

End BatchShape.

(* ================================================================== *)
(** * The batch as a whole *)
(* ================================================================== *)

(** X1.  A batch ends in one of three ways, and the log tells which.
    It lets an exception out only when [os.listdir] raised it, and then
    nothing was logged.  When it returns, no record of level ERROR was
    written.  Otherwise it exits, always with status 1, having written
    exactly two ERROR records, the second one last of all. *)
Theorem run_all_queries_outcome_and_log_agree
        (Wd : World) (self : SQLQueryRunner) (directory : string)
        (w : W Wd) :
  exists r w' t,
    run_all_queries Wd self directory w = (r, w', t)
    /\ match r with
       | Raise e =>
           fst (os_listdir Wd directory w) = Err e
           /\ t = [EvListdir directory (Err e)]
       | Ret _ => errors t = []
       | SysExit code =>
           code = 1%Z
           /\ List.length (errors t) = 2
           /\ exists t0 msg, t = t0 ++ [EvLog ERROR msg]
       end
    /\ (forall e, fst (os_listdir Wd directory w) = Err e -> r = Raise e).
Proof.
  destruct (@run_all_queries_run Wd self directory w)
    as (r & w' & t & Hrun
        & [(e & w1 & Hls & -> & -> & ->)
          |[(listing & w1 & Hls & Hnone & -> & -> & ->)
           |(listing & w1 & sql_files & loop & Hls & Hfiles & Hne
             & Hloop & ->)]]).
  - exists (Raise e), w1, [EvListdir directory (Err e)].
    split; [exact Hrun|]. rewrite Hls. cbn [fst].
    split; [now split|]. now intros e' [= ->].
  - do 3 eexists. split; [exact Hrun|]. rewrite Hls. cbn [fst].
    split; [reflexivity|discriminate].
  - exists r, w'. eexists. split; [exact Hrun|]. rewrite Hls. cbn [fst].
    split; [|discriminate].
    destruct (batch_run_status Hloop)
      as (_ & [(-> & _ & _ & _ & He & _)
              |(-> & _ & He & _ & (t0 & msg & ->))]).
    + unfold errors in *. cbn [app flat_map]. exact He.
    + split; [reflexivity|]. split.
      * unfold errors in *. cbn [app flat_map]. exact He.
      * eexists (_ :: _ :: t0), msg. reflexivity.
Qed.

Lemma run_all_queries_outcome_and_log_agree_witness :
  fst (os_listdir (Demo.world true true) "nope" [])
  = Err (Exception "No such file or directory")
  /\ fst (fst (run_all_queries (Demo.world true true) Demo.runner "nope" []))
     = Raise (Exception "No such file or directory").
Proof.
  split; [reflexivity|].
  destruct (@run_all_queries_outcome_and_log_agree
              (Demo.world true true) Demo.runner "nope" [])
    as (r & w' & t & Hrun & _ & Hraise).
  rewrite Hrun. cbn [fst]. now apply Hraise.
Defined.

(** X2.  A batch that returns has read every discovered file, in sorted
    order, and has opened one connection and made one successful commit
    for each of them. *)
Theorem run_all_queries_returned_ran_every_file
        (Wd : World) (self : SQLQueryRunner) (directory : string)
        (listing : list string) (w w1 w' : W Wd) (t : list event) :
  os_listdir Wd directory w = (Ok listing, w1) ->
  run_all_queries Wd self directory w = (Ret tt, w', t) ->
  let sql_files :=
    PyStr.sorted (map (OsPath.join directory)
                      (filter has_sql_suffix listing)) in
  reads t = sql_files
  /\ connects t = repeat (Ok tt) (List.length sql_files)
  /\ commits t = repeat (Ok tt) (List.length sql_files).
Proof.
  intros Hls Hret sql_files.
  destruct (@run_all_queries_run Wd self directory w)
    as (r & w2 & t2 & Hrun
        & [(e & w3 & Hls' & _)
          |[(listing' & w3 & Hls' & Hnone & _ & _ & Ht)
           |(listing' & w3 & files & loop & Hls' & Hfiles & Hne
             & Hloop & Ht)]]);
    rewrite Hls in Hls'; try discriminate;
    injection Hls' as <- <-;
    rewrite Hret in Hrun; injection Hrun as <- <- <-.
  - subst t sql_files. rewrite Hnone. now repeat split.
  - fold sql_files in Hfiles. subst files t.
    destruct (batch_run_status Hloop)
      as (_ & [(_ & Hr & Hc & Hn & _)|(Hx & _)]); [|discriminate].
    unfold_all_readers. now repeat split.
Qed.

Lemma run_all_queries_returned_ran_every_file_witness :
  let run := run_all_queries DemoOk.world Demo.runner "ok" [] in
  os_listdir DemoOk.world "ok" [] = (Ok ["b.sql"; "notes.txt"; "a.sql"], [])
  /\ fst (fst run) = Ret tt
  /\ reads (snd run) = ["ok/a.sql"; "ok/b.sql"]
  /\ connects (snd run) = [Ok tt; Ok tt]
  /\ commits (snd run) = [Ok tt; Ok tt].
Proof.
  intros run. split; [reflexivity|]. split; [reflexivity|].
  apply (@run_all_queries_returned_ran_every_file
           DemoOk.world Demo.runner "ok" ["b.sql"; "notes.txt"; "a.sql"]
           [] [] (snd (fst run)) (snd run) eq_refl).
  reflexivity.
Defined.

(** X3.  A batch that exits has read a prefix of the sorted list that is
    not empty.  Every file of that prefix but the last was run on a
    connection of its own and committed, and stays so.  When the last
    file could not be loaded, no further connection was tried and
    nothing more was committed.  Otherwise it was loaded, one more
    connection was tried, and the commit of that file was not issued,
    or raised, or went through before a release raised. *)
Theorem run_all_queries_exit_keeps_earlier_commits
        (Wd : World) (self : SQLQueryRunner) (directory : string)
        (listing : list string) (w w1 w' : W Wd) (t : list event) :
  os_listdir Wd directory w = (Ok listing, w1) ->
  run_all_queries Wd self directory w = (SysExit 1, w', t) ->
  let sql_files :=
    PyStr.sorted (map (OsPath.join directory)
                      (filter has_sql_suffix listing)) in
  exists k,
    reads t = firstn (S k) sql_files
    /\ S k <= List.length sql_files
    /\ ((exists sql_file,
            nth_error sql_files k = Some sql_file
            /\ failed_reads t = [sql_file]
            /\ connects t = repeat (Ok tt) k
            /\ commits t = repeat (Ok tt) k)
        \/ (failed_reads t = []
            /\ (exists c, connects t = repeat (Ok tt) k ++ [c])
            /\ (commits t = repeat (Ok tt) k
                \/ (exists e, commits t = repeat (Ok tt) k ++ [Err e])
                \/ (commits t = repeat (Ok tt) k ++ [Ok tt]
                    /\ ~ released_cleanly t)))).
Proof.
  intros Hls Hexit sql_files.
  destruct (@run_all_queries_run Wd self directory w)
    as (r & w2 & t2 & Hrun
        & [(e & w3 & Hls' & _)
          |[(listing' & w3 & Hls' & Hnone & Hr & _)
           |(listing' & w3 & files & loop & Hls' & Hfiles & Hne
             & Hloop & Ht)]]);
    rewrite Hls in Hls'; try discriminate;
    injection Hls' as <- <-;
    rewrite Hexit in Hrun; injection Hrun as <- <- <-;
    try discriminate.
  fold sql_files in Hfiles. subst files t.
  destruct (batch_run_status Hloop)
    as (_ & [(Hx & _)|(_ & (k & Hr & Hk & Hlast) & _)]); [discriminate|].
  exists k. unfold_all_readers. now repeat split.
Qed.

(** In the directory [q] the second file is rejected by the server:
    the first file stays committed, two connections were tried.  On the
    client whose cursor cannot be released, the first file of [ok] is
    committed and the batch stops there. *)
Lemma run_all_queries_exit_keeps_earlier_commits_witness :
  (os_listdir (Demo.world true true) "q" [] = (Ok Demo.listing, [])
   /\ fst (fst (run_all_queries (Demo.world true true) Demo.runner "q" []))
      = SysExit 1
   /\ reads (snd (run_all_queries (Demo.world true true) Demo.runner "q" []))
      = ["q/1.sql"; "q/2.sql"]
   /\ commits (snd (run_all_queries (Demo.world true true) Demo.runner
                                    "q" []))
      = [Ok tt]
   /\ exists k,
       reads (snd (run_all_queries (Demo.world true true) Demo.runner "q" []))
       = firstn (S k) ["q/1.sql"; "q/2.sql"; "q/3.sql"]
       /\ S k <= 3)
  /\ (os_listdir (DemoOk.world_releasing false true) "ok" []
      = (Ok ["b.sql"; "notes.txt"; "a.sql"], [])
      /\ fst (fst (run_all_queries (DemoOk.world_releasing false true)
                                   Demo.runner "ok" []))
         = SysExit 1
      /\ commits (snd (run_all_queries (DemoOk.world_releasing false true)
                                       Demo.runner "ok" []))
         = [Ok tt]
      /\ exists k,
          reads (snd (run_all_queries (DemoOk.world_releasing false true)
                                      Demo.runner "ok" []))
          = firstn (S k) ["ok/a.sql"; "ok/b.sql"]
          /\ S k <= 2).
Proof.
  split.
  - split; [reflexivity|]. split; [reflexivity|]. split; [reflexivity|].
    split; [reflexivity|].
    destruct (@run_all_queries_exit_keeps_earlier_commits
                (Demo.world true true) Demo.runner "q" Demo.listing
                [] []
                (snd (fst (run_all_queries (Demo.world true true)
                                           Demo.runner "q" [])))
                (snd (run_all_queries (Demo.world true true)
                                      Demo.runner "q" []))
                eq_refl eq_refl)
      as (k & Hr & Hk & _).
    exists k. split; [exact Hr|exact Hk].
  - split; [reflexivity|]. split; [reflexivity|]. split; [reflexivity|].
    destruct (@run_all_queries_exit_keeps_earlier_commits
                (DemoOk.world_releasing false true) Demo.runner "ok"
                ["b.sql"; "notes.txt"; "a.sql"]
                [] []
                (snd (fst (run_all_queries (DemoOk.world_releasing false true)
                                           Demo.runner "ok" [])))
                (snd (run_all_queries (DemoOk.world_releasing false true)
                                      Demo.runner "ok" []))
                eq_refl eq_refl)
      as (k & Hr & Hk & _).
    exists k. split; [exact Hr|exact Hk].
Defined.

(** X4.  The runner keeps the discipline of the database session in
    every run, however it ends: one connection at a time, a cursor only
    on an open connection, statements, fetches and commits only on an
    open cursor, the cursor released before the connection, no file
    read or directory listed while a connection is open, and nothing
    left open at the end.  This holds for one file and for a whole
    batch. *)
Theorem runner_keeps_session_discipline
        (Wd : World) (self : SQLQueryRunner) :
  (forall query file_name w,
      session_after Idle (snd (execute_query Wd self query file_name w))
      = Some Idle)
  /\ (forall directory w,
         session_after Idle (snd (run_all_queries Wd self directory w))
         = Some Idle).
Proof.
  split.
  - intros query file_name w.
    destruct (@execute_query_run Wd self query file_name w)
      as (b & w' & t & Hrun & Hshape).
    rewrite Hrun. apply (query_run_status Hshape).
  - intros directory w.
    destruct (@run_all_queries_run Wd self directory w)
      as (r & w' & t & Hrun
          & [(e & w1 & _ & _ & _ & ->)
            |[(listing & w1 & _ & _ & _ & _ & ->)
             |(listing & w1 & sql_files & loop & _ & _ & _ & Hloop & ->)]]);
      rewrite Hrun; try reflexivity.
    cbn [snd app session_after session_step].
    apply (batch_run_status Hloop).
Qed.

(* ================================================================== *)
(** * More on splitting, selects and paths *)
(* ================================================================== *)

Section MoreStrings.

Lemma occurs_app (c : ascii) (a b : string) :
  occurs c (a ++ b) = occurs c a || occurs c b.
Proof.
  induction a as [|x a IH]; [reflexivity|].
  simpl. now rewrite IH, orb_assoc.
Qed.

Lemma split_free (sep : ascii) (s : string) :
  occurs sep s = false -> PyStr.split sep s = [s].
Proof.
  induction s as [|c s IH]; [reflexivity|].
  simpl. intros H. apply orb_false_iff in H. destruct H as [Hc Hs].
  now rewrite Hc, (IH Hs).
Qed.

(** Splitting distributes over a separator. *)
Lemma split_sep_app (sep : ascii) (a b : string) :
  PyStr.split sep (a ++ String sep b)
  = PyStr.split sep a ++ PyStr.split sep b.
Proof.
  induction a as [|c a IH].
  - cbn [String.append PyStr.split app]. now rewrite Ascii.eqb_refl.
  - cbn [String.append PyStr.split]. rewrite IH.
    destruct (Ascii.eqb c sep); [reflexivity|].
    pose proof (split_not_nil sep a) as Hne.
    now destruct (PyStr.split sep a).
Qed.

Lemma split_join (sep : ascii) (l : list string) :
  Forall (fun s => occurs sep s = false) l ->
  l <> [] ->
  PyStr.split sep (PyStr.join (String sep "") l) = l.
Proof.
  unfold PyStr.join. induction 1 as [|s l Hs Hl IH]; [congruence|].
  intros _. destruct l as [|s' l].
  - now apply split_free.
  - change (String.concat (String sep "") (s :: s' :: l))
      with (s ++ String sep (String.concat (String sep "") (s' :: l)))%string.
    rewrite split_sep_app, (split_free _ _ Hs), IH by discriminate.
    reflexivity.
Qed.

Lemma lstrip_id (s : string) :
  no_space (first_char s) = true -> PyStr.lstrip s = s.
Proof.
  destruct s as [|c s]; [reflexivity|].
  simpl. intros H. apply negb_true_iff in H. now rewrite H.
Qed.

Lemma rstrip_id (s : string) :
  no_space (last_char s) = true -> PyStr.rstrip s = s.
Proof.
  induction s as [|c s IH]; [reflexivity|].
  intros H. cbn [PyStr.rstrip]. destruct s as [|c' s].
  - simpl in *. apply negb_true_iff in H. now rewrite H.
  - rewrite IH by exact H. reflexivity.
Qed.

Lemma strip_clean (s : string) :
  clean_statement s = true -> PyStr.strip s = s.
Proof.
  unfold clean_statement, PyStr.strip. intros H.
  apply andb_true_iff in H. destruct H as [H Hl].
  apply andb_true_iff in H. destruct H as [_ Hf].
  now rewrite (lstrip_id _ Hf), (rstrip_id _ Hl).
Qed.

Lemma trimmed_no_space (s : string) :
  trimmed s ->
  no_space (first_char s) = true /\ no_space (last_char s) = true.
Proof.
  intros [Hf Hl]. split.
  - destruct (first_char s) as [c|]; [|reflexivity].
    simpl. now rewrite (Hf c eq_refl).
  - destruct (last_char s) as [c|]; [|reflexivity].
    simpl. now rewrite (Hl c eq_refl).
Qed.

(** Writing clean statements with semicolons between them and splitting
    the text gives the statements back. *)
Lemma split_statements_join (statements : list string) :
  Forall (fun s => clean_statement s = true) statements ->
  split_statements (PyStr.join ";" statements) = statements.
Proof.
  intros Hall.
  assert (Hid : map PyStr.strip
                    (filter (fun stmt => PyStr.truthy (PyStr.strip stmt))
                            statements) = statements).
  { induction Hall as [|x l Hx Hl IH]; [reflexivity|].
    cbn [filter]. rewrite (strip_clean _ Hx).
    assert (Ht : PyStr.truthy x = true).
    { unfold clean_statement in Hx. now destruct (PyStr.truthy x). }
    rewrite Ht. cbn [map]. now rewrite (strip_clean _ Hx), IH. }
  unfold split_statements.
  destruct statements as [|s l]; [reflexivity|].
  rewrite split_join; [exact Hid| |discriminate].
  eapply Forall_impl; [|exact Hall].
  intros x Hx. unfold clean_statement in Hx.
  destruct (occurs ";" x); [|reflexivity].
  now rewrite andb_false_r in Hx.
Qed.

(** What the splitter gives is clean. *)
Lemma split_statements_clean (query : string) :
  Forall (fun s => clean_statement s = true) (split_statements query).
Proof.
  unfold split_statements. rewrite map_filter_swap.
  apply Forall_forall. intros s Hin. apply filter_In in Hin.
  destruct Hin as [Hin Ht]. apply in_map_iff in Hin.
  destruct Hin as (frag & <- & Hfrag).
  pose proof (split_fragments_free ";" query) as Hfree.
  rewrite Forall_forall in Hfree. specialize (Hfree _ Hfrag).
  destruct (strip_spec frag) as (l & r & Hsplit & _ & _ & Htrim).
  destruct (trimmed_no_space Htrim) as [Hf Hl].
  unfold clean_statement. rewrite Ht, Hf, Hl.
  rewrite Hsplit, !occurs_app in Hfree.
  apply orb_false_iff in Hfree. destruct Hfree as [_ Hfree].
  apply orb_false_iff in Hfree. destruct Hfree as [Hfree _].
  now rewrite Hfree.
Qed.

End MoreStrings.

(** X5.  Statements that are not empty, hold no semicolon and have no
    whitespace at either end survive a round trip: joined with
    semicolons into one text and split again, they come back unchanged
    and in order. *)
Theorem split_statements_inverts_join (statements : list string) :
  Forall (fun s => clean_statement s = true) statements ->
  split_statements (PyStr.join ";" statements) = statements.
Proof. apply split_statements_join. Qed.

Lemma split_statements_inverts_join_witness :
  Forall (fun s => clean_statement s = true)
         ["INSERT INTO t VALUES (1)"; "SELECT * FROM t"]
  /\ split_statements "INSERT INTO t VALUES (1);SELECT * FROM t"
     = ["INSERT INTO t VALUES (1)"; "SELECT * FROM t"].
Proof.
  assert (H : Forall (fun s => clean_statement s = true)
                     ["INSERT INTO t VALUES (1)"; "SELECT * FROM t"])
    by (repeat constructor).
  split; [exact H|].
  exact (@split_statements_inverts_join
           ["INSERT INTO t VALUES (1)"; "SELECT * FROM t"] H).
Defined.

(** X6.  Every statement the splitter gives holds no semicolon and has
    no whitespace at either end, so splitting is stable: the statements
    of a text, joined with semicolons and split again, are the same
    statements. *)
Theorem split_statements_clean_and_stable (query : string) :
  Forall (fun s => clean_statement s = true) (split_statements query)
  /\ split_statements (PyStr.join ";" (split_statements query))
     = split_statements query.
Proof.
  split; [apply split_statements_clean|].
  apply split_statements_join, split_statements_clean.
Qed.

Section SelectTest.

Lemma isspace_lower_char (c : ascii) :
  PyStr.isspace (PyStr.lower_char c) = PyStr.isspace c.
Proof. destruct c as [[] [] [] [] [] [] [] []]; reflexivity. Qed.

Lemma lower_app (a b : string) :
  PyStr.lower (a ++ b) = (PyStr.lower a ++ PyStr.lower b)%string.
Proof. induction a as [|c a IH]; simpl; congruence. Qed.

Lemma lstrip_lower (s : string) :
  PyStr.lstrip (PyStr.lower s) = PyStr.lower (PyStr.lstrip s).
Proof.
  induction s as [|c s IH]; [reflexivity|].
  cbn [PyStr.lower PyStr.lstrip]. rewrite isspace_lower_char.
  destruct (PyStr.isspace c); [exact IH|reflexivity].
Qed.

Lemma rstrip_lower (s : string) :
  PyStr.rstrip (PyStr.lower s) = PyStr.lower (PyStr.rstrip s).
Proof.
  induction s as [|c s IH]; [reflexivity|].
  cbn [PyStr.lower PyStr.rstrip]. rewrite IH, isspace_lower_char.
  destruct (PyStr.rstrip s) as [|x r]; cbn [PyStr.lower]; [|reflexivity].
  now destruct (PyStr.isspace c).
Qed.

(** Lowercasing and trimming commute. *)
Lemma strip_lower (s : string) :
  PyStr.strip (PyStr.lower s) = PyStr.lower (PyStr.strip s).
Proof. unfold PyStr.strip. now rewrite lstrip_lower, rstrip_lower. Qed.

Lemma lower_prefix (p r s : string) :
  PyStr.lower s = (p ++ r)%string ->
  exists head rest,
    s = (head ++ rest)%string /\ PyStr.lower head = p
    /\ PyStr.lower rest = r.
Proof.
  revert s. induction p as [|a p IH]; intros s H.
  - now exists ""%string, s.
  - destruct s as [|c s]; [discriminate|].
    simpl in H. injection H as Hc Hs.
    destruct (IH _ Hs) as (head & rest & -> & Hh & Hr).
    exists (String c head), rest. simpl. now rewrite Hc, Hh.
Qed.

End SelectTest.

(** X7.  A statement is taken for a query exactly when, trimmed, it
    begins with six characters that spell [select] in any mix of upper
    and lower case; whatever follows them does not matter.  On the
    statements the splitter gives, which are trimmed already, the test
    is the plain prefix test on the lowercased statement. *)
Theorem is_select_iff_first_letters_spell_select (statement : string) :
  (is_select statement = true <->
   exists head rest,
     PyStr.strip statement = (head ++ rest)%string
     /\ PyStr.lower head = "select"%string)
  /\ (forall query,
         Forall (fun s => is_select s
                          = PyStr.startswith (PyStr.lower s) "select")
                (split_statements query)).
Proof.
  split.
  - unfold is_select. rewrite strip_lower, startswith_spec. split.
    + intros [rest H]. apply lower_prefix in H.
      destruct H as (head & rest' & Hs & Hh & _). now exists head, rest'.
    + intros (head & rest & Hs & Hh).
      exists (PyStr.lower rest). now rewrite Hs, lower_app, Hh.
  - intros query. eapply Forall_impl; [|apply split_statements_clean].
    intros s Hs. unfold is_select.
    now rewrite strip_lower, (strip_clean _ Hs).
Qed.

Lemma is_select_iff_first_letters_spell_select_witness :
  (exists head rest,
      PyStr.strip "SeLeCt 1" = (head ++ rest)%string
      /\ PyStr.lower head = "select"%string)
  /\ is_select "SeLeCt 1" = true.
Proof.
  assert (H : exists head rest,
             PyStr.strip "SeLeCt 1" = (head ++ rest)%string
             /\ PyStr.lower head = "select"%string)
    by (exists "SeLeCt"%string, " 1"%string; now split).
  split; [exact H|].
  exact (proj2 (proj1 (@is_select_iff_first_letters_spell_select "SeLeCt 1"))
               H).
Defined.

Section NamesAndPaths.

Lemma last_app_r {A : Type} (l1 l2 : list A) (d : A) :
  l2 <> [] -> last (l1 ++ l2) d = last l2 d.
Proof.
  intros Hne. induction l1 as [|x l1 IH]; [reflexivity|].
  cbn [app]. rewrite <- IH.
  destruct (l1 ++ l2) as [|y l] eqn:E; [|reflexivity].
  apply app_eq_nil in E. now destruct E.
Qed.

Lemma occurs_startswith (c : ascii) (name : string) :
  occurs c name = false -> PyStr.startswith name (String c "") = false.
Proof.
  destruct name as [|x name]; [reflexivity|].
  simpl. intros H. apply orb_false_iff in H. destruct H as [Hx _].
  now rewrite Hx.
Qed.

(** The directory part of a joined path is cut off again by
    [os.path.basename]. *)
Lemma basename_join (directory name : string) :
  occurs "/" name = false ->
  OsPath.basename (OsPath.join directory name) = name.
Proof.
  intros Hfree.
  assert (Hrel : relative name = true).
  { unfold relative. now rewrite (occurs_startswith _ _ Hfree). }
  rewrite (join_relative _ _ Hrel).
  unfold dir_prefix, OsPath.basename, OsPath.sep.
  destruct (PyStr.truthy directory) eqn:Ht; cbn [negb orb].
  - destruct (PyStr.endswith directory "/") eqn:He.
    + apply endswith_spec in He. destruct He as [stem ->].
      rewrite append_assoc. cbn [String.append].
      rewrite split_sep_app, (split_free _ _ Hfree).
      now rewrite last_app_r by discriminate.
    + rewrite append_assoc. cbn [String.append].
      rewrite split_sep_app, (split_free _ _ Hfree).
      now rewrite last_app_r by discriminate.
  - destruct directory; [|discriminate]. cbn [String.append].
    now rewrite (split_free _ _ Hfree).
Qed.

Lemma query_run_names_file (file_name : string) (statements : list string)
      (b : bool) (t : list event) :
  query_run file_name statements b t ->
  In (EvCursor (Ok tt)) t ->
  In (EvLog INFO ("Executing query from " ++ file_name)%string) t.
Proof.
  intros Hrun Hin.
  destruct Hrun as [e|e rc|inner o rk rc final Hcb Hfinal].
  - exfalso. simpl in Hin. intuition discriminate.
  - exfalso. destruct rc as [[]|ec]; simpl in Hin; intuition discriminate.
  - right. right. cbn [app]. apply in_or_app. left.
    destruct Hcb as [body e Hb|body e Hb|body Hb]; now left.
Qed.

End NamesAndPaths.

(** X8.  The name a file is logged under is its entry name: joining the
    directory and an entry name and taking the base name of the path
    gives the entry name back, so when the file at that path is
    processed and a cursor is opened for it, the record announcing its
    execution names the entry. *)
Theorem file_is_logged_under_its_entry_name
        (Wd : World) (self : SQLQueryRunner) (directory name : string) :
  occurs "/" name = false ->
  OsPath.basename (OsPath.join directory name) = name
  /\ forall w,
      let t := snd (process_file Wd self (OsPath.join directory name) w) in
      In (EvCursor (Ok tt)) t ->
      In (EvLog INFO ("Executing query from " ++ name)%string) t.
Proof.
  intros Hfree. pose proof (@basename_join directory name Hfree) as Hbase.
  split; [exact Hbase|]. intros w t Hin. subst t.
  destruct (process_file Wd self (OsPath.join directory name) w)
    as [[r w'] t] eqn:Hrun.
  apply process_file_run in Hrun. cbn [snd] in *.
  destruct Hrun as [e|query tq Hq|query tq Hq];
    try rewrite Hbase in Hq.
  - exfalso. simpl in Hin. intuition discriminate.
  - right. apply in_or_app. left.
    apply (query_run_names_file Hq).
    destruct Hin as [Hin|Hin]; [discriminate|].
    apply in_app_or in Hin. destruct Hin as [Hin|Hin]; [exact Hin|].
    exfalso. simpl in Hin. intuition discriminate.
  - right. apply (query_run_names_file Hq).
    destruct Hin as [Hin|Hin]; [discriminate|exact Hin].
Qed.

Lemma file_is_logged_under_its_entry_name_witness :
  occurs "/" "2.sql" = false
  /\ OsPath.basename (OsPath.join "q" "2.sql") = "2.sql"
  /\ In (EvLog INFO "Executing query from 2.sql")
        (snd (process_file (Demo.world true true) Demo.runner "q/2.sql" [])).
Proof.
  split; [reflexivity|].
  destruct (@file_is_logged_under_its_entry_name
              (Demo.world true true) Demo.runner "q" "2.sql" eq_refl)
    as [Hbase Hlog].
  split; [exact Hbase|].
  apply (Hlog []). vm_compute. right. right. left. reflexivity.
Defined.

Section DiscoveryCount.

Lemma append_inj_l (p a b : string) :
  (p ++ a)%string = (p ++ b)%string -> a = b.
Proof.
  induction p as [|c p IH]; [trivial|].
  simpl. intros H. injection H as H. now apply IH.
Qed.

Lemma NoDup_map_on {A B : Type} (f : A -> B) (l : list A) :
  (forall a b, In a l -> In b l -> f a = f b -> a = b) ->
  NoDup l -> NoDup (map f l).
Proof.
  intros Hinj Hnd. induction Hnd as [|x l Hx Hnd IH]; [constructor|].
  cbn [map]. constructor.
  - intros Hin. apply in_map_iff in Hin. destruct Hin as (y & Hy & Hin).
    apply Hx. rewrite <- (Hinj y x); [exact Hin|now right|now left|exact Hy].
  - apply IH. intros a b Ha Hb. apply Hinj; now right.
Qed.

End DiscoveryCount.

(** X9.  Discovery returns as many paths as the directory has entries
    ending with [.sql], and that number is the one the batch announces.
    The entries of a directory being distinct names without leading
    separator, no path comes twice: no file is run twice in a batch. *)
Theorem get_sql_files_counts_and_keeps_entries_apart
        (Wd : World) (self : SQLQueryRunner) (directory : string)
        (listing : list string) (w w1 : W Wd) :
  os_listdir Wd directory w = (Ok listing, w1) ->
  exists sql_files,
    fst (fst (get_sql_files Wd directory w)) = Ret sql_files
    /\ List.length sql_files = List.length (filter has_sql_suffix listing)
    /\ (filter has_sql_suffix listing <> [] ->
        In (EvLog INFO
                  ("Found "
                   ++ PyStr.str_of_nat
                        (List.length (filter has_sql_suffix listing))
                   ++ " SQL files to execute")%string)
           (snd (run_all_queries Wd self directory w)))
    /\ (NoDup listing ->
        Forall (fun name => relative name = true) listing ->
        NoDup sql_files).
Proof.
  intros Hls.
  set (sql_files := PyStr.sorted (map (OsPath.join directory)
                                      (filter has_sql_suffix listing))).
  assert (Hlen : List.length sql_files
                 = List.length (filter has_sql_suffix listing)).
  { unfold sql_files.
    rewrite <- (Permutation_length (sorted_perm _)). apply length_map. }
  exists sql_files. split; [now rewrite (get_sql_files_run _ _ _ Hls)|].
  split; [exact Hlen|]. split.
  - intros Hne.
    destruct (@run_all_queries_run Wd self directory w)
      as (r & w' & t & Hrun
          & [(e & w2 & Hls' & _)
            |[(listing' & w2 & Hls' & Hnone & _)
             |(listing' & w2 & files & loop & Hls' & Hfiles & _ & _ & Ht)]]);
      rewrite Hls in Hls'; try discriminate; injection Hls' as <- <-.
    + contradiction.
    + rewrite Hrun. cbn [snd]. subst t files. fold sql_files.
      rewrite Hlen. right. now left.
  - intros Hnd Hrel. unfold sql_files.
    apply (Permutation_NoDup (sorted_perm _)).
    rewrite Forall_forall in Hrel.
    apply NoDup_map_on; [|now apply NoDup_filter].
    intros a b Ha Hb Hab. apply filter_In in Ha, Hb.
    rewrite !join_relative in Hab by (apply Hrel; tauto).
    now apply append_inj_l in Hab.
Qed.

Lemma get_sql_files_counts_and_keeps_entries_apart_witness :
  os_listdir (Demo.world true true) "q" [] = (Ok Demo.listing, [])
  /\ NoDup Demo.listing
  /\ Forall (fun name => relative name = true) Demo.listing
  /\ exists sql_files,
      fst (fst (get_sql_files (Demo.world true true) "q" [])) = Ret sql_files
      /\ List.length sql_files = 3
      /\ NoDup sql_files
      /\ In (EvLog INFO "Found 3 SQL files to execute")
            (snd (run_all_queries (Demo.world true true) Demo.runner "q" [])).
Proof.
  assert (Hnd : NoDup Demo.listing).
  { repeat constructor; simpl; intuition discriminate. }
  assert (Hrel : Forall (fun name => relative name = true) Demo.listing)
    by (repeat constructor).
  split; [reflexivity|]. split; [exact Hnd|]. split; [exact Hrel|].
  destruct (@get_sql_files_counts_and_keeps_entries_apart
              (Demo.world true true) Demo.runner "q" Demo.listing [] []
              eq_refl)
    as (sql_files & Hfiles & Hlen & Hfound & Hnodup).
  exists sql_files. split; [exact Hfiles|]. split; [exact Hlen|].
  split; [now apply Hnodup|]. apply Hfound. discriminate.
Defined.

(* ================================================================== *)
(** * The entry point *)
(* ================================================================== *)

Section ScriptDirectory.

Lemma path_head_free (f : string) :
  occurs "/" f = false -> Posix.path_head f = ""%string.
Proof. destruct f as [|c f]; [reflexivity|]. intros H. simpl in *. now rewrite H. Qed.

Lemma path_head_sep_app (d f : string) :
  occurs "/" f = false ->
  Posix.path_head (d ++ String "/" f) = (d ++ "/")%string.
Proof.
  intros Hf. induction d as [|c d IH].
  - cbn [String.append Posix.path_head occurs]. rewrite Ascii.eqb_refl.
    cbn [orb]. now rewrite (path_head_free _ Hf).
  - cbn [String.append Posix.path_head]. rewrite IH.
    cbn [occurs]. rewrite occurs_app. cbn [occurs].
    rewrite Ascii.eqb_refl. cbn [orb]. now rewrite !orb_true_r.
Qed.

Lemma rstrip_sep_app (d : string) :
  PyStr.endswith d "/" = false ->
  Posix.rstrip_sep (d ++ "/") = d.
Proof.
  induction d as [|c d IH]; [reflexivity|].
  cbn [PyStr.endswith]. intros H. apply orb_false_iff in H.
  destruct H as [Hne He]. cbn [String.append Posix.rstrip_sep].
  rewrite (IH He). destruct d as [|c' d]; [|reflexivity].
  destruct (Ascii.eqb_spec c "/") as [->|Hc]; [discriminate|reflexivity].
Qed.

Lemma all_separators_end (d : string) :
  d <> ""%string ->
  all_chars (fun c => Ascii.eqb c "/") d = true ->
  PyStr.endswith d "/" = true.
Proof.
  induction d as [|c d IH]; [congruence|].
  intros _ H. cbn [all_chars] in H. apply andb_true_iff in H.
  destruct H as [Hc Hd]. apply Ascii.eqb_eq in Hc. subst c.
  cbn [PyStr.endswith]. destruct d as [|c' d]; [reflexivity|].
  rewrite IH by (discriminate || exact Hd). apply orb_true_r.
Qed.

Lemma all_chars_app (p : ascii -> bool) (a b : string) :
  all_chars p (a ++ b) = all_chars p a && all_chars p b.
Proof.
  induction a as [|c a IH]; [reflexivity|].
  simpl. now rewrite IH, andb_assoc.
Qed.

End ScriptDirectory.

(** X10.  The SQL files are looked for next to the script: for a script
    at [d/f], where [f] holds no separator and [d] does not end with
    one, [main] uses the directory [d/sql_files], whatever the current
    directory of the process. *)
Theorem sql_directory_is_next_to_the_script (d f : string) :
  occurs "/" f = false ->
  PyStr.endswith d "/" = false ->
  sql_directory_of (d ++ "/" ++ f) = (d ++ "/sql_files")%string.
Proof.
  intros Hf Hd. unfold sql_directory_of, Posix.dirname.
  cbn [String.append]. rewrite (@path_head_sep_app d f Hf).
  destruct d as [|c d]; [reflexivity|].
  assert (Hall : all_chars (fun c => Ascii.eqb c "/") (String c d ++ "/")
                 = false).
  { rewrite all_chars_app. apply andb_false_iff. left.
    apply not_true_is_false. intros H.
    apply all_separators_end in H; [congruence|discriminate]. }
  rewrite Hall. cbn [String.append PyStr.truthy negb andb].
  change (String c (d ++ "/"))%string with (String c d ++ "/")%string.
  rewrite (@rstrip_sep_app (String c d) Hd). unfold OsPath.join.
  cbn [PyStr.startswith Ascii.eqb PyStr.truthy negb orb].
  rewrite Hd. reflexivity.
Qed.

Lemma sql_directory_is_next_to_the_script_witness :
  occurs "/" "sql_runner.py" = false
  /\ PyStr.endswith "/srv/app" "/" = false
  /\ sql_directory_of "/srv/app/sql_runner.py" = "/srv/app/sql_files".
Proof.
  split; [reflexivity|]. split; [reflexivity|].
  exact (@sql_directory_is_next_to_the_script "/srv/app" "sql_runner.py"
           eq_refl eq_refl).
Defined.

Section MainFacts.

Lemma forallb_map_runner (t : list event) :
  forallb clean_event (map MevRunner t) = forallb clean_runner_event t.
Proof. induction t as [|ev t IH]; [reflexivity|]. simpl. now rewrite IH. Qed.

(** The exit status of a batch is 0 exactly when its trace is clean, and
    the first thing a batch does is to list its directory. *)
Lemma run_all_queries_clean (Wd : World) (self : SQLQueryRunner)
      (directory : string) (w : W Wd) :
  exists r w' t,
    run_all_queries Wd self directory w = (r, w', t)
    /\ (exit_status r = 0%Z <-> forallb clean_runner_event t = true)
    /\ exists listed rest, t = EvListdir directory listed :: rest.
Proof.
  destruct (@run_all_queries_run Wd self directory w)
    as (r & w' & t & Hrun
        & [(e & w1 & _ & Hr & _ & Ht)
          |[(listing & w1 & _ & _ & Hr & _ & Ht)
           |(listing & w1 & sql_files & loop & _ & _ & _ & Hloop & Ht)]]);
    exists r, w', t; (split; [exact Hrun|]); subst t.
  - subst r. split; [|eauto]. split; discriminate.
  - subst r. split; [|eauto]. split; reflexivity.
  - split; [|cbn [app]; eauto].
    cbn [app forallb clean_runner_event clean_event andb].
    destruct (batch_run_status Hloop)
      as (_ & [(-> & _ & _ & _ & _ & Hc)|(-> & _ & _ & Hc & _)]);
      rewrite Hc; split; reflexivity || discriminate.
Qed.

End MainFacts.

(** X11.  The process exits with status 0 exactly when nothing failed:
    neither creating the directory, nor setting up logging, nor listing
    the directory raised, and no record of level ERROR was written.
    The runner does nothing unless the directory was created and
    logging set up, and the first thing it does is to list the
    directory that was created. *)
Theorem main_exits_0_iff_nothing_failed
        (H : Host) (script_path : string) (w : W (host_world H)) :
  exists r w' t,
    main H script_path w = (r, w', t)
    /\ (exit_status r = 0%Z <-> forallb clean_event t = true)
    /\ (forall ev,
           In (MevRunner ev) t ->
           exists listed rest,
             t = MevMakedirs (sql_directory_of script_path) (Ok tt)
                   :: MevBasicConfig (Ok tt)
                   :: MevRunner (EvListdir (sql_directory_of script_path)
                                           listed)
                   :: rest).
Proof.
  unfold main, SQLQueryRunner_init, setup_logging.
  destruct (os_makedirs H (sql_directory_of script_path) w)
    as [[[]|e] w1].
  2:{ do 3 eexists. split; [reflexivity|]. split; [split; discriminate|].
      intros ev [Hin|[]]. discriminate. }
  destruct (logging_basicConfig H w1) as [[[]|e] w2].
  2:{ do 3 eexists. split; [reflexivity|]. split; [split; discriminate|].
      intros ev [Hin|[Hin|[]]]; discriminate. }
  destruct (@run_all_queries_clean (host_world H)
              {| connection_params := main_connection_params |}
              (sql_directory_of script_path) w2)
    as (r & w3 & t & Hrun & Hclean & (listed & rest & ->)).
  rewrite Hrun. do 3 eexists. split; [reflexivity|]. split.
  - cbn [app forallb clean_event andb]. rewrite Hclean.
    change (clean_event (MevRunner (EvListdir (sql_directory_of script_path)
                                               listed))
            && forallb clean_event (map MevRunner rest))
      with (forallb clean_event
                    (map MevRunner
                         (EvListdir (sql_directory_of script_path) listed
                            :: rest))).
    now rewrite forallb_map_runner.
  - intros ev _. now exists listed, (map MevRunner rest).
Qed.

Lemma main_exits_0_iff_nothing_failed_witness :
  forallb clean_event
          (snd (main (DemoHost.host true) "/srv/app/sql_runner.py" false))
  = true
  /\ exit_status
       (fst (fst (main (DemoHost.host true) "/srv/app/sql_runner.py" false)))
     = 0%Z.
Proof.
  split; [reflexivity|].
  destruct (@main_exits_0_iff_nothing_failed
              (DemoHost.host true) "/srv/app/sql_runner.py" false)
    as (r & w' & t & Hrun & Hiff & _).
  rewrite Hrun. cbn [fst]. apply Hiff.
  vm_compute in Hrun. now injection Hrun as <- <- <-.
Defined.

(** X12.  The first run: when the directory can be created, logging can
    be set up and the directory then holds no entry ending with [.sql],
    [main] creates the directory, lists it, writes one warning and the
    process exits with status 0; nothing is read and no connection is
    opened. *)
Theorem main_first_run_warns_and_exits_0
        (H : Host) (script_path : string) (listing : list string)
        (w w1 w2 w3 : W (host_world H)) :
  let sql_directory := sql_directory_of script_path in
  os_makedirs H sql_directory w = (Ok tt, w1) ->
  logging_basicConfig H w1 = (Ok tt, w2) ->
  os_listdir (host_world H) sql_directory w2 = (Ok listing, w3) ->
  filter has_sql_suffix listing = [] ->
  main H script_path w
  = (Ret tt, w3,
     [MevMakedirs sql_directory (Ok tt);
      MevBasicConfig (Ok tt);
      MevRunner (EvListdir sql_directory (Ok listing));
      MevRunner (EvLog WARNING ("No SQL files found in "
                                ++ sql_directory)%string)])
  /\ exit_status (fst (fst (main H script_path w))) = 0%Z
  /\ reads (runner_events (snd (main H script_path w))) = []
  /\ connects (runner_events (snd (main H script_path w))) = [].
Proof.
  intros sql_directory Hmk Hlog Hls Hnone.
  assert (Hmain : main H script_path w
                  = (Ret tt, w3,
                     [MevMakedirs sql_directory (Ok tt);
                      MevBasicConfig (Ok tt);
                      MevRunner (EvListdir sql_directory (Ok listing));
                      MevRunner (EvLog WARNING
                                       ("No SQL files found in "
                                        ++ sql_directory)%string)])).
  { unfold main, SQLQueryRunner_init, setup_logging.
    fold sql_directory. rewrite Hmk, Hlog.
    unfold run_all_queries. unfold bind at 1.
    rewrite (get_sql_files_run _ _ _ Hls), Hnone. reflexivity. }
  rewrite Hmain. now repeat split.
Qed.

Lemma main_first_run_warns_and_exits_0_witness :
  os_makedirs (DemoHost.host true) "/srv/app/sql_files" false = (Ok tt, true)
  /\ logging_basicConfig (DemoHost.host true) true = (Ok tt, true)
  /\ os_listdir DemoHost.world "/srv/app/sql_files" true = (Ok [], true)
  /\ main (DemoHost.host true) "/srv/app/sql_runner.py" false
     = (Ret tt, true,
        [MevMakedirs "/srv/app/sql_files" (Ok tt);
         MevBasicConfig (Ok tt);
         MevRunner (EvListdir "/srv/app/sql_files" (Ok []));
         MevRunner (EvLog WARNING
                          "No SQL files found in /srv/app/sql_files")]).
Proof.
  split; [reflexivity|]. split; [reflexivity|]. split; [reflexivity|].
  exact (proj1 (@main_first_run_warns_and_exits_0
                  (DemoHost.host true) "/srv/app/sql_runner.py" []
                  false true true true eq_refl eq_refl eq_refl eq_refl)).
Defined.

(* ================================================================== *)
(** * The log of one file, and the order of the listing *)
(* ================================================================== *)

Section LogShape.

Lemma row_logs_no_call (rows : list row) :
  cursor_opened (row_logs rows) = false /\ committed (row_logs rows) = false.
Proof.
  induction rows as [|r rows [H1 H2]]; [now split|]. split; assumption.
Qed.

(** The loop over the statements opens no cursor and commits
    nothing. *)
Lemma statements_trace_no_call (statements : list string)
      (body : list event) (stop : option pyexn) :
  statements_trace statements body stop ->
  cursor_opened body = false /\ committed body = false.
Proof.
  intros Hbody.
  induction Hbody as [|s rest t st Hsel Ht [IH1 IH2]
                      |s rows rest t st Hsel Ht [IH1 IH2]
                      |s e' rest|s e' rest Hsel];
    try (now split).
  destruct (row_logs_no_call rows) as [R1 R2].
  unfold cursor_opened, committed in *. cbn [existsb orb].
  rewrite !existsb_app, R1, R2, IH1, IH2. now split.
Qed.

End LogShape.

(** X13.  The log of the execution of one file has a fixed shape: the
    record announcing the execution, when a cursor was opened; then one
    record for every row fetched, in the order fetched; then the record
    of success, when the commit went through; then, when a call to the
    client raised, one error record for the last exception raised.
    [true] is returned exactly when there is no error record, and then
    success was logged.  Success and an error are both logged when a
    release raises after the commit. *)
Theorem execute_query_log_is_start_rows_success_error
        (Wd : World) (self : SQLQueryRunner) (query file_name : string)
        (w : W Wd) :
  exists b w' t,
    execute_query Wd self query file_name w = (Ret b, w', t)
    /\ logged t
       = (if cursor_opened t
          then [(INFO, ("Executing query from " ++ file_name)%string)]
          else [])
         ++ fetched_row_records t
         ++ (if committed t
             then [(INFO, ("Successfully executed query from "
                           ++ file_name)%string)]
             else [])
         ++ match last_raised t with
            | Some e => [(ERROR, ("Error executing query from "
                                  ++ file_name ++ ": "
                                  ++ str_of_exn e)%string)]
            | None => []
            end
    /\ (b = true <-> last_raised t = None)
    /\ (b = true -> committed t = true)
    /\ (committed t = true -> cursor_opened t = true)
    /\ (cursor_opened t = false -> fetched_row_records t = []).
Proof.
  destruct (@execute_query_run Wd self query file_name w)
    as (b & w' & t & Hrun & Hshape).
  exists b, w', t. split; [exact Hrun|].
  destruct (query_run_closing Hshape) as [Hb _].
  assert (Hiff : b = true <-> last_raised t = None).
  { rewrite Hb. destruct (last_raised t); split; intros H;
      reflexivity || discriminate H. }
  destruct Hshape as [e|e rc|inner o rk rc final Hcb Hfinal].
  - split; [reflexivity|]. split; [exact Hiff|].
    split; [discriminate|]. split; [discriminate|reflexivity].
  - split; [now destruct rc as [[]|ec]|]. split; [exact Hiff|].
    split; [discriminate|].
    split; [now destruct rc as [[]|ec]|now destruct rc as [[]|ec]].
  - split; [|split; [exact Hiff|]].
    + rewrite (block_last_raised rk rc final Hcb), <- Hfinal.
      destruct (cursor_block_loop Hcb)
        as (body & stop & tail & Hbody & -> & Htail).
      destruct (statements_trace_fetches Hbody) as [_ Hl].
      destruct (statements_trace_no_call Hbody) as [N1 N2].
      unfold cursor_opened, committed, fetched_row_records in *.
      cbn [app existsb orb].
      rewrite !existsb_app, N2.
      unfold_readers. rewrite Hl.
      destruct Htail as [(-> & _)|[(e & -> & _)|(-> & _)]];
        destruct final as [ef|];
        cbn [closing_record error_record existsb orb flat_map app];
        rewrite ?app_nil_r, <- ?app_assoc; reflexivity.
    + destruct (cursor_block_loop Hcb)
        as (body & stop & tail & Hbody & -> & Htail).
      destruct (statements_trace_no_call Hbody) as [N1 N2].
      split; [|split].
      * intros Htrue.
        destruct Htail as [(-> & _ & Ho)|[(e & -> & _ & Ho)|(-> & _)]].
        -- exfalso. subst final. destruct o as [e|]; [|now apply Ho].
           destruct rk as [[]|ek], rc as [[]|ec]; discriminate Htrue.
        -- exfalso. subst final o.
           destruct rk as [[]|ek], rc as [[]|ec]; discriminate Htrue.
        -- unfold committed in *. cbn [app existsb orb].
           rewrite !existsb_app, N2. reflexivity.
      * intros _. reflexivity.
      * discriminate.
Qed.

(** A [select] on a server that answers: start, one record per row,
    success.  The same on a client whose cursor cannot be released:
    start, the row, success, and then the error of the release. *)
Lemma execute_query_log_is_start_rows_success_error_witness :
  logged (snd (execute_query (Demo.world true true) Demo.runner
                             "select x from t" "3.sql" []))
  = [(INFO, "Executing query from 3.sql");
     (INFO, "Result: (1,)"); (INFO, "Result: (2,)");
     (INFO, "Successfully executed query from 3.sql")]
  /\ logged (snd (execute_query (DemoOk.world_releasing false true)
                                Demo.runner "select x from t" "b.sql" []))
     = [(INFO, "Executing query from b.sql");
        (INFO, "Result: (1,)");
        (INFO, "Successfully executed query from b.sql");
        (ERROR, "Error executing query from b.sql: Unread result found")].
Proof.
  split.
  - destruct (@execute_query_log_is_start_rows_success_error
                (Demo.world true true) Demo.runner "select x from t"
                "3.sql" [])
      as (b & w' & t & Hrun & Hlog & _).
    assert (E : snd (execute_query (Demo.world true true) Demo.runner
                                   "select x from t" "3.sql" []) = t)
      by now rewrite Hrun.
    rewrite E, Hlog, <- E. reflexivity.
  - destruct (@execute_query_log_is_start_rows_success_error
                (DemoOk.world_releasing false true) Demo.runner
                "select x from t" "b.sql" [])
      as (b & w' & t & Hrun & Hlog & _).
    assert (E : snd (execute_query (DemoOk.world_releasing false true)
                                   Demo.runner "select x from t"
                                   "b.sql" []) = t)
      by now rewrite Hrun.
    rewrite E, Hlog, <- E. reflexivity.
Defined.

(** X14.  The order in which the system lists the entries of the
    directory does not matter: two listings with the same entries give
    the same list of files, in the same order. *)
Theorem get_sql_files_ignores_listing_order
        (Wd Wd' : World) (directory : string) (listing listing' : list string)
        (w w1 : W Wd) (w' w1' : W Wd') :
  os_listdir Wd directory w = (Ok listing, w1) ->
  os_listdir Wd' directory w' = (Ok listing', w1') ->
  Permutation listing listing' ->
  fst (fst (get_sql_files Wd directory w))
  = fst (fst (get_sql_files Wd' directory w')).
Proof.
  intros Hls Hls' HP.
  rewrite (get_sql_files_run _ _ _ Hls), (get_sql_files_run _ _ _ Hls').
  cbn [fst]. f_equal. apply sorted_characterised; [|apply sorted_sorted].
  rewrite <- (sorted_perm _). apply Permutation_map. now apply perm_filter.
Qed.

(** The directory [ok] listed in two different orders. *)
Lemma get_sql_files_ignores_listing_order_witness :
  os_listdir (DemoOk.world_listed ["b.sql"; "notes.txt"; "a.sql"]) "ok" []
  = (Ok ["b.sql"; "notes.txt"; "a.sql"], [])
  /\ os_listdir (DemoOk.world_listed ["a.sql"; "b.sql"; "notes.txt"]) "ok" []
     = (Ok ["a.sql"; "b.sql"; "notes.txt"], [])
  /\ Permutation ["b.sql"; "notes.txt"; "a.sql"]
                 ["a.sql"; "b.sql"; "notes.txt"]
  /\ ["b.sql"; "notes.txt"; "a.sql"] <> ["a.sql"; "b.sql"; "notes.txt"]
  /\ fst (fst (get_sql_files
                 (DemoOk.world_listed ["b.sql"; "notes.txt"; "a.sql"])
                 "ok" []))
     = fst (fst (get_sql_files
                   (DemoOk.world_listed ["a.sql"; "b.sql"; "notes.txt"])
                   "ok" []))
  /\ fst (fst (get_sql_files
                 (DemoOk.world_listed ["b.sql"; "notes.txt"; "a.sql"])
                 "ok" []))
     = Ret ["ok/a.sql"; "ok/b.sql"].
Proof.
  assert (HP : Permutation ["b.sql"; "notes.txt"; "a.sql"]
                           ["a.sql"; "b.sql"; "notes.txt"]).
  { apply Permutation_sym.
    apply (@Permutation_cons_app _ ["b.sql"; "notes.txt"]
                                 ["b.sql"; "notes.txt"] [] "a.sql").
    rewrite app_nil_r. apply Permutation_refl. }
  split; [reflexivity|]. split; [reflexivity|]. split; [exact HP|].
  split; [discriminate|].
  split; [|reflexivity].
  exact (@get_sql_files_ignores_listing_order
           (DemoOk.world_listed ["b.sql"; "notes.txt"; "a.sql"])
           (DemoOk.world_listed ["a.sql"; "b.sql"; "notes.txt"]) "ok"
           ["b.sql"; "notes.txt"; "a.sql"] ["a.sql"; "b.sql"; "notes.txt"]
           [] [] [] [] eq_refl eq_refl HP).
Defined.
